(** * NodeLayout: placement of AppScale roles on nodes (lib/node_layout.py)

    A shallow embedding of [NodeLayout], [Node], [SimpleNode] and
    [AdvancedNode], followed by the properties of the layout validators.

    Python values are modelled as follows.
    - [str] is [string]; integers are [Z]; [None]-able scalars are [option].
    - A [dict] is an association list holding its items; the order in which
      Python 2 iterates a dict, and the order of [list(set(l))], depend on
      the interpreter's hash tables, so both are taken from a [HashOrder]
      structure of which only the order-independent facts are known.
    - Exceptions are values of [Exc]; methods that assign to [self] return
      the new [self] next to their result. *)

From Stdlib Require Import String Ascii List ZArith Lia Bool Permutation Arith.
From Stdlib Require Import DecimalString DecimalPos DecimalN.
Import ListNotations.
Local Open Scope string_scope.
Local Open Scope list_scope.

(** ** Python runtime *)

Inductive exn : Type :=
| TypeError        (* iterating over None *)
| AttributeError.  (* attribute missing on an object *)

Inductive Exc (A : Type) : Type :=
| Ok (a : A)
| Raise (e : exn).
Arguments Ok {A} a.
Arguments Raise {A} e.

(** [x in l] *)
Definition mem (x : string) (l : list string) : bool :=
  existsb (String.eqb x) l.

(** [l.remove(x)]: drops the first occurrence of [x]. *)
Fixpoint remove_first (x : string) (l : list string) : list string :=
  match l with
  | [] => []
  | y :: t => if String.eqb x y then t else y :: remove_first x t
  end.

(** [sep.join(l)] *)
Definition join (sep : string) (l : list string) : string :=
  String.concat sep l.

(** Truth value of an optional integer: [None] and [0] are false. *)
Definition truthy (z : option Z) : bool :=
  match z with
  | Some n => negb (Z.eqb n 0)
  | None => false
  end.

(** [str(n)] for a non-negative integer. *)
Definition str_of_Z (n : Z) : string :=
  NilEmpty.string_of_uint (N.to_uint (Z.to_N n)).

Definition dict (A : Type) : Type := list (string * A).

Fixpoint dict_get {A : Type} (k : string) (d : dict A) : option A :=
  match d with
  | [] => None
  | (k', v) :: t => if String.eqb k k' then Some v else dict_get k t
  end.

(** [d[k] = v] *)
Fixpoint dict_set {A : Type} (k : string) (v : A) (d : dict A) : dict A :=
  match d with
  | [] => [(k, v)]
  | (k', v') :: t =>
      if String.eqb k k' then (k, v) :: t else (k', v') :: dict_set k v t
  end.

(** Iteration orders fixed by the interpreter's hash tables.
    [list_of_set l] is [list(set(l))]; [dict_order d] lists the items of
    [d] as [d.iteritems()] does ([d.keys()] and [d.values()] follow the
    same order). *)
Record HashOrder : Type := {
  list_of_set : list string -> list string;
  list_of_set_NoDup : forall l, NoDup (list_of_set l);
  list_of_set_In : forall l x, In x (list_of_set l) <-> In x l;
  dict_order : forall A : Type, dict A -> dict A;
  dict_order_Permutation : forall (A : Type) (d : dict A),
      Permutation (dict_order A d) d
}.
Arguments dict_order _ {A} _.

(** ** Regular expressions of NodeLayout *)

Definition is_digit (c : ascii) : bool :=
  let n := nat_of_ascii c in Nat.leb 48 n && Nat.leb n 57.

(** [\d*], greedy: the longest prefix of digits and what follows it. *)
Fixpoint span_digits (s : string) : string * string :=
  match s with
  | EmptyString => ("", "")
  | String c t =>
      if is_digit c
      then let (d, r) := span_digits t in (String c d, r)
      else ("", s)
  end.

(** [\d+]. What follows [\d+] in both patterns is not a digit (a dot or the
    end of the pattern), so the greedy match is the only one to try. *)
Definition digits1 (s : string) : option (string * string) :=
  match span_digits s with
  | (EmptyString, _) => None
  | (d, r) => Some (d, r)
  end.

(** A literal at the start of [s]; returns what follows it. *)
Fixpoint literal (p s : string) : option string :=
  match p with
  | EmptyString => Some s
  | String a p' =>
      match s with
      | String b s' => if Ascii.eqb a b then literal p' s' else None
      | EmptyString => None
      end
  end.

Definition obind {A B : Type} (o : option A) (f : A -> option B) : option B :=
  match o with
  | Some a => f a
  | None => None
  end.

(** [IP_REGEX.match(s)] is not None, for [\d+\.\d+\.\d+\.\d+]. *)
Definition IP_REGEX_match (s : string) : bool :=
  match
    obind (digits1 s) (fun '(_, r) =>
    obind (literal "." r) (fun r =>
    obind (digits1 r) (fun '(_, r) =>
    obind (literal "." r) (fun r =>
    obind (digits1 r) (fun '(_, r) =>
    obind (literal "." r) (fun r =>
    digits1 r))))))
  with
  | Some _ => true
  | None => false
  end.

(** [NODE_ID_REGEX.match(s)] for [(node)-(\d+)]: [group(0)] and [group(1)]. *)
Definition NODE_ID_REGEX_match (s : string) : option (string * string) :=
  obind (literal "node-" s) (fun r =>
  obind (digits1 r) (fun '(d, _) =>
  Some (("node-" ++ d)%string, "node"))).

(** ** Node, SimpleNode, AdvancedNode *)

Definition VALID_ROLES : list string :=
  ["master"; "appengine"; "database"; "shadow"; "open";
   "load_balancer"; "login"; "db_master"; "db_slave"; "zookeeper"; "memcache";
   "rabbitmq"; "rabbitmq_master"; "rabbitmq_slave"].

Module SimpleNode.
Definition expand_roles (O : HashOrder) (roles : list string) : list string :=
  let roles :=
    if mem "controller" roles
    then remove_first "controller" roles
           ++ ["shadow"; "load_balancer"; "database"; "memcache"; "login";
               "zookeeper"; "rabbitmq"]
    else roles in
  let roles :=
    if mem "servers" roles
    then remove_first "servers" roles
           ++ ["appengine"; "memcache"; "database"; "rabbitmq"]
    else roles in
  list_of_set O roles.
End SimpleNode.

Module AdvancedNode.
Definition expand_roles (O : HashOrder) (roles : list string) : list string :=
  let roles :=
    if mem "master" roles
    then remove_first "master" roles ++ ["shadow"; "load_balancer"]
    else roles in
  let roles :=
    if mem "login" roles then roles ++ ["load_balancer"] else roles in
  let roles :=
    if mem "database" roles then roles ++ ["memcache"] else roles in
  list_of_set O roles.
End AdvancedNode.

Module Node.
(** The class of the object, on which [expand_roles] dispatches. *)
Inductive class : Type := Simple | Advanced.

Record t : Type := mk {
  cls : class;
  id : string;
  cloud : string;
  roles : list string
}.

Section Methods.
Variable O : HashOrder.

Definition expand_roles (n : t) : t :=
  mk (cls n) (id n) (cloud n)
     (match cls n with
      | Simple => SimpleNode.expand_roles O (roles n)
      | Advanced => AdvancedNode.expand_roles O (roles n)
      end).

(** [__init__]. [AdvancedNode(id, cloud)] takes the default [roles=[]];
    the default list is never appended to, since [expand_roles] finds
    nothing in it and rebinds [self.roles] to a new list. *)
Definition init (c : class) (i cl : string) (rs : list string) : t :=
  expand_roles (mk c i cl rs).

Definition add_role (role : string) (n : t) : t :=
  expand_roles (mk (cls n) (id n) (cloud n) (roles n ++ [role])).

Definition add_db_role (is_master : bool) (n : t) : t :=
  if is_master then add_role "db_master" n else add_role "db_slave" n.

Definition add_rabbitmq_role (is_master : bool) (n : t) : t :=
  if is_master then add_role "rabbitmq_master" n
  else add_role "rabbitmq_slave" n.
End Methods.

Definition is_role (role : string) (n : t) : bool := mem role (roles n).

Definition errors (n : t) : list string :=
  flat_map
    (fun role =>
       if mem role VALID_ROLES then []
       else [("Invalid role: " ++ role)%string])
    (roles n).

Definition is_valid (n : t) : bool :=
  match errors n with
  | [] => true
  | _ :: _ => false
  end.
End Node.

(** ** NodeLayout *)

(** The value stored under a key of the placement YAML. *)
Inductive hosts : Type :=
| HostsNone                       (* a key with nothing after it: None *)
| HostsStr (ip : string)          (* one host, as a str *)
| HostsList (ips : list string).  (* a list of hosts *)

(** What [for ip in ips] iterates over, after a str was wrapped in a list;
    iterating over None raises. *)
Definition iter_hosts (ips : hosts) : Exc (list string) :=
  match ips with
  | HostsNone => Raise TypeError
  | HostsStr ip => Ok [ip]
  | HostsList l => Ok l
  end.

Definition host_eq_dec : forall a b : option string, {a = b} + {a <> b}.
Proof. decide equality. apply string_dec. Defined.

(** [len(set(l))] *)
Definition len_set (l : list (option string)) : nat :=
  length (nodup host_eq_dec l).

(** First position of [l] whose element satisfies [p] ([length l] if none):
    how the model refers to an object that is also an element of [l]. *)
Fixpoint find_index {A : Type} (p : A -> bool) (l : list A) : nat :=
  match l with
  | [] => 0
  | x :: t => if p x then 0 else S (find_index p t)
  end.

(** The list [l] after the object at position [i] was mutated by [f]. *)
Fixpoint on_index {A : Type} (i : nat) (f : A -> A) (l : list A) : list A :=
  match l, i with
  | [], _ => []
  | x :: t, O => f x :: t
  | x :: t, S j => x :: on_index j f t
  end.

Module NodeLayout.

Definition SIMPLE_FORMAT_KEYS : list string := ["controller"; "servers"].

Definition ADVANCED_FORMAT_KEYS : list string :=
  ["master"; "database"; "appengine"; "open"; "login";
   "zookeeper"; "memcache"; "rabbitmq"].

Definition DUPLICATE_IPS : string :=
  "Cannot specify the same IP address more than once.".
Definition NO_CONTROLLER : string := "No controller was specified".
Definition ONLY_ONE_CONTROLLER : string := "Only one controller is allowed".
Definition NO_YAML_REQUIRES_MIN : string :=
  "Must specify min if not using a YAML file".
Definition NO_YAML_REQUIRES_MAX : string :=
  "Must specify max if not using a YAML file".
Definition INPUT_YAML_REQUIRED : string :=
  "A YAML file is required for virtualized clusters".

(** The dict built by [valid] and [invalid]. *)
Record Result : Type := mkResult {
  result : bool;
  message : option string
}.

Definition valid : Result := mkResult true None.
Definition invalid (msg : string) : Result := mkResult false (Some msg).

Record t : Type := mk {
  input_yaml : option (dict hosts);
  infrastructure : option string;
  min_vms : option Z;
  max_vms : option Z;
  replication : option Z;
  database_type : string;
  nodes : list Node.t
}.

(** [__init__] on options whose ['ips'] is a dict or is missing. *)
Definition init (ips : option (dict hosts)) (infra : option string)
    (min max repl : option Z) (table : string) : t :=
  mk ips infra min max repl table [].

Definition set_input_yaml (y : option (dict hosts)) (self : t) : t :=
  mk y (infrastructure self) (min_vms self) (max_vms self)
     (replication self) (database_type self) (nodes self).
Definition set_min_vms (v : option Z) (self : t) : t :=
  mk (input_yaml self) (infrastructure self) v (max_vms self)
     (replication self) (database_type self) (nodes self).
Definition set_max_vms (v : option Z) (self : t) : t :=
  mk (input_yaml self) (infrastructure self) (min_vms self) v
     (replication self) (database_type self) (nodes self).
Definition set_replication (v : option Z) (self : t) : t :=
  mk (input_yaml self) (infrastructure self) (min_vms self) (max_vms self)
     v (database_type self) (nodes self).
Definition set_nodes (v : list Node.t) (self : t) : t :=
  mk (input_yaml self) (infrastructure self) (min_vms self) (max_vms self)
     (replication self) (database_type self) v.

(** Where a loop body leaves: on to the next statement, out of the method
    with a result, or out with an exception. *)
Inductive flow (A : Type) : Type :=
| Next (a : A)
| Return (r : Result)
| Throw (e : exn).
Arguments Next {A} a.
Arguments Return {A} r.
Arguments Throw {A} e.

(** The dict [num_roles] of [count_roles]. *)
Record num_roles : Type := mkRoles {
  login : Z;
  appengine : Z;
  database : Z;
  zookeeper : Z
}.

(** A counting loop: [c = 0; for node in nodes: if p(node): c += 1]. *)
Definition count_nodes (p : Node.t -> bool) (l : list Node.t) : Z :=
  fold_left (fun c node => if p node then (c + 1)%Z else c) l 0%Z.

(** The inner loop of [count_roles] over the roles of one node. *)
Fixpoint count_node_roles (roles : list string) (found_three_tier_role : bool)
    (num : num_roles) : num_roles :=
  match roles with
  | [] => num
  | role :: rest =>
      if found_three_tier_role then num
      else if String.eqb role "login" then
        count_node_roles rest true
          (mkRoles (login num + 1) (appengine num) (database num) (zookeeper num))
      else if String.eqb role "appengine" then
        count_node_roles rest true
          (mkRoles (login num) (appengine num + 1) (database num) (zookeeper num))
      else if String.eqb role "db_master" then
        count_node_roles rest true
          (mkRoles (login num) (appengine num) (database num + 1) (zookeeper num))
      else if String.eqb role "db_slave" then
        count_node_roles rest true
          (mkRoles (login num) (appengine num) (database num + 1) (zookeeper num))
      else if String.eqb role "zookeeper" then
        count_node_roles rest true
          (mkRoles (login num) (appengine num) (database num) (zookeeper num + 1))
      else count_node_roles rest false num
  end.

Definition count_roles (self : t) : num_roles :=
  fold_left (fun num node => count_node_roles (Node.roles node) false num)
    (nodes self) (mkRoles 0 0 0 0).

Definition is_supported_advanced_format (self : t) : bool :=
  if Nat.eqb (length (nodes self)) 1 then true
  else if Nat.eqb (length (nodes self)) 4 then
    let num := count_roles self in
    Z.eqb (login num) 1 && Z.eqb (appengine num) 1
    && Z.eqb (database num) 1 && Z.eqb (zookeeper num) 1
  else if Nat.eqb (length (nodes self)) 8 then
    let num := count_roles self in
    Z.eqb (login num) 1 && Z.eqb (appengine num) 2
    && Z.eqb (database num) 2 && Z.eqb (zookeeper num) 3
  else false.

Definition parse_ip (ip : string) : string * string :=
  match NODE_ID_REGEX_match ip with
  | None => (ip, "not-cloud")
  | Some (group0, group1) => (group0, group1)
  end.

Section Methods.
(** [InfrastructureAgentFactory.VALID_AGENTS] (agents/factory.py). *)
Variable VALID_AGENTS : list string.
Variable O : HashOrder.

(** [self.infrastructure in InfrastructureAgentFactory.VALID_AGENTS] *)
Definition in_valid_agents (self : t) : bool :=
  match infrastructure self with
  | Some i => mem i VALID_AGENTS
  | None => false
  end.

(** Truth value of [self.input_yaml]: None and the empty dict are false. *)
Definition has_input_yaml (self : t) : bool :=
  match input_yaml self with
  | Some (_ :: _) => true
  | _ => false
  end.

Definition is_simple_format (self : t) : bool :=
  match input_yaml self with
  | Some ((_ :: _) as y) =>
      forallb (fun '(key, _) => mem key SIMPLE_FORMAT_KEYS) (dict_order O y)
  | _ => in_valid_agents self
  end.

Definition is_advanced_format (self : t) : bool :=
  match input_yaml self with
  | Some ((_ :: _) as y) =>
      forallb (fun '(key, _) => mem key ADVANCED_FORMAT_KEYS)
        (dict_order O y)
  | _ => false
  end.

Definition is_database_replication_valid (self : t) (nodes : list Node.t)
  : Result * t :=
  let database_node_count :=
    count_nodes
      (fun node =>
         Node.is_role "database" node || Node.is_role "db_master" node)
      nodes in
  if Z.eqb database_node_count 0 then
    (invalid "At least one database node must be provided.", self)
  else
    let derived :=
      if Z.ltb 3 database_node_count then 3%Z else database_node_count in
    let '(replication, self) :=
      match replication self with
      | Some r =>
          if Z.eqb r 0 then (derived, set_replication (Some derived) self)
          else (r, self)
      | None => (derived, set_replication (Some derived) self)
      end in
    if Z.ltb database_node_count replication then
      (invalid "Replication factor cannot exceed # of databases", self)
    else if String.eqb (database_type self) "mysql"
            && negb (Z.eqb (database_node_count mod replication) 0) then
      (invalid ("MySQL requires that the amount of replication "
                ++ "be divisible by the number of nodes")%string, self)
    else (valid, self).

(** [None - 1] raises; the method is only called with a true [min_vms]. *)
Definition generate_cloud_layout (self : t) : Exc (dict hosts) :=
  match min_vms self with
  | None => Raise TypeError
  | Some min =>
      let num_slaves := (min - 1)%Z in
      let servers :=
        map (fun i => ("node-" ++ str_of_Z (Z.of_nat i + 1))%string)
          (seq 0 (Z.to_nat num_slaves)) in
      Ok [("controller", HostsStr "node-0"); ("servers", HostsList servers)]
  end.

(** The check of a node's id against the infrastructure, shared by both
    validators: [Some r] when it returns [r]. *)
Definition check_node_id (self : t) (node : Node.t) : option Result :=
  if in_valid_agents self then
    match NODE_ID_REGEX_match (Node.id node) with
    | None =>
        Some (invalid (Node.id node
                       ++ " is not a valid node ID (must be node-int)")%string)
    | Some _ => None
    end
  else if IP_REGEX_match (Node.id node) then None
  else Some (invalid (Node.id node ++ " must be an IP address")%string).

(** *** is_valid_simple_format *)

(** The node built for one host of one key. *)
Definition simple_node (role ip : string) : Node.t :=
  let '(id, cloud) := parse_ip ip in
  let node := Node.init O Node.Simple id cloud [role] in
  let is_master := Node.is_role "shadow" node in
  let node := Node.add_db_role O is_master node in
  Node.add_rabbitmq_role O is_master node.

(** [for ip in ips]. An invalid node reaches [node.errors().join(",")],
    and a list has no [join]. *)
Fixpoint simple_ips_loop (self : t) (role : string) (ips : list string)
    (nodes : list Node.t) : flow (list Node.t) :=
  match ips with
  | [] => Next nodes
  | ip :: rest =>
      let node := simple_node role ip in
      if negb (Node.is_valid node) then Throw AttributeError
      else
        match check_node_id self node with
        | Some r => Return r
        | None => simple_ips_loop self role rest (nodes ++ [node])
        end
  end.

(** [for role, ips in self.input_yaml.iteritems()]. The statement under
    [if not ips] is the expression [next], which does nothing, so a None
    value goes on to [for ip in ips]. *)
Fixpoint simple_items_loop (self : t) (items : dict hosts)
    (nodes : list Node.t) : flow (list Node.t) :=
  match items with
  | [] => Next nodes
  | (role, ips) :: rest =>
      match iter_hosts ips with
      | Raise e => Throw e
      | Ok ips =>
          match simple_ips_loop self role ips nodes with
          | Next nodes => simple_items_loop self rest nodes
          | Return r => Return r
          | Throw e => Throw e
          end
      end
  end.

(** The start of the method, up to the loop: a missing description is
    generated on a cloud, and refused elsewhere. *)
Definition simple_input (self : t) : flow t :=
  if has_input_yaml self then Next self
  else if in_valid_agents self then
    if negb (truthy (min_vms self)) then Return (invalid NO_YAML_REQUIRES_MIN)
    else if negb (truthy (max_vms self)) then
      Return (invalid NO_YAML_REQUIRES_MAX)
    else
      match generate_cloud_layout self with
      | Ok layout => Next (set_input_yaml (Some layout) self)
      | Raise e => Throw e
      end
  else Return (invalid INPUT_YAML_REQUIRED).

Definition all_ips (y : dict hosts) : list (option string) :=
  flat_map
    (fun '(_, ip_or_ips) =>
       match ip_or_ips with
       | HostsList l => map Some l
       | HostsStr ip => [Some ip]
       | HostsNone => [None]
       end)
    (dict_order O y).

(** [if len(nodes) == 1]: the singleton node is also an app server. *)
Definition promote_single (nodes : list Node.t) : list Node.t :=
  match nodes with
  | [node] => [Node.add_role O "memcache" (Node.add_role O "appengine" node)]
  | _ => nodes
  end.

(** The method from the duplicate check on, given the nodes of the loop.
    ([database_count] is computed there and never read.) *)
Definition simple_checks (self : t) (y : dict hosts) (nodes : list Node.t)
  : Result * t :=
  let num_of_duplicate_ips :=
    (Z.of_nat (length (all_ips y)) - Z.of_nat (len_set (all_ips y)))%Z in
  if Z.ltb 0 num_of_duplicate_ips then (invalid DUPLICATE_IPS, self)
  else
    let nodes := promote_single nodes in
    let controller_count := count_nodes (Node.is_role "shadow") nodes in
    if Z.eqb controller_count 0 then (invalid NO_CONTROLLER, self)
    else if Z.ltb 1 controller_count then (invalid ONLY_ONE_CONTROLLER, self)
    else
      let '(rep, self) := is_database_replication_valid self nodes in
      if negb (result rep) then (rep, self)
      else (valid, set_nodes nodes self).

Definition is_valid_simple_format (self : t) : Exc (Result * t) :=
  match nodes self with
  | _ :: _ => Ok (valid, self)
  | [] =>
      match simple_input self with
      | Throw e => Raise e
      | Return r => Ok (r, self)
      | Next self =>
          match input_yaml self with
          | None => Raise AttributeError
          | Some y =>
              match simple_items_loop self (dict_order O y) [] with
              | Throw e => Raise e
              | Return r => Ok (r, self)
              | Next nodes => Ok (simple_checks self y nodes)
              end
          end
      end
  end.

(** *** is_valid_advanced_format *)

(** The node of [ip]: the one stored in [node_hash], or a new one. *)
Definition advanced_node (node_hash : dict Node.t) (ip : string) : Node.t :=
  match dict_get ip node_hash with
  | Some node => node
  | None =>
      let '(id, cloud) := parse_ip ip in
      Node.init O Node.Advanced id cloud []
  end.

(** The roles a key gives to the host at position [index] of its list. *)
Definition advanced_add_roles (role : string) (index : nat) (node : Node.t)
  : Node.t :=
  if String.eqb role "database" then
    Node.add_db_role O (Nat.eqb index 0) node
  else if String.eqb role "db_master" then
    Node.add_role O "role" (Node.add_role O "zookeeper" node)
  else if String.eqb role "rabbitmq" then
    Node.add_rabbitmq_role O (Nat.eqb index 0)
      (Node.add_role O "rabbitmq" node)
  else Node.add_role O role node.

(** [for index, ip in enumerate(ips)] *)
Fixpoint advanced_ips_loop (role : string) (ips : list string) (index : nat)
    (node_hash : dict Node.t) : dict Node.t :=
  match ips with
  | [] => node_hash
  | ip :: rest =>
      let node := advanced_add_roles role index (advanced_node node_hash ip) in
      advanced_ips_loop role rest (S index) (dict_set ip node node_hash)
  end.

(** [for role, ips in self.input_yaml.iteritems()] *)
Fixpoint advanced_items_loop (items : dict hosts) (node_hash : dict Node.t)
  : Exc (dict Node.t) :=
  match items with
  | [] => Ok node_hash
  | (role, ips) :: rest =>
      match iter_hosts ips with
      | Raise e => Raise e
      | Ok ips =>
          advanced_items_loop rest (advanced_ips_loop role ips 0 node_hash)
      end
  end.

(** The first loop over [nodes]: [Some r] when it returns [r]. *)
Fixpoint advanced_nodes_loop (self : t) (nodes : list Node.t)
  : option Result :=
  match nodes with
  | [] => None
  | node :: rest =>
      if negb (Node.is_valid node) then
        Some (invalid (join "," (Node.errors node)))
      else
        match check_node_id self node with
        | Some r => Some r
        | None => advanced_nodes_loop self rest
        end
  end.

(** The defaults applied to a node set with one coordinator.
    [master_node] is the first element of [master_nodes], an object of
    [nodes]: the model keeps its position [master] in [nodes] and
    mutates [nodes] there. *)

(** If a login node was not specified, the master is the login node. *)
Definition default_login (master : nat) (nodes : list Node.t)
  : list Node.t :=
  let login_nodes := filter (Node.is_role "login") nodes in
  match login_nodes with
  | [] => on_index master (Node.add_role O "login") nodes
  | _ :: _ => nodes
  end.

(** If no memcache node was specified, every appengine node is one. *)
Definition default_memcache (nodes : list Node.t) : list Node.t :=
  let memcache_count := count_nodes (Node.is_role "memcache") nodes in
  if Z.ltb memcache_count 1 then
    map (fun node =>
           if Node.is_role "appengine" node
           then Node.add_role O "memcache" node else node)
      nodes
  else nodes.

(** On a cloud, [min_vms] and [max_vms] default to the number of nodes. *)
Definition default_vms (self : t) (nodes : list Node.t) : t :=
  if in_valid_agents self then
    let self :=
      if negb (truthy (min_vms self))
      then set_min_vms (Some (Z.of_nat (length nodes))) self
      else self in
    if negb (truthy (max_vms self))
    then set_max_vms (Some (Z.of_nat (length nodes))) self
    else self
  else self.

Definition default_zookeeper (master : nat) (nodes : list Node.t)
  : list Node.t :=
  let zookeeper_count := count_nodes (Node.is_role "zookeeper") nodes in
  if Z.eqb zookeeper_count 0
  then on_index master (Node.add_role O "zookeeper") nodes
  else nodes.

(** If no rabbitmq node was specified, the shadow is rabbitmq_master. *)
Definition default_rabbitmq (master : nat) (nodes : list Node.t)
  : list Node.t :=
  let rabbitmq_count := count_nodes (Node.is_role "rabbitmq") nodes in
  if Z.eqb rabbitmq_count 0 then
    on_index master
      (fun node =>
         Node.add_role O "rabbitmq_master" (Node.add_role O "rabbitmq" node))
      nodes
  else nodes.

(** Any node that runs appengine needs rabbitmq. *)
Definition add_rabbitmq_slaves (nodes : list Node.t) : list Node.t :=
  map (fun node =>
         if Node.is_role "appengine" node
            && negb (Node.is_role "rabbitmq" node)
         then Node.add_role O "rabbitmq_slave" node else node)
    nodes.

(** The method after the first loop over [nodes]. *)
Definition advanced_checks (self : t) (nodes : list Node.t) : Result * t :=
  let master_nodes := filter (Node.is_role "shadow") nodes in
  match master_nodes with
  | [] => (invalid "No master was specified", self)
  | _ :: _ :: _ => (invalid "Only one master is allowed", self)
  | [_] =>
      let master := find_index (Node.is_role "shadow") nodes in
      let nodes := default_login master nodes in
      let appengine_count := count_nodes (Node.is_role "appengine") nodes in
      if Z.ltb appengine_count 1 then
        (invalid "Need to specify at least one appengine node", self)
      else
        let nodes := default_memcache nodes in
        let self := default_vms self nodes in
        let nodes := default_zookeeper master nodes in
        let nodes := default_rabbitmq master nodes in
        let nodes := add_rabbitmq_slaves nodes in
        let '(rep, self) := is_database_replication_valid self nodes in
        if negb (result rep) then (rep, self)
        else (valid, set_nodes nodes self)
  end.

(** [None.iteritems()] raises. *)
Definition advanced_build (self : t) : Exc (dict Node.t) :=
  match input_yaml self with
  | None => Raise AttributeError
  | Some y => advanced_items_loop (dict_order O y) []
  end.

Definition is_valid_advanced_format (self : t) : Exc (Result * t) :=
  match nodes self with
  | _ :: _ => Ok (valid, self)
  | [] =>
      match advanced_build self with
      | Raise e => Raise e
      | Ok node_hash =>
          let nodes := map snd (dict_order O node_hash) in
          match advanced_nodes_loop self nodes with
          | Some r => Ok (r, self)
          | None => Ok (advanced_checks self nodes)
          end
      end
  end.

(** *** is_valid and the views of a layout *)

Definition is_valid (self : t) : Exc (bool * t) :=
  if is_simple_format self then
    match is_valid_simple_format self with
    | Ok (r, self) => Ok (result r, self)
    | Raise e => Raise e
    end
  else if is_advanced_format self then
    match is_valid_advanced_format self with
    | Ok (r, self) => Ok (result r, self)
    | Raise e => Raise e
    end
  else Ok (false, self).

Definition is_supported (self : t) : bool :=
  if is_simple_format self then true
  else if is_advanced_format self then is_supported_advanced_format self
  else false.

Definition replication_factor (self : t) : Exc (option Z * t) :=
  match is_valid self with
  | Ok (true, self) => Ok (replication self, self)
  | Ok (false, self) => Ok (None, self)
  | Raise e => Raise e
  end.

(** *** errors and the accessors *)

(** What [errors] returns: a list of reasons, or the [message] of a
    validator (a str, or None). *)
Inductive report : Type :=
| ReportList (reasons : list string)
| ReportMessage (message : option string).

(** The first key of the description that neither format knows, as the
    loop of [errors] finds it. *)
Definition unsupported_flag (items : dict hosts) : option string :=
  match
    find (fun '(key, _) =>
            negb (mem key SIMPLE_FORMAT_KEYS)
            && negb (mem key ADVANCED_FORMAT_KEYS))
      items
  with
  | Some (key, _) => Some key
  | None => None
  end.

(** The class defines no [USED_SIMPLE_AND_ADVANCED_KEYS]: reading it
    raises. *)
Definition errors (self : t) : Exc (report * t) :=
  match is_valid self with
  | Raise e => Raise e
  | Ok (true, self) => Ok (ReportList [], self)
  | Ok (false, self) =>
      if is_simple_format self then
        match is_valid_simple_format self with
        | Ok (r, self) => Ok (ReportMessage (message r), self)
        | Raise e => Raise e
        end
      else if is_advanced_format self then
        match is_valid_advanced_format self with
        | Ok (r, self) => Ok (ReportMessage (message r), self)
        | Raise e => Raise e
        end
      else if negb (has_input_yaml self) then
        Ok (ReportList [INPUT_YAML_REQUIRED], self)
      else
        match input_yaml self with
        | None => Raise AttributeError
        | Some y =>
            match unsupported_flag (dict_order O y) with
            | Some key =>
                Ok (ReportList
                      [("The flag " ++ key ++ " is not a supported flag")%string],
                    self)
            | None => Raise AttributeError
            end
        end
  end.

Definition head_node (self : t) : Exc (option Node.t * t) :=
  match is_valid self with
  | Raise e => Raise e
  | Ok (false, self) => Ok (None, self)
  | Ok (true, self) => Ok (find (Node.is_role "shadow") (nodes self), self)
  end.

Definition other_nodes (self : t) : Exc (list Node.t * t) :=
  match is_valid self with
  | Raise e => Raise e
  | Ok (false, self) => Ok ([], self)
  | Ok (true, self) =>
      Ok (filter (fun node => negb (Node.is_role "shadow" node)) (nodes self),
          self)
  end.

Definition db_master (self : t) : Exc (option Node.t * t) :=
  match is_valid self with
  | Raise e => Raise e
  | Ok (false, self) => Ok (None, self)
  | Ok (true, self) => Ok (find (Node.is_role "db_master") (nodes self), self)
  end.

Definition to_dict_without_head_node (self : t)
  : Exc (dict (list string) * t) :=
  match other_nodes self with
  | Raise e => Raise e
  | Ok (others, self) =>
      Ok (fold_left
            (fun result node => dict_set (Node.id node) (Node.roles node) result)
            others [],
          self)
  end.
End Methods.
End NodeLayout.

(** ** An instance of the iteration orders

    Sets listed in the order of last insertion and dicts in the order of
    first insertion: one admissible [HashOrder], used to run the model. *)
Definition insertion_order : HashOrder :=
  {| list_of_set := nodup string_dec;
     list_of_set_NoDup := NoDup_nodup string_dec;
     list_of_set_In := nodup_In string_dec;
     dict_order := fun _ d => d;
     dict_order_Permutation := fun A d => Permutation_refl d |}.

(** * Vocabulary of the properties *)

(** [x] occurs at most once in [l]. *)
Definition once (x : string) (l : list string) : Prop :=
  (count_occ string_dec l x <= 1)%nat.

(** A node that counts as a database: it carries [database] or [db_master]. *)
Definition is_database_node (node : Node.t) : bool :=
  Node.is_role "database" node || Node.is_role "db_master" node.

(** The nodes the replication validator counts. *)
Definition database_nodes (nodes : list Node.t) : list Node.t :=
  filter is_database_node nodes.

(** The factor derived when none was requested. *)
Definition derived_replication (n : Z) : Z := if Z.ltb 3 n then 3%Z else n.

(** The factor the validator settles on for [n] database nodes. *)
Definition settled_replication (self : NodeLayout.t) (n : Z) : Z :=
  match NodeLayout.replication self with
  | Some q => if Z.eqb q 0 then derived_replication n else q
  | None => derived_replication n
  end.

(** The tiers counted by [count_roles]. *)
Inductive tier : Type := Login | Appengine | Database | Zookeeper.

Definition tier_eqb (a b : tier) : bool :=
  match a, b with
  | Login, Login | Appengine, Appengine
  | Database, Database | Zookeeper, Zookeeper => true
  | _, _ => false
  end.

(** The tier a role stands for: the if/elif chain of [count_roles]. *)
Definition tier_of_role (role : string) : option tier :=
  if String.eqb role "login" then Some Login
  else if String.eqb role "appengine" then Some Appengine
  else if String.eqb role "db_master" then Some Database
  else if String.eqb role "db_slave" then Some Database
  else if String.eqb role "zookeeper" then Some Zookeeper
  else None.

(** The tier of the first role, in the order of the role list, that has one. *)
Fixpoint first_listed_tier (roles : list string) : option tier :=
  match roles with
  | [] => None
  | role :: rest =>
      match tier_of_role role with
      | Some t => Some t
      | None => first_listed_tier rest
      end
  end.

(** The tier of a node by priority, whatever the order of its role list:
    login, then appengine, then db_master or db_slave, then zookeeper. *)
Definition priority_tier (roles : list string) : option tier :=
  if mem "login" roles then Some Login
  else if mem "appengine" roles then Some Appengine
  else if mem "db_master" roles || mem "db_slave" roles then Some Database
  else if mem "zookeeper" roles then Some Zookeeper
  else None.

(** The node is of tier [t] when its tier is chosen by [pick]. *)
Definition has_tier (pick : list string -> option tier) (t : tier)
    (node : Node.t) : bool :=
  match pick (Node.roles node) with
  | Some t' => tier_eqb t t'
  | None => false
  end.

(** Number of nodes whose tier, chosen by [pick], is [t]. *)
Definition tally (pick : list string -> option tier) (t : tier)
    (nodes : list Node.t) : nat :=
  length (filter (has_tier pick t) nodes).

(** The supported shapes: one node; four nodes, one per tier; eight nodes
    with one login, two appengine, two database and three zookeeper. *)
Definition supported_shape (pick : list string -> option tier)
    (nodes : list Node.t) : Prop :=
  length nodes = 1%nat
  \/ (length nodes = 4%nat
      /\ tally pick Login nodes = 1%nat /\ tally pick Appengine nodes = 1%nat
      /\ tally pick Database nodes = 1%nat /\ tally pick Zookeeper nodes = 1%nat)
  \/ (length nodes = 8%nat
      /\ tally pick Login nodes = 1%nat /\ tally pick Appengine nodes = 2%nat
      /\ tally pick Database nodes = 2%nat /\ tally pick Zookeeper nodes = 3%nat).

(** One more node of the tier [o] in the counts. *)
Definition bump (o : option tier) (num : NodeLayout.num_roles)
  : NodeLayout.num_roles :=
  match o with
  | None => num
  | Some Login =>
      NodeLayout.mkRoles (NodeLayout.login num + 1) (NodeLayout.appengine num)
        (NodeLayout.database num) (NodeLayout.zookeeper num)
  | Some Appengine =>
      NodeLayout.mkRoles (NodeLayout.login num) (NodeLayout.appengine num + 1)
        (NodeLayout.database num) (NodeLayout.zookeeper num)
  | Some Database =>
      NodeLayout.mkRoles (NodeLayout.login num) (NodeLayout.appengine num)
        (NodeLayout.database num + 1) (NodeLayout.zookeeper num)
  | Some Zookeeper =>
      NodeLayout.mkRoles (NodeLayout.login num) (NodeLayout.appengine num)
        (NodeLayout.database num) (NodeLayout.zookeeper num + 1)
  end.

(** The description [{master: 10.0.0.1, zookeeper: [10.0.0.1, 10.0.0.4],
    appengine: 10.0.0.2, database: 10.0.0.3}]: the coordinator is listed as
    a zookeeper node and is made the login node by default. *)
Definition two_zookeepers : dict hosts :=
  [("master", HostsStr "10.0.0.1");
   ("zookeeper", HostsList ["10.0.0.1"; "10.0.0.4"]);
   ("appengine", HostsStr "10.0.0.2");
   ("database", HostsStr "10.0.0.3")].

(** A node set for [{master: 10.0.0.1, login: [10.0.0.1, 10.0.0.4],
    appengine: 10.0.0.2, database: 10.0.0.3}]: the coordinator is a login
    node, was given [zookeeper] by default, and has [zookeeper] before
    [login] in its role list. *)
Definition two_logins : list Node.t :=
  [Node.mk Node.Advanced "10.0.0.4" "not-cloud" ["load_balancer"; "login"];
   Node.mk Node.Advanced "10.0.0.1" "not-cloud"
     ["load_balancer"; "rabbitmq_master"; "zookeeper"; "rabbitmq"; "login";
      "shadow"];
   Node.mk Node.Advanced "10.0.0.3" "not-cloud" ["db_master"];
   Node.mk Node.Advanced "10.0.0.2" "not-cloud"
     ["memcache"; "rabbitmq_slave"; "appengine"]].

(** An advanced node whose roles were expanded: no [master] is left. *)
Definition advanced_ok (n : Node.t) : Prop :=
  Node.cls n = Node.Advanced /\ ~ In "master" (Node.roles n).

(** A simple node whose roles were expanded. *)
Definition simple_ok (n : Node.t) : Prop :=
  Node.cls n = Node.Simple
  /\ ~ In "controller" (Node.roles n) /\ ~ In "servers" (Node.roles n).

(** The roles the defaults of the advanced validator may add to a node. *)
Definition default_roles : list string :=
  ["login"; "memcache"; "zookeeper"; "rabbitmq"; "rabbitmq_master";
   "rabbitmq_slave"; "load_balancer"].

(** What the defaults leave alone on a node: its id and whether it carries
    [x]. *)
Definition view (x : string) (n : Node.t) : string * bool :=
  (Node.id n, Node.is_role x n).

(** [f] keeps expanded advanced nodes such, with their id and with [x]. *)
Definition steady (x : string) (f : Node.t -> Node.t) : Prop :=
  forall n, advanced_ok n -> advanced_ok (f n) /\ view x (f n) = view x n.

(** [l'] is [l] with roles other than [x] added to some nodes. *)
Definition same_nodes (x : string) (l l' : list Node.t) : Prop :=
  Forall advanced_ok l' /\ map (view x) l' = map (view x) l.

(** The node set after all the defaults of [is_valid_advanced_format]. *)
Definition advanced_defaults (O : HashOrder) (nodes : list Node.t)
  : list Node.t :=
  let master := find_index (Node.is_role "shadow") nodes in
  NodeLayout.add_rabbitmq_slaves O
    (NodeLayout.default_rabbitmq O master
       (NodeLayout.default_zookeeper O master
          (NodeLayout.default_memcache O
             (NodeLayout.default_login O master nodes)))).

(** The node of key [k] in [h] carries the role [x]. *)
Definition carries (h : dict Node.t) (k x : string) : Prop :=
  exists n, dict_get k h = Some n /\ In x (Node.roles n).

(** The id of a node is the one parsed from the key it is stored under. *)
Definition keyed_by_id (h : dict Node.t) : Prop :=
  forall k n, dict_get k h = Some n -> Node.id n = fst (NodeLayout.parse_ip k).

(** The description of the specification's example, with three database
    hosts. *)
Definition three_databases : dict hosts :=
  [("master", HostsStr "10.0.0.1");
   ("appengine", HostsStr "10.0.0.2");
   ("database", HostsList ["10.0.0.3"; "10.0.0.4"; "10.0.0.5"])].

(** A description that uses the key [db_master]. *)
Definition with_db_master : dict hosts :=
  [("master", HostsStr "10.0.0.1");
   ("appengine", HostsStr "10.0.0.2");
   ("db_master", HostsStr "10.0.0.3")].

(** Number of nodes of the hash that carry [x]. *)
Definition carrying (x : string) (h : dict Node.t) : nat :=
  length (filter (Node.is_role x) (map snd h)).

(** The hosts of a value of the description (none for None). *)
Definition host_list (ips : hosts) : list string :=
  match ips with
  | HostsNone => []
  | HostsStr ip => [ip]
  | HostsList l => l
  end.

(** All the hosts of a description, in the order of its items. *)
Definition all_hosts (items : dict hosts) : list string :=
  flat_map (fun e => host_list (snd e)) items.

(** The nodes the loop of the simple validator builds, one per host. *)
Definition simple_nodes (O : HashOrder) (items : dict hosts) : list Node.t :=
  flat_map
    (fun e => map (NodeLayout.simple_node O (fst e)) (host_list (snd e)))
    items.

(** The shape the infrastructure asks of a host identifier: a node id on
    a cloud, an IP address elsewhere. *)
Definition well_shaped (VALID_AGENTS : list string) (self : NodeLayout.t)
    (ip : string) : bool :=
  if NodeLayout.in_valid_agents VALID_AGENTS self then
    match NODE_ID_REGEX_match ip with
    | Some _ => true
    | None => false
    end
  else IP_REGEX_match ip.

(** The description [{controller: 10.0.0.1, servers: 10.0.0.1}]. *)
Definition same_ip_twice : dict hosts :=
  [("controller", HostsStr "10.0.0.1"); ("servers", HostsStr "10.0.0.1")].

(** The description [{controller: localhost, servers: localhost}]. *)
Definition same_name_twice : dict hosts :=
  [("controller", HostsStr "localhost"); ("servers", HostsStr "localhost")].

(** Four nodes that each carry [database]. *)
Definition four_databases : list Node.t :=
  map (fun i => Node.mk Node.Simple i "not-cloud" ["database"])
    ["10.0.0.1"; "10.0.0.2"; "10.0.0.3"; "10.0.0.4"].

(** The description [{controller: 10.0.0.1, servers: [10.0.0.2]}]. *)
Definition controller_and_server : dict hosts :=
  [("controller", HostsStr "10.0.0.1"); ("servers", HostsList ["10.0.0.2"])].

(** Some node of [l] carries the role [x]. *)
Definition has_role (x : string) (l : list Node.t) : Prop :=
  exists n, In n l /\ In x (Node.roles n).

(** A description with a key of each format. *)
Definition mixed_keys : dict hosts :=
  [("controller", HostsStr "10.0.0.1"); ("appengine", HostsStr "10.0.0.2")].

(** A node that passed both checks of the validators. *)
Definition checked (VALID_AGENTS : list string) (self : NodeLayout.t)
    (n : Node.t) : Prop :=
  Node.is_valid n = true /\ well_shaped VALID_AGENTS self (Node.id n) = true.

(** The hosts listed under [key], in the order of the items. *)
Definition hosts_under (key : string) (items : dict hosts) : list string :=
  flat_map
    (fun e => if String.eqb (fst e) key then host_list (snd e) else [])
    items.

(** The name [generate_cloud_layout] gives to the node of rank [i]. *)
Definition node_name (i : nat) : string :=
  ("node-" ++ str_of_Z (Z.of_nat i))%string.

(** The step of the loop of [to_dict_without_head_node]:
    [result[node.id] = node.roles]. *)
Definition record_roles (result : dict (list string)) (node : Node.t)
  : dict (list string) :=
  dict_set (Node.id node) (Node.roles node) result.

(** The dependencies between the roles of a node that [expand_roles]
    provides for, and the composite roles it replaces. *)
Definition dependencies_met (n : Node.t) : Prop :=
  (In "login" (Node.roles n) -> In "load_balancer" (Node.roles n))
  /\ (In "shadow" (Node.roles n) -> In "load_balancer" (Node.roles n))
  /\ (In "database" (Node.roles n) -> In "memcache" (Node.roles n))
  /\ ~ In "master" (Node.roles n)
  /\ ~ In "controller" (Node.roles n)
  /\ ~ In "servers" (Node.roles n).

(** * Properties *)

(** ** Membership and removal *)

Lemma mem_In (x : string) (l : list string) : mem x l = true <-> In x l.
Proof.
  unfold mem. rewrite existsb_exists. split.
  - intros (y & Hy & E). apply String.eqb_eq in E. now subst.
  - intros H. exists x. split; [assumption | apply String.eqb_refl].
Qed.

Lemma mem_false (x : string) (l : list string) : mem x l = false <-> ~ In x l.
Proof.
  rewrite <- mem_In. destruct (mem x l); split; congruence.
Qed.

Lemma mem_app (x : string) (l1 l2 : list string) :
  mem x (l1 ++ l2) = mem x l1 || mem x l2.
Proof. unfold mem. apply existsb_app. Qed.

Lemma NoDup_once (x : string) (l : list string) : NoDup l -> once x l.
Proof.
  intros H. unfold once.
  rewrite (NoDup_count_occ string_dec) in H. apply H.
Qed.

Lemma absent_once (x : string) (l : list string) : ~ In x l -> once x l.
Proof.
  intros H. unfold once.
  apply (count_occ_not_In string_dec) in H. rewrite H. lia.
Qed.

Lemma once_snoc (x y : string) (l : list string) :
  ~ In x l -> once x (l ++ [y]).
Proof.
  intros H. unfold once. rewrite count_occ_app.
  apply (count_occ_not_In string_dec) in H. rewrite H. simpl.
  destruct (string_dec y x); lia.
Qed.

Lemma remove_first_In (x y : string) (l : list string) :
  once x l -> (In y (remove_first x l) <-> In y l /\ y <> x).
Proof.
  unfold once. induction l as [|z l IH]; simpl; intros Hc.
  - tauto.
  - destruct (String.eqb_spec x z) as [E | E].
    + subst z. destruct (string_dec x x) as [_ | N]; [| congruence].
      assert (Hx : ~ In x l)
        by (apply (count_occ_not_In string_dec); lia).
      split.
      * intros Hy. split; [now right |]. intros ->. contradiction.
      * intros [[-> | Hy] N]; [congruence | assumption].
    + destruct (string_dec z x) as [E' | _]; [congruence |].
      simpl. rewrite (IH Hc). split.
      * intros [-> | [Hy N]]; [split; [now left | congruence] | tauto].
      * intros [[-> | Hy] N]; [now left | tauto].
Qed.

(** ** Role expansion *)

Section Expansion.
Variable O : HashOrder.

Lemma simple_expand_In (l : list string) (x : string) :
  once "controller" l -> once "servers" l ->
  In x (SimpleNode.expand_roles O l) <->
    (In x l /\ x <> "controller" /\ x <> "servers")
    \/ (In "controller" l
        /\ In x ["shadow"; "load_balancer"; "database"; "memcache"; "login";
                 "zookeeper"; "rabbitmq"])
    \/ (In "servers" l
        /\ In x ["appengine"; "memcache"; "database"; "rabbitmq"]).
Proof.
  intros Hc Hs. unfold SimpleNode.expand_roles.
  rewrite list_of_set_In.
  destruct (mem "controller" l) eqn:Ec.
  - apply mem_In in Ec.
    assert (Hs' : In "servers" l <->
                  In "servers" (remove_first "controller" l ++
                    ["shadow"; "load_balancer"; "database"; "memcache";
                     "login"; "zookeeper"; "rabbitmq"])).
    { rewrite in_app_iff, (remove_first_In _ _ _ Hc). simpl.
      intuition discriminate. }
    destruct (mem "servers" _) eqn:Es.
    + apply mem_In in Es.
      assert (Ho : once "servers"
                     (remove_first "controller" l ++
                        ["shadow"; "load_balancer"; "database"; "memcache";
                         "login"; "zookeeper"; "rabbitmq"])).
      { unfold once in *. rewrite count_occ_app. simpl.
        assert (count_occ string_dec (remove_first "controller" l) "servers"
                <= count_occ string_dec l "servers")%nat.
        { clear. induction l as [|z l IH]; cbn [remove_first count_occ];
            [lia |].
          destruct (String.eqb_spec "controller" z).
          - destruct (string_dec z "servers"); lia.
          - cbn [count_occ]. destruct (string_dec z "servers"); lia. }
        lia. }
      rewrite in_app_iff, (remove_first_In _ _ _ Ho), in_app_iff,
        (remove_first_In _ _ _ Hc).
      apply Hs' in Es. simpl. intuition (subst; try discriminate; auto 12).
    + apply mem_false in Es. rewrite <- Hs' in Es.
      rewrite in_app_iff, (remove_first_In _ _ _ Hc). simpl.
      intuition (subst; try discriminate; try contradiction; auto 12).
  - apply mem_false in Ec.
    destruct (mem "servers" l) eqn:Es.
    + apply mem_In in Es.
      rewrite in_app_iff, (remove_first_In _ _ _ Hs). simpl.
      intuition (subst; try discriminate; try contradiction; auto 12).
    + apply mem_false in Es.
      intuition (subst; try discriminate; try contradiction; auto 12).
Qed.

Lemma advanced_expand_In (l : list string) (x : string) :
  once "master" l ->
  In x (AdvancedNode.expand_roles O l) <->
    (In x l /\ x <> "master")
    \/ (In "master" l /\ (x = "shadow" \/ x = "load_balancer"))
    \/ (In "login" l /\ x = "load_balancer")
    \/ (In "database" l /\ x = "memcache").
Proof.
  intros Hm. unfold AdvancedNode.expand_roles.
  rewrite list_of_set_In.
  set (l1 := if mem "master" l
             then remove_first "master" l ++ ["shadow"; "load_balancer"]
             else l).
  assert (H1 : forall y, In y l1 <->
                 (In y l /\ y <> "master")
                 \/ (In "master" l /\ (y = "shadow" \/ y = "load_balancer"))).
  { intros y. unfold l1. destruct (mem "master" l) eqn:E.
    - apply mem_In in E.
      rewrite in_app_iff, (remove_first_In _ _ _ Hm). simpl.
      intuition (subst; try discriminate; auto).
    - apply mem_false in E.
      intuition (subst; try contradiction; auto). }
  set (l2 := if mem "login" l1 then l1 ++ ["load_balancer"] else l1).
  assert (H2 : forall y, In y l2 <->
                 In y l1 \/ (In "login" l /\ y = "load_balancer")).
  { intros y. unfold l2. destruct (mem "login" l1) eqn:E.
    - apply mem_In in E. apply H1 in E.
      rewrite in_app_iff. simpl.
      intuition (subst; try discriminate; auto).
    - apply mem_false in E. rewrite H1 in E.
      intuition (subst; try discriminate; auto). }
  assert (Hd : In "database" l2 <-> In "database" l).
  { rewrite H2, H1. intuition (subst; try discriminate; auto). }
  destruct (mem "database" l2) eqn:E.
  - apply mem_In in E. rewrite in_app_iff, H2, H1. simpl.
    apply Hd in E. intuition (subst; try discriminate; auto).
  - apply mem_false in E. rewrite Hd in E. rewrite H2, H1.
    intuition (subst; try discriminate; try contradiction; auto).
Qed.
End Expansion.

(** C9. Role expansion is idempotent for both node classes: on a node whose
    roles form a set (a list without duplicates), expanding once gives a
    duplicate-free role list, and expanding the result again gives the same
    roles, duplicate-free, up to the order of the list. *)
Theorem expand_roles_idempotent (O : HashOrder) (n : Node.t) :
  NoDup (Node.roles n) ->
  NoDup (Node.roles (Node.expand_roles O n))
  /\ NoDup (Node.roles (Node.expand_roles O (Node.expand_roles O n)))
  /\ Permutation
       (Node.roles (Node.expand_roles O (Node.expand_roles O n)))
       (Node.roles (Node.expand_roles O n)).
Proof.
  intros Hn.
  assert (Hsame : forall x,
             In x (Node.roles (Node.expand_roles O (Node.expand_roles O n)))
             <-> In x (Node.roles (Node.expand_roles O n))).
  { intros x. destruct n as [c i cl rs]. simpl in Hn.
    destruct c; cbn [Node.expand_roles Node.roles Node.cls].
    - assert (Hc := NoDup_once "controller" rs Hn).
      assert (Hs := NoDup_once "servers" rs Hn).
      assert (Hc' : ~ In "controller" (SimpleNode.expand_roles O rs)).
      { rewrite (simple_expand_In O rs _ Hc Hs). simpl.
        intuition discriminate. }
      assert (Hs' : ~ In "servers" (SimpleNode.expand_roles O rs)).
      { rewrite (simple_expand_In O rs _ Hc Hs). simpl.
        intuition discriminate. }
      rewrite (simple_expand_In O _ x (absent_once _ _ Hc') (absent_once _ _ Hs')).
      split; [| intros Hx; left; repeat split; [assumption | |];
                intros ->; contradiction].
      intros [[Hx _] | [[Hx _] | [Hx _]]]; [assumption | |]; contradiction.
    - assert (Hm := NoDup_once "master" rs Hn).
      assert (Hm' : ~ In "master" (AdvancedNode.expand_roles O rs)).
      { rewrite (advanced_expand_In O rs _ Hm).
        intuition discriminate. }
      rewrite (advanced_expand_In O _ x (absent_once _ _ Hm')).
      split.
      + intros [[Hx _] | [[Hx _] | [[Hl ->] | [Hd ->]]]];
          [assumption | contradiction | |].
        * apply (advanced_expand_In O rs _ Hm) in Hl.
          apply (advanced_expand_In O rs _ Hm).
          right; right; left. intuition (try discriminate; auto).
        * apply (advanced_expand_In O rs _ Hm) in Hd.
          apply (advanced_expand_In O rs _ Hm).
          right; right; right. intuition (try discriminate; auto).
      + intros Hx. left. split; [assumption |]. intros ->. contradiction. }
  assert (N1 : NoDup (Node.roles (Node.expand_roles O n)))
    by (destruct n as [[] ? ? ?]; apply list_of_set_NoDup).
  assert (N2 : NoDup (Node.roles (Node.expand_roles O (Node.expand_roles O n))))
    by (destruct n as [[] ? ? ?]; apply list_of_set_NoDup).
  repeat split; try assumption.
  apply NoDup_Permutation; assumption.
Qed.

Lemma expand_roles_idempotent_witness :
  NoDup (Node.roles (Node.mk Node.Simple "10.0.0.1" "not-cloud" ["controller"]))
  /\ Permutation
       (Node.roles
          (Node.expand_roles insertion_order
             (Node.expand_roles insertion_order
                (Node.mk Node.Simple "10.0.0.1" "not-cloud" ["controller"]))))
       (Node.roles
          (Node.expand_roles insertion_order
             (Node.mk Node.Simple "10.0.0.1" "not-cloud" ["controller"]))).
Proof.
  assert (H : NoDup
                (Node.roles
                   (Node.mk Node.Simple "10.0.0.1" "not-cloud" ["controller"]))).
  { simpl. constructor; [intros [] | constructor]. }
  split; [exact H |].
  exact (proj2 (proj2 (expand_roles_idempotent insertion_order _ H))).
Defined.

(** On a role list that is not a set the second expansion does change the
    roles: of two [controller] entries the first expansion removes one. *)
Example expand_roles_with_duplicate :
  In "controller"
    (Node.roles
       (Node.expand_roles insertion_order
          (Node.mk Node.Simple "10.0.0.1" "not-cloud"
             ["controller"; "controller"])))
  /\ ~ In "controller"
        (Node.roles
           (Node.expand_roles insertion_order
              (Node.expand_roles insertion_order
                 (Node.mk Node.Simple "10.0.0.1" "not-cloud"
                    ["controller"; "controller"])))).
Proof.
  split; [vm_compute; tauto |].
  vm_compute. intuition discriminate.
Qed.

(** ** Counting loops *)

Lemma count_nodes_from (p : Node.t -> bool) (l : list Node.t) (c : Z) :
  fold_left (fun c node => if p node then (c + 1)%Z else c) l c
  = (c + Z.of_nat (length (filter p l)))%Z.
Proof.
  revert c. induction l as [|n l IH]; intros c; simpl.
  - lia.
  - rewrite IH. destruct (p n); simpl length; lia.
Qed.

Lemma count_nodes_filter (p : Node.t -> bool) (l : list Node.t) :
  NodeLayout.count_nodes p l = Z.of_nat (length (filter p l)).
Proof. unfold NodeLayout.count_nodes. now rewrite count_nodes_from. Qed.

(** ** The replication validator *)

Lemma set_replication_same (self : NodeLayout.t) (r : Z) :
  NodeLayout.replication self = Some r ->
  NodeLayout.set_replication (Some r) self = self.
Proof. destruct self; simpl; intros ->; reflexivity. Qed.

Lemma settled_replication_nonzero (self : NodeLayout.t) (n : Z) :
  n <> 0%Z -> settled_replication self n <> 0%Z.
Proof.
  intros Hn. unfold settled_replication, derived_replication.
  destruct (NodeLayout.replication self) as [q|].
  - destruct (Z.eqb_spec q 0); [| assumption].
    destruct (Z.ltb_spec 3 n); lia.
  - destruct (Z.ltb_spec 3 n); lia.
Qed.

Lemma is_database_replication_valid_run
    (self : NodeLayout.t) (nodes : list Node.t) :
  let n := Z.of_nat (length (database_nodes nodes)) in
  let r := settled_replication self n in
  let self' := NodeLayout.set_replication (Some r) self in
  NodeLayout.is_database_replication_valid self nodes
  = if Z.eqb n 0 then
      (NodeLayout.invalid "At least one database node must be provided.", self)
    else if Z.ltb n r then
      (NodeLayout.invalid "Replication factor cannot exceed # of databases",
       self')
    else if String.eqb (NodeLayout.database_type self) "mysql"
            && negb (Z.eqb (n mod r) 0) then
      (NodeLayout.invalid
         "MySQL requires that the amount of replication be divisible by the number of nodes",
       self')
    else (NodeLayout.valid, self').
Proof.
  intros n r self'. unfold NodeLayout.is_database_replication_valid.
  rewrite count_nodes_filter. fold is_database_node.
  fold (database_nodes nodes). fold n.
  destruct (Z.eqb_spec n 0) as [E | _]; [reflexivity |].
  fold (derived_replication n). unfold self', r, settled_replication.
  destruct (NodeLayout.replication self) as [q|] eqn:Eq.
  - destruct (Z.eqb_spec q 0) as [E0 | E0]; [reflexivity |].
    rewrite (set_replication_same self q Eq). reflexivity.
  - reflexivity.
Qed.

(** C2. The replication validator on the built node set, with [n] the
    number of nodes carrying [database] or [db_master]: [n = 0] is Invalid
    ("At least one database node must be provided."); otherwise the factor
    [r] is the requested one, or, when none was requested (None, or 0 which
    Python also takes as false), 3 if [n > 3] and [n] if not, and it is
    stored in the layout; [r > n] is Invalid ("Replication factor cannot
    exceed # of databases"); for the backend "mysql" and only for it, [r]
    not dividing [n] is Invalid; every other case is Valid. *)
Theorem is_database_replication_valid_spec
    (self : NodeLayout.t) (nodes : list Node.t) :
  let n := Z.of_nat (length (database_nodes nodes)) in
  let r :=
    match NodeLayout.replication self with
    | Some q => if Z.eqb q 0 then derived_replication n else q
    | None => derived_replication n
    end in
  let self' := NodeLayout.set_replication (Some r) self in
  (3 < n -> derived_replication n = 3)%Z
  /\ (n <= 3 -> derived_replication n = n)%Z
  /\ (n = 0%Z ->
      NodeLayout.is_database_replication_valid self nodes
      = (NodeLayout.invalid "At least one database node must be provided.",
         self))
  /\ (n <> 0%Z -> (n < r)%Z ->
      NodeLayout.is_database_replication_valid self nodes
      = (NodeLayout.invalid "Replication factor cannot exceed # of databases",
         self'))
  /\ (n <> 0%Z -> (r <= n)%Z ->
      NodeLayout.database_type self = "mysql" -> ~ (r | n)%Z ->
      NodeLayout.is_database_replication_valid self nodes
      = (NodeLayout.invalid
           "MySQL requires that the amount of replication be divisible by the number of nodes",
         self'))
  /\ (n <> 0%Z -> (r <= n)%Z ->
      NodeLayout.database_type self <> "mysql" \/ (r | n)%Z ->
      NodeLayout.is_database_replication_valid self nodes
      = (NodeLayout.valid, self')).
Proof.
  intros n r self'.
  assert (Hrun := is_database_replication_valid_run self nodes).
  cbv zeta in Hrun. fold n in Hrun.
  change (settled_replication self n) with r in Hrun. fold self' in Hrun.
  assert (Hr0 : n <> 0%Z -> r <> 0%Z)
    by apply settled_replication_nonzero.
  split; [| split; [| split; [| split; [| split]]]].
  - intros H. unfold derived_replication.
    destruct (Z.ltb_spec 3 n); [reflexivity | lia].
  - intros H. unfold derived_replication.
    destruct (Z.ltb_spec 3 n); [lia | reflexivity].
  - intros Hn. rewrite Hrun, Hn. reflexivity.
  - intros Hn Hlt. rewrite Hrun.
    destruct (Z.eqb_spec n 0); [contradiction |].
    destruct (Z.ltb_spec n r); [reflexivity | lia].
  - intros Hn Hle Hmysql Hdiv. rewrite Hrun.
    destruct (Z.eqb_spec n 0); [contradiction |].
    destruct (Z.ltb_spec n r); [lia |].
    rewrite Hmysql. simpl.
    destruct (Z.eqb_spec (n mod r) 0) as [E | E]; [| reflexivity].
    exfalso. apply Hdiv. apply Z.mod_divide; [apply Hr0 |]; assumption.
  - intros Hn Hle Hcase. rewrite Hrun.
    destruct (Z.eqb_spec n 0); [contradiction |].
    destruct (Z.ltb_spec n r); [lia |].
    destruct Hcase as [Hother | Hdiv].
    + destruct (String.eqb_spec (NodeLayout.database_type self) "mysql");
        [contradiction | reflexivity].
    + apply Z.mod_divide in Hdiv; [| apply Hr0; assumption].
      rewrite Hdiv. simpl. rewrite andb_false_r. reflexivity.
Qed.

(** The scenario of the specification: a requested factor of 5 with four
    database nodes. *)
Lemma is_database_replication_valid_spec_witness :
  NodeLayout.is_database_replication_valid
    (NodeLayout.init None None None None (Some 5%Z) "cassandra") four_databases
  = (NodeLayout.invalid "Replication factor cannot exceed # of databases",
     NodeLayout.init None None None None (Some 5%Z) "cassandra").
Proof.
  apply (proj1 (proj2 (proj2 (proj2
           (is_database_replication_valid_spec
              (NodeLayout.init None None None None (Some 5%Z) "cassandra")
              four_databases))))).
  - discriminate.
  - reflexivity.
Defined.

(** ** The supported deployments *)

Lemma count_node_roles_found (roles : list string) (num : NodeLayout.num_roles) :
  NodeLayout.count_node_roles roles true num = num.
Proof. destruct roles; reflexivity. Qed.

Lemma count_node_roles_first (roles : list string) (num : NodeLayout.num_roles) :
  NodeLayout.count_node_roles roles false num
  = bump (first_listed_tier roles) num.
Proof.
  induction roles as [|role rest IH]; [reflexivity |].
  cbn [NodeLayout.count_node_roles first_listed_tier]. unfold tier_of_role.
  repeat (destruct (String.eqb role _);
          [rewrite count_node_roles_found; reflexivity |]).
  apply IH.
Qed.

Lemma count_roles_from (nodes : list Node.t) (num : NodeLayout.num_roles) :
  fold_left
    (fun num node => NodeLayout.count_node_roles (Node.roles node) false num)
    nodes num
  = NodeLayout.mkRoles
      (NodeLayout.login num + Z.of_nat (tally first_listed_tier Login nodes))
      (NodeLayout.appengine num
       + Z.of_nat (tally first_listed_tier Appengine nodes))
      (NodeLayout.database num
       + Z.of_nat (tally first_listed_tier Database nodes))
      (NodeLayout.zookeeper num
       + Z.of_nat (tally first_listed_tier Zookeeper nodes)).
Proof.
  revert num. induction nodes as [|node nodes IH]; intros num.
  - destruct num; simpl. f_equal; lia.
  - cbn [fold_left]. rewrite IH, count_node_roles_first.
    unfold tally, has_tier. cbn [filter].
    destruct (first_listed_tier (Node.roles node)) as [[]|];
      cbn [bump tier_eqb length NodeLayout.login NodeLayout.appengine
             NodeLayout.database NodeLayout.zookeeper];
      f_equal; lia.
Qed.

(** C4, amended. The recognizer accepts exactly one node; four nodes with
    one login, one appengine, one database and one zookeeper node; eight
    nodes with one, two, two and three of them; where a node counts for the
    tier of the first of login, appengine, db_master, db_slave, zookeeper
    met in the order of its role list (not in a priority order among the
    tiers). Every other node set is unsupported. *)
Theorem is_supported_advanced_format_spec (self : NodeLayout.t) :
  NodeLayout.is_supported_advanced_format self = true
  <-> supported_shape first_listed_tier (NodeLayout.nodes self).
Proof.
  unfold NodeLayout.is_supported_advanced_format, supported_shape,
    NodeLayout.count_roles.
  rewrite count_roles_from.
  cbn [NodeLayout.login NodeLayout.appengine NodeLayout.database
         NodeLayout.zookeeper].
  destruct (Nat.eqb_spec (length (NodeLayout.nodes self)) 1) as [E1 | E1].
  - split; [intros _; now left | reflexivity].
  - destruct (Nat.eqb_spec (length (NodeLayout.nodes self)) 4) as [E4 | E4].
    + rewrite !andb_true_iff, !Z.eqb_eq. split.
      * intros [[[H1 H2] H3] H4]. right; left.
        repeat split; [assumption | lia ..].
      * intros [H | [(_ & H1 & H2 & H3 & H4) | (H & _)]]; [lia | | lia].
        rewrite H1, H2, H3, H4. repeat split.
    + destruct (Nat.eqb_spec (length (NodeLayout.nodes self)) 8) as [E8 | E8].
      * rewrite !andb_true_iff, !Z.eqb_eq. split.
        -- intros [[[H1 H2] H3] H4]. right; right.
           repeat split; [assumption | lia ..].
        -- intros [H | [(H & _) | (_ & H1 & H2 & H3 & H4)]]; [lia | lia |].
           rewrite H1, H2, H3, H4. repeat split.
      * split; [discriminate |].
        intros [H | [(H & _) | (H & _)]]; contradiction.
Qed.

(** C4 as stated fails. [two_zookeepers] is valid and builds four nodes
    which, with the tiers taken by priority, are one login, one appengine,
    one database and one zookeeper node. The coordinator's role list has
    [zookeeper] before [login], so the recognizer counts it as a second
    zookeeper node and rejects the deployment. *)
Lemma is_supported_advanced_format_not_by_priority :
  exists self' : NodeLayout.t,
    NodeLayout.is_valid_advanced_format [] insertion_order
      (NodeLayout.init (Some two_zookeepers) None None None None "cassandra")
    = Ok (NodeLayout.valid, self')
    /\ length (NodeLayout.nodes self') = 4%nat
    /\ NodeLayout.is_supported_advanced_format self' = false
    /\ supported_shape priority_tier (NodeLayout.nodes self').
Proof.
  eexists. split; [vm_compute; reflexivity |].
  split; [reflexivity |]. split; [reflexivity |].
  right; left. repeat split.
Qed.

(** The divergence the other way round: by priority [two_logins] has two
    login nodes and no zookeeper node, while the recognizer counts the
    coordinator as the zookeeper node and accepts the four nodes. *)
Example is_supported_advanced_format_two_logins :
  NodeLayout.is_supported_advanced_format
    (NodeLayout.mk None None None None (Some 1%Z) "cassandra" two_logins)
  = true
  /\ tally priority_tier Login two_logins = 2%nat
  /\ tally priority_tier Zookeeper two_logins = 0%nat
  /\ ~ supported_shape priority_tier two_logins.
Proof.
  split; [reflexivity |]. split; [reflexivity |]. split; [reflexivity |].
  intros [H | [(_ & H & _) | (H & _)]]; discriminate H.
Qed.

(** ** Roles of a node under add_role *)

Lemma is_role_In (x : string) (n : Node.t) :
  Node.is_role x n = true <-> In x (Node.roles n).
Proof. apply mem_In. Qed.

Lemma is_role_ext (x : string) (n n' : Node.t) :
  (In x (Node.roles n') <-> In x (Node.roles n)) ->
  Node.is_role x n' = Node.is_role x n.
Proof.
  intros H. rewrite <- !is_role_In in H.
  destruct (Node.is_role x n'), (Node.is_role x n); intuition congruence.
Qed.

Section AddRole.
Variable O : HashOrder.

Lemma add_role_id (r : string) (n : Node.t) :
  Node.id (Node.add_role O r n) = Node.id n
  /\ Node.cloud (Node.add_role O r n) = Node.cloud n
  /\ Node.cls (Node.add_role O r n) = Node.cls n.
Proof. repeat split. Qed.

Lemma advanced_add_role_In (r x : string) (n : Node.t) :
  advanced_ok n ->
  In x (Node.roles (Node.add_role O r n)) <->
    ((In x (Node.roles n) \/ x = r) /\ x <> "master")
    \/ (r = "master" /\ (x = "shadow" \/ x = "load_balancer"))
    \/ ((In "login" (Node.roles n) \/ r = "login") /\ x = "load_balancer")
    \/ ((In "database" (Node.roles n) \/ r = "database") /\ x = "memcache").
Proof.
  intros [Hc Hm]. unfold Node.add_role, Node.expand_roles.
  cbn [Node.roles Node.cls]. rewrite Hc.
  rewrite (advanced_expand_In O _ x (once_snoc "master" r _ Hm)).
  rewrite !in_app_iff. simpl.
  intuition (subst; try discriminate; try contradiction; auto).
Qed.

Lemma advanced_add_role_ok (r : string) (n : Node.t) :
  advanced_ok n -> advanced_ok (Node.add_role O r n).
Proof.
  intros Hn. split; [apply Hn |].
  rewrite (advanced_add_role_In r "master" n Hn).
  intuition discriminate.
Qed.

Lemma advanced_add_role_keeps (r x : string) (n : Node.t) :
  advanced_ok n ->
  In x (Node.roles n) -> In x (Node.roles (Node.add_role O r n)).
Proof.
  intros Hn Hx. apply (advanced_add_role_In r x n Hn). left.
  split; [now left |]. intros ->. now apply Hn.
Qed.

Lemma advanced_add_role_adds (r : string) (n : Node.t) :
  advanced_ok n -> r <> "master" ->
  In r (Node.roles (Node.add_role O r n)).
Proof.
  intros Hn Hr. apply (advanced_add_role_In r r n Hn). left.
  split; [now right | assumption].
Qed.

(** Adding [r] leaves every other role as it was, apart from the roles
    that the expansion may bring along. *)
Lemma advanced_add_role_other (r x : string) (n : Node.t) :
  advanced_ok n ->
  x <> r -> x <> "load_balancer" -> x <> "memcache" ->
  (r = "master" -> x <> "shadow") ->
  Node.is_role x (Node.add_role O r n) = Node.is_role x n.
Proof.
  intros Hn H1 H2 H3 H4. apply is_role_ext.
  rewrite (advanced_add_role_In r x n Hn). split.
  - intros [[[Hx | Hx] _] | [[Hr [Hx | Hx]] | [[_ Hx] | [_ Hx]]]];
      try contradiction; try assumption.
    exfalso. now apply H4.
  - intros Hx. left. split; [now left |]. intros ->. now apply Hn.
Qed.

Lemma advanced_init_ok (i cl : string) :
  advanced_ok (Node.init O Node.Advanced i cl []).
Proof.
  split; [reflexivity |]. unfold Node.init, Node.expand_roles.
  cbn [Node.roles Node.cls].
  rewrite (advanced_expand_In O [] "master" (absent_once _ _ (@in_nil _ _))).
  simpl. intuition discriminate.
Qed.

Lemma advanced_init_roles (i cl x : string) :
  ~ In x (Node.roles (Node.init O Node.Advanced i cl [])).
Proof.
  unfold Node.init, Node.expand_roles. cbn [Node.roles Node.cls].
  rewrite (advanced_expand_In O [] x (absent_once _ _ (@in_nil _ _))).
  simpl. tauto.
Qed.

Lemma simple_add_role_In (r x : string) (n : Node.t) :
  simple_ok n -> r <> "controller" -> r <> "servers" ->
  In x (Node.roles (Node.add_role O r n)) <-> In x (Node.roles n) \/ x = r.
Proof.
  intros (Hc & Hk & Hs) Hr1 Hr2. unfold Node.add_role, Node.expand_roles.
  cbn [Node.roles Node.cls]. rewrite Hc.
  rewrite (simple_expand_In O _ x (once_snoc _ r _ Hk) (once_snoc _ r _ Hs)).
  rewrite !in_app_iff. simpl. split.
  - intros [[[Hx | [-> | []]] _] | [[[H | [E | []]] _] | [[H | [E | []]] _]]];
      try contradiction; try (symmetry in E; contradiction); auto.
  - intros [Hx | ->].
    + left. repeat split; [now left | |]; intros ->; contradiction.
    + left. repeat split; [right; now left | |]; assumption.
Qed.

Lemma simple_add_role_ok (r : string) (n : Node.t) :
  simple_ok n -> r <> "controller" -> r <> "servers" ->
  simple_ok (Node.add_role O r n).
Proof.
  intros Hn Hr1 Hr2. split; [apply Hn |].
  rewrite !(simple_add_role_In r _ n Hn Hr1 Hr2).
  destruct Hn as (_ & Hk & Hs). split; intros [H | H]; congruence.
Qed.

Lemma simple_init_In (i cl role x : string) :
  In x (Node.roles (Node.init O Node.Simple i cl [role])) <->
    (x = role /\ x <> "controller" /\ x <> "servers")
    \/ (role = "controller"
        /\ In x ["shadow"; "load_balancer"; "database"; "memcache"; "login";
                 "zookeeper"; "rabbitmq"])
    \/ (role = "servers"
        /\ In x ["appengine"; "memcache"; "database"; "rabbitmq"]).
Proof.
  unfold Node.init, Node.expand_roles. cbn [Node.roles Node.cls].
  assert (Hnd : NoDup [role]) by (constructor; [intros [] | constructor]).
  rewrite (simple_expand_In O [role] x (NoDup_once _ _ Hnd) (NoDup_once _ _ Hnd)).
  cbn [In]. intuition (subst; auto).
Qed.

Lemma simple_init_ok (i cl role : string) :
  simple_ok (Node.init O Node.Simple i cl [role]).
Proof.
  split; [reflexivity |]. rewrite !simple_init_In. simpl.
  split; intuition discriminate.
Qed.
End AddRole.

(** ** What a valid result tells *)

Lemma is_database_replication_valid_true
    (self self2 : NodeLayout.t) (nodes : list Node.t) (rep : NodeLayout.Result) :
  NodeLayout.is_database_replication_valid self nodes = (rep, self2) ->
  NodeLayout.result rep = true ->
  let n := Z.of_nat (length (database_nodes nodes)) in
  let r := settled_replication self n in
  rep = NodeLayout.valid
  /\ self2 = NodeLayout.set_replication (Some r) self
  /\ (1 <= n)%Z /\ (r <= n)%Z.
Proof.
  intros Hrun Hres n r. rewrite is_database_replication_valid_run in Hrun.
  cbv zeta in Hrun. fold n in Hrun. fold r in Hrun.
  destruct (Z.eqb_spec n 0);
    [inversion Hrun; subst; discriminate |].
  destruct (Z.ltb_spec n r);
    [inversion Hrun; subst; discriminate |].
  destruct (String.eqb (NodeLayout.database_type self) "mysql"
            && negb (Z.eqb (n mod r) 0));
    [inversion Hrun; subst; discriminate |].
  inversion Hrun; subst. unfold n in *. repeat split; lia.
Qed.

Section Validators.
Variable VALID_AGENTS : list string.
Variable O : HashOrder.

Lemma check_node_id_invalid (self : NodeLayout.t) (node : Node.t)
    (r : NodeLayout.Result) :
  NodeLayout.check_node_id VALID_AGENTS self node = Some r ->
  NodeLayout.result r = false.
Proof.
  unfold NodeLayout.check_node_id.
  destruct (NodeLayout.in_valid_agents VALID_AGENTS self).
  - destruct (NODE_ID_REGEX_match (Node.id node)); [discriminate |].
    intros H; inversion H; reflexivity.
  - destruct (IP_REGEX_match (Node.id node)); [discriminate |].
    intros H; inversion H; reflexivity.
Qed.

Lemma simple_ips_loop_invalid (self : NodeLayout.t) (role : string)
    (ips : list string) (nodes : list Node.t) (r : NodeLayout.Result) :
  NodeLayout.simple_ips_loop VALID_AGENTS O self role ips nodes
  = NodeLayout.Return r ->
  NodeLayout.result r = false.
Proof.
  revert nodes. induction ips as [|ip rest IH]; intros nodes; simpl.
  - discriminate.
  - destruct (negb (Node.is_valid _)); [discriminate |].
    destruct (NodeLayout.check_node_id _ _ _) as [r'|] eqn:E.
    + intros H; inversion H; subst. eapply check_node_id_invalid; eassumption.
    + apply IH.
Qed.

Lemma simple_items_loop_invalid (self : NodeLayout.t) (items : dict hosts)
    (nodes : list Node.t) (r : NodeLayout.Result) :
  NodeLayout.simple_items_loop VALID_AGENTS O self items nodes
  = NodeLayout.Return r ->
  NodeLayout.result r = false.
Proof.
  revert nodes. induction items as [|[role ips] rest IH]; intros nodes; simpl.
  - discriminate.
  - destruct (iter_hosts ips) as [l|]; [| discriminate].
    destruct (NodeLayout.simple_ips_loop _ _ _ _ _ _) as [nodes'|r'|] eqn:E.
    + apply IH.
    + intros H; inversion H; subst. eapply simple_ips_loop_invalid; eassumption.
    + discriminate.
Qed.

Lemma simple_input_invalid (self : NodeLayout.t) (r : NodeLayout.Result) :
  NodeLayout.simple_input VALID_AGENTS self = NodeLayout.Return r ->
  NodeLayout.result r = false.
Proof.
  unfold NodeLayout.simple_input.
  destruct (NodeLayout.has_input_yaml self); [discriminate |].
  destruct (NodeLayout.in_valid_agents VALID_AGENTS self).
  - destruct (negb (truthy (NodeLayout.min_vms self)));
      [intros H; inversion H; reflexivity |].
    destruct (negb (truthy (NodeLayout.max_vms self)));
      [intros H; inversion H; reflexivity |].
    destruct (NodeLayout.generate_cloud_layout self); discriminate.
  - intros H; inversion H; reflexivity.
Qed.

Lemma simple_input_next (self self1 : NodeLayout.t) :
  NodeLayout.simple_input VALID_AGENTS self = NodeLayout.Next self1 ->
  NodeLayout.nodes self1 = NodeLayout.nodes self
  /\ NodeLayout.replication self1 = NodeLayout.replication self
  /\ NodeLayout.infrastructure self1 = NodeLayout.infrastructure self
  /\ (NodeLayout.has_input_yaml self = true -> self1 = self).
Proof.
  unfold NodeLayout.simple_input.
  destruct (NodeLayout.has_input_yaml self).
  - intros H; inversion H; subst. repeat split.
  - destruct (NodeLayout.in_valid_agents VALID_AGENTS self); [| discriminate].
    destruct (negb (truthy (NodeLayout.min_vms self))); [discriminate |].
    destruct (negb (truthy (NodeLayout.max_vms self))); [discriminate |].
    destruct (NodeLayout.generate_cloud_layout self); [| discriminate].
    intros H; inversion H; subst. repeat split. discriminate.
Qed.

(** A valid result of the checks of the simple validator. *)
Lemma simple_checks_valid (self self' : NodeLayout.t) (y : dict hosts)
    (nodes : list Node.t) (r : NodeLayout.Result) :
  NodeLayout.simple_checks O self y nodes = (r, self') ->
  NodeLayout.result r = true ->
  let nodes' := NodeLayout.promote_single O nodes in
  let n := Z.of_nat (length (database_nodes nodes')) in
  length (filter (Node.is_role "shadow") nodes') = 1%nat
  /\ r = NodeLayout.valid
  /\ self' = NodeLayout.set_nodes nodes'
               (NodeLayout.set_replication
                  (Some (settled_replication self n)) self)
  /\ (1 <= n)%Z /\ (settled_replication self n <= n)%Z.
Proof.
  unfold NodeLayout.simple_checks. cbv zeta.
  destruct (Z.ltb 0 _); [intros H; inversion H; subst; discriminate |].
  rewrite count_nodes_filter.
  destruct (Z.eqb_spec (Z.of_nat (length (filter (Node.is_role "shadow")
                                            (NodeLayout.promote_single O nodes)))) 0)
    as [E0 | E0]; [intros H; inversion H; subst; discriminate |].
  destruct (Z.ltb_spec 1 (Z.of_nat (length (filter (Node.is_role "shadow")
                                            (NodeLayout.promote_single O nodes)))))
    as [E1 | E1]; [intros H; inversion H; subst; discriminate |].
  destruct (NodeLayout.is_database_replication_valid self _) as [rep self2] eqn:Ei.
  destruct (NodeLayout.result rep) eqn:Er; simpl;
    intros H Hr; inversion H; subst; [| congruence].
  destruct (is_database_replication_valid_true _ _ _ _ Ei Er) as (_ & -> & Hn & Hle).
  repeat split; try assumption. lia.
Qed.
End Validators.

(** ** The defaults of the advanced validator *)

Section Defaults.
Variable O : HashOrder.
Variable x : string.
Hypothesis Hx : ~ In x default_roles.

Lemma steady_add_role (r : string) :
  In r default_roles -> r <> "load_balancer" -> steady x (Node.add_role O r).
Proof.
  intros Hr Hlb n Hn. split; [now apply advanced_add_role_ok |].
  unfold view. f_equal.
  apply advanced_add_role_other; try assumption.
  - intros ->. contradiction.
  - intros ->. apply Hx. simpl. tauto.
  - intros ->. apply Hx. simpl. tauto.
  - intros ->. simpl in Hr. intuition discriminate.
Qed.

Lemma steady_compose (f g : Node.t -> Node.t) :
  steady x f -> steady x g -> steady x (fun n => g (f n)).
Proof.
  intros Hf Hg n Hn. destruct (Hf n Hn) as [H1 H2].
  destruct (Hg (f n) H1) as [H3 H4]. split; congruence.
Qed.

Lemma steady_if (c : Node.t -> bool) (f : Node.t -> Node.t) :
  steady x f -> steady x (fun n => if c n then f n else n).
Proof.
  intros Hf n Hn. destruct (c n); [now apply Hf | now split].
Qed.

Lemma same_nodes_refl (l : list Node.t) :
  Forall advanced_ok l -> same_nodes x l l.
Proof. intros H. now split. Qed.

Lemma same_nodes_trans (l1 l2 l3 : list Node.t) :
  same_nodes x l1 l2 -> same_nodes x l2 l3 -> same_nodes x l1 l3.
Proof. intros [_ H1] [H2 H3]. split; congruence. Qed.

Lemma same_nodes_map (f : Node.t -> Node.t) (l : list Node.t) :
  steady x f -> Forall advanced_ok l -> same_nodes x l (map f l).
Proof.
  intros Hf Hl. induction Hl as [|n l Hn Hl [IH1 IH2]].
  - split; [constructor | reflexivity].
  - destruct (Hf n Hn) as [H1 H2]. split; simpl.
    + now constructor.
    + now rewrite H2, IH2.
Qed.

Lemma same_nodes_on_index (i : nat) (f : Node.t -> Node.t) (l : list Node.t) :
  steady x f -> Forall advanced_ok l -> same_nodes x l (on_index i f l).
Proof.
  intros Hf Hl. revert i.
  induction Hl as [|n l Hn Hl IH]; intros i.
  - destruct i; split; simpl; solve [constructor | reflexivity].
  - destruct i as [|i]; simpl.
    + destruct (Hf n Hn) as [H1 H2]. split; simpl.
      * now constructor.
      * now rewrite H2.
    + destruct (IH i) as [H1 H2]. split; simpl.
      * now constructor.
      * now rewrite H2.
Qed.

Lemma advanced_defaults_same (nodes : list Node.t) :
  Forall advanced_ok nodes -> same_nodes x nodes (advanced_defaults O nodes).
Proof.
  intros H0. unfold advanced_defaults. cbv zeta.
  set (master := find_index (Node.is_role "shadow") nodes).
  assert (H1 : same_nodes x nodes (NodeLayout.default_login O master nodes)).
  { unfold NodeLayout.default_login.
    destruct (filter (Node.is_role "login") nodes).
    - apply same_nodes_on_index; [| assumption].
      apply steady_add_role; [simpl; tauto | discriminate].
    - now apply same_nodes_refl. }
  set (l1 := NodeLayout.default_login O master nodes) in *.
  assert (H2 : same_nodes x l1 (NodeLayout.default_memcache O l1)).
  { unfold NodeLayout.default_memcache.
    destruct (Z.ltb _ 1).
    - apply same_nodes_map; [| apply H1].
      apply steady_if, steady_add_role; [simpl; tauto | discriminate].
    - apply same_nodes_refl, H1. }
  set (l2 := NodeLayout.default_memcache O l1) in *.
  assert (H3 : same_nodes x l2 (NodeLayout.default_zookeeper O master l2)).
  { unfold NodeLayout.default_zookeeper.
    destruct (Z.eqb _ 0).
    - apply same_nodes_on_index; [| apply H2].
      apply steady_add_role; [simpl; tauto | discriminate].
    - apply same_nodes_refl, H2. }
  set (l3 := NodeLayout.default_zookeeper O master l2) in *.
  assert (H4 : same_nodes x l3 (NodeLayout.default_rabbitmq O master l3)).
  { unfold NodeLayout.default_rabbitmq.
    destruct (Z.eqb _ 0).
    - apply same_nodes_on_index; [| apply H3].
      apply (steady_compose (Node.add_role O "rabbitmq")
               (Node.add_role O "rabbitmq_master"));
        apply steady_add_role; solve [simpl; tauto | discriminate].
    - apply same_nodes_refl, H3. }
  set (l4 := NodeLayout.default_rabbitmq O master l3) in *.
  assert (H5 : same_nodes x l4 (NodeLayout.add_rabbitmq_slaves O l4)).
  { unfold NodeLayout.add_rabbitmq_slaves.
    apply same_nodes_map; [| apply H4].
    apply (steady_if
             (fun node => Node.is_role "appengine" node
                          && negb (Node.is_role "rabbitmq" node))),
      steady_add_role; [simpl; tauto | discriminate]. }
  eauto using same_nodes_trans.
Qed.
End Defaults.

Lemma same_nodes_filter (x : string) (l l' : list Node.t) :
  same_nodes x l l' ->
  length (filter (Node.is_role x) l') = length (filter (Node.is_role x) l).
Proof.
  intros [_ H]. revert l' H.
  induction l as [|n l IH]; intros [|n' l'] H; simpl in H;
    try discriminate; [reflexivity |].
  inversion H as [[Hid Hrole Hrest]]. simpl. rewrite Hrole.
  destruct (Node.is_role x n); simpl; now rewrite (IH l' Hrest).
Qed.

Lemma default_vms_fields (VALID_AGENTS : list string) (self : NodeLayout.t)
    (nodes : list Node.t) :
  let self1 := NodeLayout.default_vms VALID_AGENTS self nodes in
  NodeLayout.replication self1 = NodeLayout.replication self
  /\ NodeLayout.nodes self1 = NodeLayout.nodes self
  /\ NodeLayout.input_yaml self1 = NodeLayout.input_yaml self
  /\ NodeLayout.database_type self1 = NodeLayout.database_type self.
Proof.
  unfold NodeLayout.default_vms. cbv zeta.
  destruct (NodeLayout.in_valid_agents VALID_AGENTS self); [| now repeat split].
  destruct (negb (truthy (NodeLayout.min_vms self)));
    destruct (negb (truthy _)); now repeat split.
Qed.

(** A valid result of the checks of the advanced validator. *)
Lemma advanced_checks_valid (VALID_AGENTS : list string) (O : HashOrder)
    (self self' : NodeLayout.t) (nodes : list Node.t) (r : NodeLayout.Result) :
  NodeLayout.advanced_checks VALID_AGENTS O self nodes = (r, self') ->
  NodeLayout.result r = true ->
  let nodes' := advanced_defaults O nodes in
  let n := Z.of_nat (length (database_nodes nodes')) in
  length (filter (Node.is_role "shadow") nodes) = 1%nat
  /\ r = NodeLayout.valid
  /\ NodeLayout.nodes self' = nodes'
  /\ NodeLayout.replication self' = Some (settled_replication self n)
  /\ (1 <= n)%Z /\ (settled_replication self n <= n)%Z.
Proof.
  unfold NodeLayout.advanced_checks. cbv zeta.
  destruct (filter (Node.is_role "shadow") nodes) as [|m [|m2 ms]] eqn:Ef;
    [intros H; inversion H; subst; discriminate | |
     intros H; inversion H; subst; discriminate].
  destruct (Z.ltb _ 1); [intros H; inversion H; subst; discriminate |].
  fold (advanced_defaults O nodes).
  destruct (NodeLayout.is_database_replication_valid _ _) as [rep self2] eqn:Ei.
  destruct (NodeLayout.result rep) eqn:Er; simpl;
    intros H Hr; inversion H; subst; [| congruence].
  destruct (is_database_replication_valid_true _ _ _ _ Ei Er)
    as (_ & -> & Hn & Hle).
  unfold settled_replication in *.
  destruct (default_vms_fields VALID_AGENTS self
              (NodeLayout.default_memcache O
                 (NodeLayout.default_login O
                    (find_index (Node.is_role "shadow") nodes) nodes)))
    as (Hrep & _).
  cbv zeta in Hrep. rewrite Hrep in *.
  repeat split; try assumption.
Qed.

(** ** The node hash of the advanced validator *)

Lemma dict_get_set_same {A : Type} (k : string) (v : A) (d : dict A) :
  dict_get k (dict_set k v d) = Some v.
Proof.
  induction d as [|[k' v'] d IH]; simpl.
  - now rewrite String.eqb_refl.
  - destruct (String.eqb k k') eqn:E; simpl; rewrite ?String.eqb_refl, ?E; auto.
Qed.

Lemma dict_get_set_other {A : Type} (k k' : string) (v : A) (d : dict A) :
  k <> k' -> dict_get k (dict_set k' v d) = dict_get k d.
Proof.
  intros Hk. apply String.eqb_neq in Hk.
  induction d as [|[k2 v2] d IH]; simpl.
  - now rewrite Hk.
  - destruct (String.eqb_spec k' k2) as [-> | E]; simpl.
    + now rewrite Hk.
    + now rewrite IH.
Qed.

Lemma dict_get_In {A : Type} (k : string) (v : A) (d : dict A) :
  dict_get k d = Some v -> In v (map snd d).
Proof.
  induction d as [|[k' v'] d IH]; simpl; [discriminate |].
  destruct (String.eqb k k'); [intros H; inversion H; now left | auto].
Qed.

Lemma dict_set_Forall {A : Type} (P : A -> Prop) (k : string) (v : A)
    (d : dict A) :
  P v -> Forall P (map snd d) -> Forall P (map snd (dict_set k v d)).
Proof.
  intros Hv. induction d as [|[k' v'] d IH]; simpl; intros Hd.
  - now constructor.
  - inversion Hd; subst. destruct (String.eqb k k'); simpl; constructor; auto.
Qed.

Section NodeHash.
Variable O : HashOrder.

Lemma advanced_add_roles_ok (role : string) (index : nat) (n : Node.t) :
  advanced_ok n -> advanced_ok (NodeLayout.advanced_add_roles O role index n).
Proof.
  intros Hn. unfold NodeLayout.advanced_add_roles, Node.add_db_role,
    Node.add_rabbitmq_role.
  repeat match goal with
         | |- context [if ?c then _ else _] => destruct c
         end;
    repeat apply advanced_add_role_ok; assumption.
Qed.

Lemma advanced_add_roles_keeps (role x : string) (index : nat) (n : Node.t) :
  advanced_ok n -> In x (Node.roles n) ->
  In x (Node.roles (NodeLayout.advanced_add_roles O role index n)).
Proof.
  intros Hn Hx. unfold NodeLayout.advanced_add_roles, Node.add_db_role,
    Node.add_rabbitmq_role.
  repeat match goal with
         | |- context [if ?c then _ else _] => destruct c
         end;
    repeat (apply advanced_add_role_keeps;
            [repeat apply advanced_add_role_ok; assumption |]);
    assumption.
Qed.

Lemma advanced_node_ok (h : dict Node.t) (ip : string) :
  Forall advanced_ok (map snd h) ->
  advanced_ok (NodeLayout.advanced_node O h ip).
Proof.
  intros Hh. unfold NodeLayout.advanced_node.
  destruct (dict_get ip h) as [n|] eqn:E.
  - rewrite Forall_forall in Hh. apply Hh. eapply dict_get_In; eassumption.
  - destruct (NodeLayout.parse_ip ip). apply advanced_init_ok.
Qed.

(** A property of nodes that holds of new nodes and is kept by the roles
    the key [role] gives holds of every node after the key was processed. *)
Lemma advanced_ips_loop_Forall (P : Node.t -> Prop) (role : string) :
  (forall i cl, P (Node.init O Node.Advanced i cl [])) ->
  (forall index n, P n -> P (NodeLayout.advanced_add_roles O role index n)) ->
  forall ips index h,
    Forall P (map snd h) ->
    Forall P (map snd (NodeLayout.advanced_ips_loop O role ips index h)).
Proof.
  intros Hnew Hadd. induction ips as [|ip rest IH]; intros index h Hh; simpl.
  - assumption.
  - apply IH. apply dict_set_Forall; [| assumption].
    apply Hadd. unfold NodeLayout.advanced_node.
    destruct (dict_get ip h) as [n|] eqn:E.
    + rewrite Forall_forall in Hh. apply Hh. eapply dict_get_In; eassumption.
    + destruct (NodeLayout.parse_ip ip). apply Hnew.
Qed.

Lemma advanced_items_loop_Forall (P : Node.t -> Prop) (items : dict hosts) :
  (forall i cl, P (Node.init O Node.Advanced i cl [])) ->
  (forall role index n, In role (map fst items) -> P n ->
                        P (NodeLayout.advanced_add_roles O role index n)) ->
  forall h h',
    Forall P (map snd h) ->
    NodeLayout.advanced_items_loop O items h = Ok h' ->
    Forall P (map snd h').
Proof.
  intros Hnew. induction items as [|[role ips] rest IH]; intros Hadd h h' Hh;
    simpl.
  - intros H; inversion H; subst; assumption.
  - destruct (iter_hosts ips) as [l|]; [| discriminate].
    apply IH.
    + intros role' index n Hin. apply Hadd. now right.
    + apply advanced_ips_loop_Forall; try assumption.
      intros index n. apply Hadd. now left.
Qed.

Lemma advanced_build_ok (self : NodeLayout.t) (h : dict Node.t) :
  NodeLayout.advanced_build O self = Ok h ->
  Forall advanced_ok (map snd h).
Proof.
  unfold NodeLayout.advanced_build.
  destruct (NodeLayout.input_yaml self) as [y|]; [| discriminate].
  apply advanced_items_loop_Forall.
  - apply advanced_init_ok.
  - intros role index n _. apply advanced_add_roles_ok.
  - constructor.
Qed.

Lemma advanced_ips_loop_ok (role : string) (ips : list string) (index : nat)
    (h : dict Node.t) :
  Forall advanced_ok (map snd h) ->
  Forall advanced_ok (map snd (NodeLayout.advanced_ips_loop O role ips index h)).
Proof.
  apply advanced_ips_loop_Forall.
  - apply advanced_init_ok.
  - intros i n. apply advanced_add_roles_ok.
Qed.

(** A role carried at a key stays there. *)
Lemma advanced_ips_loop_carries (role k x : string) (ips : list string) :
  forall index h,
    Forall advanced_ok (map snd h) -> carries h k x ->
    carries (NodeLayout.advanced_ips_loop O role ips index h) k x.
Proof.
  induction ips as [|ip rest IH]; intros index h Hh Hc; simpl.
  - assumption.
  - apply IH.
    + apply dict_set_Forall; [| assumption].
      apply advanced_add_roles_ok, advanced_node_ok. assumption.
    + destruct Hc as (n & Hget & Hx).
      destruct (string_dec k ip) as [-> | Hne].
      * eexists. split; [apply dict_get_set_same |].
        unfold NodeLayout.advanced_node. rewrite Hget.
        apply advanced_add_roles_keeps; [| assumption].
        rewrite Forall_forall in Hh. apply Hh.
        eapply dict_get_In; eassumption.
      * exists n. split; [| assumption].
        rewrite dict_get_set_other; assumption.
Qed.

(** The host at position [j] of the list of a key carries what the key
    gives to position [j]. *)
Lemma advanced_ips_loop_gives (role x : string) (ips : list string) :
  forall index h j ip,
    Forall advanced_ok (map snd h) ->
    nth_error ips j = Some ip ->
    (forall n, advanced_ok n ->
               In x (Node.roles
                       (NodeLayout.advanced_add_roles O role (index + j) n))) ->
    carries (NodeLayout.advanced_ips_loop O role ips index h) ip x.
Proof.
  induction ips as [|ip0 rest IH]; intros index h j ip Hh Hj Hx.
  - destruct j; discriminate.
  - simpl.
    assert (Hh' : Forall advanced_ok
                    (map snd
                       (dict_set ip0
                          (NodeLayout.advanced_add_roles O role index
                             (NodeLayout.advanced_node O h ip0)) h))).
    { apply dict_set_Forall; [| assumption].
      apply advanced_add_roles_ok, advanced_node_ok. assumption. }
    destruct j as [|j]; simpl in Hj.
    + inversion Hj; subst ip0.
      apply advanced_ips_loop_carries; [assumption |].
      eexists. split; [apply dict_get_set_same |].
      rewrite Nat.add_0_r in Hx. apply Hx, advanced_node_ok. assumption.
    + apply (IH (S index) _ j ip Hh' Hj).
      intros n Hn. rewrite Nat.add_succ_comm. now apply Hx.
Qed.

Lemma advanced_items_loop_carries (k x : string) (items : dict hosts) :
  forall h h',
    Forall advanced_ok (map snd h) -> carries h k x ->
    NodeLayout.advanced_items_loop O items h = Ok h' ->
    carries h' k x.
Proof.
  induction items as [|[role ips] rest IH]; intros h h' Hh Hc; simpl.
  - intros H; inversion H; subst; assumption.
  - destruct (iter_hosts ips) as [l|]; [| discriminate].
    apply IH.
    + now apply advanced_ips_loop_ok.
    + now apply advanced_ips_loop_carries.
Qed.

Lemma advanced_items_loop_gives (role x : string) (ips : hosts)
    (l : list string) (items : dict hosts) :
  forall h h' j ip,
    Forall advanced_ok (map snd h) ->
    In (role, ips) items ->
    iter_hosts ips = Ok l ->
    nth_error l j = Some ip ->
    (forall n, advanced_ok n ->
               In x (Node.roles (NodeLayout.advanced_add_roles O role j n))) ->
    NodeLayout.advanced_items_loop O items h = Ok h' ->
    carries h' ip x.
Proof.
  induction items as [|[role' ips'] rest IH]; intros h h' j ip Hh Hin Hl Hj Hx;
    simpl.
  - destruct Hin.
  - destruct Hin as [E | Hin].
    + inversion E; subst role' ips'. rewrite Hl.
      apply advanced_items_loop_carries.
      * now apply advanced_ips_loop_ok.
      * eapply advanced_ips_loop_gives; eassumption.
    + destruct (iter_hosts ips') as [l'|]; [| discriminate].
      eapply IH; try eassumption.
      now apply advanced_ips_loop_ok.
Qed.
End NodeHash.

(** ** Iteration orders and counts *)

Lemma Permutation_filter_length {A : Type} (p : A -> bool) (l l' : list A) :
  Permutation l l' -> length (filter p l) = length (filter p l').
Proof.
  induction 1 as [| a l l' _ IH | a b l | l1 l2 l3 _ IH1 _ IH2]; simpl.
  - reflexivity.
  - destruct (p a); simpl; congruence.
  - destruct (p a), (p b); reflexivity.
  - congruence.
Qed.

Lemma dict_values_Forall (O : HashOrder) (P : Node.t -> Prop)
    (h : dict Node.t) :
  Forall P (map snd h) -> Forall P (map snd (dict_order O h)).
Proof.
  apply Permutation_Forall, Permutation_map, Permutation_sym,
    dict_order_Permutation.
Qed.

Lemma advanced_nodes_loop_invalid (VALID_AGENTS : list string)
    (self : NodeLayout.t) (nodes : list Node.t) (r : NodeLayout.Result) :
  NodeLayout.advanced_nodes_loop VALID_AGENTS self nodes = Some r ->
  NodeLayout.result r = false.
Proof.
  induction nodes as [|node rest IH]; simpl; [discriminate |].
  destruct (negb (Node.is_valid node)); [intros H; inversion H; reflexivity |].
  destruct (NodeLayout.check_node_id _ _ _) as [r'|] eqn:E; [| assumption].
  intros H; inversion H; subst. eapply check_node_id_invalid; eassumption.
Qed.

(** ** Exactly one coordinator *)

Lemma is_valid_simple_format_shadow (VALID_AGENTS : list string)
    (O : HashOrder) (self self' : NodeLayout.t) (r : NodeLayout.Result) :
  NodeLayout.nodes self = [] ->
  NodeLayout.is_valid_simple_format VALID_AGENTS O self = Ok (r, self') ->
  NodeLayout.result r = true ->
  length (filter (Node.is_role "shadow") (NodeLayout.nodes self')) = 1%nat.
Proof.
  intros Hn. unfold NodeLayout.is_valid_simple_format. rewrite Hn.
  destruct (NodeLayout.simple_input _ _) as [self1|r1|] eqn:Ein.
  - destruct (NodeLayout.input_yaml self1) as [y|]; [| discriminate].
    destruct (NodeLayout.simple_items_loop _ _ _ _ _) as [nodes|r2|] eqn:El.
    + intros H Hr. inversion H as [Hc]. clear H.
      destruct (simple_checks_valid O _ _ _ _ _ Hc Hr) as (H1 & _ & -> & _).
      exact H1.
    + intros H Hr. inversion H; subst.
      apply simple_items_loop_invalid in El. congruence.
    + discriminate.
  - intros H Hr. inversion H; subst.
    apply simple_input_invalid in Ein. congruence.
  - discriminate.
Qed.

Lemma is_valid_advanced_format_shadow (VALID_AGENTS : list string)
    (O : HashOrder) (self self' : NodeLayout.t) (r : NodeLayout.Result) :
  NodeLayout.nodes self = [] ->
  NodeLayout.is_valid_advanced_format VALID_AGENTS O self = Ok (r, self') ->
  NodeLayout.result r = true ->
  length (filter (Node.is_role "shadow") (NodeLayout.nodes self')) = 1%nat.
Proof.
  intros Hn. unfold NodeLayout.is_valid_advanced_format. rewrite Hn.
  destruct (NodeLayout.advanced_build O self) as [h|] eqn:Eb; [| discriminate].
  destruct (NodeLayout.advanced_nodes_loop _ _ _) as [r1|] eqn:El.
  - intros H Hr. inversion H; subst.
    apply advanced_nodes_loop_invalid in El. congruence.
  - intros H Hr. inversion H as [Hc]. clear H.
    destruct (advanced_checks_valid _ _ _ _ _ _ Hc Hr) as (H1 & _ & H2 & _).
    rewrite H2, <- H1.
    apply same_nodes_filter, advanced_defaults_same.
    + simpl. intuition discriminate.
    + apply dict_values_Forall. eapply advanced_build_ok; eassumption.
Qed.

(** C1. When validation succeeds on a newly created layout, through
    [is_valid] or through either validator, exactly one node of the
    resulting node set carries [shadow]. A node set with no [shadow] node,
    or with more than one, is rejected: by the simple validator with
    "No controller was specified" or "Only one controller is allowed"
    (unless the duplicate address check has already rejected it), by the
    advanced validator with "No master was specified" or "Only one master
    is allowed". *)
Theorem exactly_one_shadow (VALID_AGENTS : list string) (O : HashOrder) :
  (forall self self',
      NodeLayout.nodes self = [] ->
      NodeLayout.is_valid VALID_AGENTS O self = Ok (true, self') ->
      length (filter (Node.is_role "shadow") (NodeLayout.nodes self')) = 1%nat)
  /\ (forall self self' r,
         NodeLayout.nodes self = [] ->
         NodeLayout.is_valid_simple_format VALID_AGENTS O self = Ok (r, self')
         \/ NodeLayout.is_valid_advanced_format VALID_AGENTS O self
            = Ok (r, self') ->
         NodeLayout.result r = true ->
         length (filter (Node.is_role "shadow") (NodeLayout.nodes self'))
         = 1%nat)
  /\ (forall self y nodes,
         let shadows :=
           filter (Node.is_role "shadow") (NodeLayout.promote_single O nodes) in
         (length shadows = 0%nat ->
          NodeLayout.simple_checks O self y nodes
          = (NodeLayout.invalid NodeLayout.DUPLICATE_IPS, self)
          \/ NodeLayout.simple_checks O self y nodes
             = (NodeLayout.invalid NodeLayout.NO_CONTROLLER, self))
         /\ (1 < length shadows ->
             NodeLayout.simple_checks O self y nodes
             = (NodeLayout.invalid NodeLayout.DUPLICATE_IPS, self)
             \/ NodeLayout.simple_checks O self y nodes
                = (NodeLayout.invalid NodeLayout.ONLY_ONE_CONTROLLER, self)))
  /\ (forall self nodes,
         let shadows := filter (Node.is_role "shadow") nodes in
         (length shadows = 0%nat ->
          NodeLayout.advanced_checks VALID_AGENTS O self nodes
          = (NodeLayout.invalid "No master was specified", self))
         /\ (1 < length shadows ->
             NodeLayout.advanced_checks VALID_AGENTS O self nodes
             = (NodeLayout.invalid "Only one master is allowed", self))).
Proof.
  split; [| split; [| split]].
  - intros self self' Hn. unfold NodeLayout.is_valid.
    destruct (NodeLayout.is_simple_format VALID_AGENTS O self).
    + destruct (NodeLayout.is_valid_simple_format _ _ _) as [[r s]|] eqn:E;
        [| discriminate].
      intros H; injection H as Hr Hs. subst s.
      eapply is_valid_simple_format_shadow; eassumption.
    + destruct (NodeLayout.is_advanced_format O self); [| discriminate].
      destruct (NodeLayout.is_valid_advanced_format _ _ _) as [[r s]|] eqn:E;
        [| discriminate].
      intros H; injection H as Hr Hs. subst s.
      eapply is_valid_advanced_format_shadow; eassumption.
  - intros self self' r Hn [H | H] Hr.
    + eapply is_valid_simple_format_shadow; eassumption.
    + eapply is_valid_advanced_format_shadow; eassumption.
  - intros self y nodes shadows. unfold NodeLayout.simple_checks. cbv zeta.
    destruct (Z.ltb 0 _); [split; intros _; now left |].
    rewrite count_nodes_filter. fold shadows. split; intros H; right.
    + rewrite H. reflexivity.
    + destruct (Z.eqb_spec (Z.of_nat (length shadows)) 0); [lia |].
      destruct (Z.ltb_spec 1 (Z.of_nat (length shadows))); [reflexivity | lia].
  - intros self nodes shadows. unfold NodeLayout.advanced_checks. cbv zeta.
    fold shadows. split; intros H.
    + destruct shadows; [reflexivity | discriminate].
    + destruct shadows as [|? [|? ?]]; simpl in H; [lia | lia | reflexivity].
Qed.

Lemma exactly_one_shadow_witness :
  exists self' : NodeLayout.t,
    NodeLayout.is_valid [] insertion_order
      (NodeLayout.init (Some [("controller", HostsStr "10.0.0.1")]) None None
         None None "cassandra")
    = Ok (true, self')
    /\ length (filter (Node.is_role "shadow") (NodeLayout.nodes self')) = 1%nat.
Proof.
  eexists. split; [vm_compute; reflexivity |].
  apply (proj1 (exactly_one_shadow [] insertion_order)
           (NodeLayout.init (Some [("controller", HostsStr "10.0.0.1")]) None
              None None None "cassandra")).
  - reflexivity.
  - vm_compute. reflexivity.
Defined.

(** ** Roles given by the keys of an advanced description *)

Lemma dict_order_In (O : HashOrder) {A : Type} (d : dict A) (e : string * A) :
  In e (dict_order O d) <-> In e d.
Proof.
  split; apply Permutation_in;
    [| apply Permutation_sym]; apply dict_order_Permutation.
Qed.

Lemma advanced_items_loop_total (O : HashOrder) (items : dict hosts) :
  (forall role, ~ In (role, HostsNone) items) ->
  forall h, exists h', NodeLayout.advanced_items_loop O items h = Ok h'.
Proof.
  induction items as [|[role ips] rest IH]; intros Hnn h; simpl.
  - now exists h.
  - destruct ips as [| ip | l]; simpl.
    + exfalso. apply (Hnn role). now left.
    + apply IH. intros role' Hin. apply (Hnn role'). now right.
    + apply IH. intros role' Hin. apply (Hnn role'). now right.
Qed.

Section Keys.
Variable O : HashOrder.

Lemma advanced_add_roles_id (role : string) (index : nat) (n : Node.t) :
  Node.id (NodeLayout.advanced_add_roles O role index n) = Node.id n.
Proof.
  unfold NodeLayout.advanced_add_roles, Node.add_db_role,
    Node.add_rabbitmq_role.
  repeat match goal with
         | |- context [if ?c then _ else _] => destruct c
         end; reflexivity.
Qed.

Lemma advanced_ips_loop_keyed (role : string) (ips : list string) :
  forall index h,
    keyed_by_id h ->
    keyed_by_id (NodeLayout.advanced_ips_loop O role ips index h).
Proof.
  induction ips as [|ip rest IH]; intros index h Hh; simpl; [assumption |].
  apply IH. intros k n.
  destruct (string_dec k ip) as [-> | Hne].
  - rewrite dict_get_set_same. intros H; inversion H; subst.
    rewrite advanced_add_roles_id. unfold NodeLayout.advanced_node.
    destruct (dict_get ip h) as [n0|] eqn:E; [now apply Hh |].
    destruct (NodeLayout.parse_ip ip); reflexivity.
  - rewrite dict_get_set_other by assumption. apply Hh.
Qed.

Lemma advanced_build_keyed (self : NodeLayout.t) (h : dict Node.t) :
  NodeLayout.advanced_build O self = Ok h -> keyed_by_id h.
Proof.
  unfold NodeLayout.advanced_build.
  destruct (NodeLayout.input_yaml self) as [y|]; [| discriminate].
  assert (H0 : keyed_by_id []) by (intros k n; discriminate).
  revert H0. generalize (@nil (string * Node.t)). revert h.
  induction (dict_order O y) as [|[role ips] rest IH]; intros h h0 H0; simpl.
  - intros H; inversion H; subst; assumption.
  - destruct (iter_hosts ips) as [l|]; [| discriminate].
    apply IH. now apply advanced_ips_loop_keyed.
Qed.

(** A role carried in the node hash is carried, by a node of the same id,
    in the validated node set, unless it is one the defaults may add. *)
Lemma carried_after_validation (VALID_AGENTS : list string)
    (self self' : NodeLayout.t) (r : NodeLayout.Result) (h : dict Node.t)
    (k x : string) :
  ~ In x default_roles ->
  NodeLayout.nodes self = [] ->
  NodeLayout.advanced_build O self = Ok h ->
  NodeLayout.is_valid_advanced_format VALID_AGENTS O self = Ok (r, self') ->
  NodeLayout.result r = true ->
  carries h k x ->
  exists n, In n (NodeLayout.nodes self')
            /\ Node.id n = fst (NodeLayout.parse_ip k)
            /\ Node.is_role x n = true.
Proof.
  intros Hx Hn Hb. unfold NodeLayout.is_valid_advanced_format.
  rewrite Hn, Hb.
  destruct (NodeLayout.advanced_nodes_loop _ _ _) as [r1|] eqn:El.
  - intros H Hr. inversion H; subst.
    apply advanced_nodes_loop_invalid in El. congruence.
  - intros H Hr (n & Hget & Hin). inversion H as [Hc]. clear H.
    destruct (advanced_checks_valid _ _ _ _ _ _ Hc Hr) as (_ & _ & H2 & _).
    assert (Hok : Forall advanced_ok (map snd (dict_order O h)))
      by (apply dict_values_Forall; eapply advanced_build_ok; eassumption).
    destruct (advanced_defaults_same O x Hx _ Hok) as [_ Hview].
    assert (Hn0 : In n (map snd (dict_order O h))).
    { apply dict_get_In in Hget. apply in_map_iff in Hget.
      destruct Hget as (e & <- & He). apply in_map, dict_order_In, He. }
    apply (in_map (view x)) in Hn0. rewrite <- Hview in Hn0.
    apply in_map_iff in Hn0. destruct Hn0 as (n' & Hv & Hn').
    exists n'. rewrite H2. split; [assumption |].
    unfold view in Hv. inversion Hv as [[Hid Hrole]].
    split.
    + rewrite Hid. eapply advanced_build_keyed; eassumption.
    + rewrite Hrole. now apply is_role_In.
Qed.
End Keys.

Lemma advanced_build_gives (O : HashOrder) (self : NodeLayout.t)
    (y : dict hosts) (role x : string) (ips : hosts) (l : list string)
    (h : dict Node.t) (j : nat) (ip : string) :
  NodeLayout.input_yaml self = Some y ->
  In (role, ips) y ->
  iter_hosts ips = Ok l ->
  nth_error l j = Some ip ->
  (forall n, advanced_ok n ->
             In x (Node.roles (NodeLayout.advanced_add_roles O role j n))) ->
  NodeLayout.advanced_build O self = Ok h ->
  carries h ip x.
Proof.
  intros Hy Hin Hl Hj Hx. unfold NodeLayout.advanced_build. rewrite Hy.
  intros Hb.
  apply (advanced_items_loop_gives O role x ips l (dict_order O y) [] h j ip);
    try assumption.
  - constructor.
  - now apply dict_order_In.
Qed.

Lemma advanced_build_total (O : HashOrder) (self : NodeLayout.t)
    (y : dict hosts) :
  NodeLayout.input_yaml self = Some y ->
  (forall role, ~ In (role, HostsNone) y) ->
  exists h, NodeLayout.advanced_build O self = Ok h.
Proof.
  intros Hy Hnn. unfold NodeLayout.advanced_build. rewrite Hy.
  apply advanced_items_loop_total.
  intros role Hin. apply (Hnn role). now apply dict_order_In in Hin.
Qed.

(** C5. For an advanced description whose [database] entry lists the hosts
    [h1, h2, ..., hn]: in every node hash the build returns, [h1] carries
    [db_master] and each of [h2 ... hn] carries [db_slave]; the build does
    return one when no entry of the description is None; and when the
    validation of a new layout succeeds, the validated node set has a node
    with the id of [h1] carrying [db_master] and, for each later host, a
    node with its id carrying [db_slave]. *)
Theorem database_first_master_rest_slaves
    (VALID_AGENTS : list string) (O : HashOrder) (self : NodeLayout.t)
    (y : dict hosts) (ips : hosts) (h1 : string) (rest : list string) :
  NodeLayout.input_yaml self = Some y ->
  In ("database", ips) y ->
  iter_hosts ips = Ok (h1 :: rest) ->
  (forall h,
      NodeLayout.advanced_build O self = Ok h ->
      carries h h1 "db_master"
      /\ forall hi, In hi rest -> carries h hi "db_slave")
  /\ ((forall role, ~ In (role, HostsNone) y) ->
      exists h, NodeLayout.advanced_build O self = Ok h)
  /\ (forall r self',
         NodeLayout.nodes self = [] ->
         NodeLayout.is_valid_advanced_format VALID_AGENTS O self
         = Ok (r, self') ->
         NodeLayout.result r = true ->
         (exists n, In n (NodeLayout.nodes self')
                    /\ Node.id n = fst (NodeLayout.parse_ip h1)
                    /\ Node.is_role "db_master" n = true)
         /\ (forall hi, In hi rest ->
               exists n, In n (NodeLayout.nodes self')
                         /\ Node.id n = fst (NodeLayout.parse_ip hi)
                         /\ Node.is_role "db_slave" n = true)).
Proof.
  intros Hy Hin Hl.
  assert (Hbuild : forall h,
             NodeLayout.advanced_build O self = Ok h ->
             carries h h1 "db_master"
             /\ forall hi, In hi rest -> carries h hi "db_slave").
  { intros h Hb. split.
    - eapply (advanced_build_gives O self y "database" "db_master" ips _ h 0);
        try eassumption; [reflexivity |].
      intros n Hn. now apply advanced_add_role_adds.
    - intros hi Hi. apply In_nth_error in Hi. destruct Hi as [j Hj].
      eapply (advanced_build_gives O self y "database" "db_slave" ips _ h (S j));
        try eassumption.
      intros n Hn. now apply advanced_add_role_adds. }
  split; [exact Hbuild |]. split; [now apply advanced_build_total |].
  intros r self' Hn Hv Hr.
  destruct (NodeLayout.advanced_build O self) as [h|] eqn:Eb.
  - destruct (Hbuild h eq_refl) as [Hm Hs]. split.
    + eapply carried_after_validation; try eassumption.
      simpl. intuition discriminate.
    + intros hi Hi. eapply carried_after_validation; try eassumption.
      * simpl. intuition discriminate.
      * now apply Hs.
  - unfold NodeLayout.is_valid_advanced_format in Hv.
    rewrite Hn, Eb in Hv. discriminate.
Qed.

Lemma database_first_master_rest_slaves_witness :
  exists h,
    NodeLayout.advanced_build insertion_order
      (NodeLayout.init (Some three_databases) None None None None "cassandra")
    = Ok h
    /\ carries h "10.0.0.3" "db_master"
    /\ carries h "10.0.0.4" "db_slave"
    /\ carries h "10.0.0.5" "db_slave".
Proof.
  eexists. split; [vm_compute; reflexivity |].
  destruct (database_first_master_rest_slaves [] insertion_order
              (NodeLayout.init (Some three_databases) None None None None
                 "cassandra")
              three_databases
              (HostsList ["10.0.0.3"; "10.0.0.4"; "10.0.0.5"])
              "10.0.0.3" ["10.0.0.4"; "10.0.0.5"]
              eq_refl
              (or_intror (or_intror (or_introl eq_refl)))
              eq_refl) as (Hb & _).
  destruct (Hb _ eq_refl) as [Hm Hs].
  split; [exact Hm |].
  split; apply Hs; simpl; tauto.
Defined.

(** ** The key db_master *)

Lemma forallb_false_In {A : Type} (f : A -> bool) (l : list A) (a : A) :
  In a l -> f a = false -> forallb f l = false.
Proof.
  intros Hin Hf. destruct (forallb f l) eqn:E; [| reflexivity].
  rewrite forallb_forall in E. rewrite (E a Hin) in Hf. discriminate.
Qed.

(** A description with a key outside both vocabularies is of neither
    format, and [is_valid] returns False without building a node. *)
Lemma unknown_key_not_valid (VALID_AGENTS : list string) (O : HashOrder)
    (self : NodeLayout.t) (y : dict hosts) (key : string) (ips : hosts) :
  NodeLayout.input_yaml self = Some y ->
  In (key, ips) y ->
  mem key NodeLayout.SIMPLE_FORMAT_KEYS = false ->
  mem key NodeLayout.ADVANCED_FORMAT_KEYS = false ->
  NodeLayout.is_simple_format VALID_AGENTS O self = false
  /\ NodeLayout.is_advanced_format O self = false
  /\ NodeLayout.is_valid VALID_AGENTS O self = Ok (false, self).
Proof.
  intros Hy Hin Hs Ha.
  assert (H1 : NodeLayout.is_simple_format VALID_AGENTS O self = false).
  { unfold NodeLayout.is_simple_format. rewrite Hy.
    destruct y as [|e y']; [destruct Hin |].
    apply (forallb_false_In _ _ (key, ips)); [now apply dict_order_In | exact Hs]. }
  assert (H2 : NodeLayout.is_advanced_format O self = false).
  { unfold NodeLayout.is_advanced_format. rewrite Hy.
    destruct y as [|e y']; [destruct Hin |].
    apply (forallb_false_In _ _ (key, ips)); [now apply dict_order_In | exact Ha]. }
  repeat split; try assumption.
  unfold NodeLayout.is_valid. now rewrite H1, H2.
Qed.

(** C10, amended. In the build loop of [is_valid_advanced_format], each
    host listed under the literal key [db_master] receives [zookeeper]
    (and the build returns a node hash when no entry is None). A
    description with that key is not an advanced description:
    [db_master] is not in [ADVANCED_FORMAT_KEYS], so [is_advanced_format]
    is False and [is_valid] returns False, the layout unchanged. *)
Theorem db_master_key_gives_zookeeper
    (VALID_AGENTS : list string) (O : HashOrder) (self : NodeLayout.t)
    (y : dict hosts) (ips : hosts) :
  NodeLayout.input_yaml self = Some y ->
  In ("db_master", ips) y ->
  (forall h l ip,
      NodeLayout.advanced_build O self = Ok h ->
      iter_hosts ips = Ok l -> In ip l ->
      carries h ip "zookeeper")
  /\ ((forall role, ~ In (role, HostsNone) y) ->
      exists h, NodeLayout.advanced_build O self = Ok h)
  /\ NodeLayout.is_advanced_format O self = false
  /\ NodeLayout.is_valid VALID_AGENTS O self = Ok (false, self).
Proof.
  intros Hy Hin. split; [| split].
  - intros h l ip Hb Hl Hi. apply In_nth_error in Hi. destruct Hi as [j Hj].
    eapply (advanced_build_gives O self y "db_master" "zookeeper" ips l h j);
      try eassumption.
    intros n Hn.
    change (NodeLayout.advanced_add_roles O "db_master" j n)
      with (Node.add_role O "role" (Node.add_role O "zookeeper" n)).
    apply advanced_add_role_keeps; [now apply advanced_add_role_ok |].
    now apply advanced_add_role_adds.
  - now apply advanced_build_total.
  - destruct (unknown_key_not_valid VALID_AGENTS O self y "db_master" ips
                Hy Hin eq_refl eq_refl) as (_ & H2 & H3).
    now split.
Qed.

Lemma db_master_key_gives_zookeeper_witness :
  exists h,
    NodeLayout.advanced_build insertion_order
      (NodeLayout.init (Some with_db_master) None None None None "cassandra")
    = Ok h
    /\ carries h "10.0.0.3" "zookeeper".
Proof.
  eexists. split; [vm_compute; reflexivity |].
  apply (proj1 (db_master_key_gives_zookeeper [] insertion_order
                  (NodeLayout.init (Some with_db_master) None None None None
                     "cassandra")
                  with_db_master (HostsStr "10.0.0.3") eq_refl
                  (or_intror (or_intror (or_introl eq_refl))))
           _ ["10.0.0.3"] "10.0.0.3" eq_refl eq_refl (or_introl eq_refl)).
Defined.

(** C10 as stated fails: a description with the key [db_master] is not
    processed as an advanced deployment. It is not of the advanced format,
    [is_valid] returns False for it, and the advanced validator called on
    it all the same rejects the node for the role named "role". *)
Lemma db_master_key_not_advanced :
  NodeLayout.is_advanced_format insertion_order
    (NodeLayout.init (Some with_db_master) None None None None "cassandra")
  = false
  /\ NodeLayout.is_valid [] insertion_order
       (NodeLayout.init (Some with_db_master) None None None None "cassandra")
     = Ok (false,
           NodeLayout.init (Some with_db_master) None None None None "cassandra")
  /\ NodeLayout.is_valid_advanced_format [] insertion_order
       (NodeLayout.init (Some with_db_master) None None None None "cassandra")
     = Ok (NodeLayout.invalid "Invalid role: role",
           NodeLayout.init (Some with_db_master) None None None None "cassandra").
Proof. repeat split. Qed.

(** ** Exceptions *)

Lemma dict_order_singleton (O : HashOrder) {A : Type} (e : string * A) :
  dict_order O [e] = [e].
Proof.
  apply Permutation_length_1_inv, Permutation_sym, dict_order_Permutation.
Qed.

Lemma invalid_role_not_valid (n : Node.t) (x : string) :
  In x (Node.roles n) -> mem x VALID_ROLES = false -> Node.is_valid n = false.
Proof.
  intros Hx Hm. unfold Node.is_valid.
  destruct (Node.errors n) as [|e es] eqn:E; [| reflexivity].
  exfalso. unfold Node.errors in E.
  assert (Hin : In ("Invalid role: " ++ x)%string
                  (flat_map
                     (fun role =>
                        if mem role VALID_ROLES then []
                        else [("Invalid role: " ++ role)%string])
                     (Node.roles n))).
  { apply in_flat_map. exists x. split; [assumption |].
    rewrite Hm. now left. }
  rewrite E in Hin. destruct Hin.
Qed.

(** C3 fails on the code: exceptions escape the validators. A key with no
    hosts (None) makes [for ip in ips] raise TypeError, in the simple
    validator (where [if not ips: next] skips nothing) and in the advanced
    one, both reached through [is_valid]; and a host with an unrecognized
    role makes the simple validator raise AttributeError at
    [node.errors().join(",")]. *)
Theorem exceptions_escape_validation
    (VALID_AGENTS : list string) (O : HashOrder) :
  NodeLayout.is_valid VALID_AGENTS O
    (NodeLayout.init (Some [("controller", HostsNone)]) None None None None
       "cassandra")
  = Raise TypeError
  /\ NodeLayout.is_valid VALID_AGENTS O
       (NodeLayout.init (Some [("master", HostsNone)]) None None None None
          "cassandra")
     = Raise TypeError
  /\ NodeLayout.is_valid_simple_format VALID_AGENTS O
       (NodeLayout.init (Some [("worker", HostsStr "10.0.0.1")]) None None None
          None "cassandra")
     = Raise AttributeError.
Proof.
  split; [| split].
  - unfold NodeLayout.is_valid, NodeLayout.is_simple_format,
      NodeLayout.is_valid_simple_format. simpl.
    rewrite !dict_order_singleton. reflexivity.
  - unfold NodeLayout.is_valid, NodeLayout.is_simple_format,
      NodeLayout.is_advanced_format, NodeLayout.is_valid_advanced_format,
      NodeLayout.advanced_build.
    simpl. rewrite !dict_order_singleton. reflexivity.
  - unfold NodeLayout.is_valid_simple_format. simpl.
    rewrite !dict_order_singleton.
    cbn [NodeLayout.simple_items_loop iter_hosts NodeLayout.simple_ips_loop].
    rewrite (invalid_role_not_valid _ "worker"); [reflexivity | | reflexivity].
    unfold NodeLayout.simple_node.
    destruct (NodeLayout.parse_ip "10.0.0.1") as [i cl].
    unfold Node.add_rabbitmq_role, Node.add_db_role.
    assert (H0 := simple_init_ok O i cl "worker").
    assert (Hw : In "worker" (Node.roles (Node.init O Node.Simple i cl ["worker"]))).
    { apply simple_init_In. left. repeat split; discriminate. }
    destruct (Node.is_role "shadow" _).
    + apply simple_add_role_In; [| discriminate | discriminate |].
      * apply simple_add_role_ok; [assumption | discriminate | discriminate].
      * left. apply simple_add_role_In;
          [assumption | discriminate | discriminate | now left].
    + apply simple_add_role_In; [| discriminate | discriminate |].
      * apply simple_add_role_ok; [assumption | discriminate | discriminate].
      * left. apply simple_add_role_In;
          [assumption | discriminate | discriminate | now left].
Qed.

(** ** Database nodes of an advanced layout *)

Lemma dict_set_filter_same {A : Type} (p : A -> bool) (k : string) (v : A)
    (d : dict A) :
  match dict_get k d with
  | Some v0 => p v = p v0
  | None => p v = false
  end ->
  length (filter p (map snd (dict_set k v d))) = length (filter p (map snd d)).
Proof.
  induction d as [|[k' v'] d IH]; simpl.
  - intros ->. reflexivity.
  - destruct (String.eqb k k'); simpl.
    + intros ->. destruct (p v'); reflexivity.
    + intros H. destruct (p v'); simpl; now rewrite IH.
Qed.

Lemma dict_set_filter_le {A : Type} (p : A -> bool) (k : string) (v : A)
    (d : dict A) :
  (length (filter p (map snd (dict_set k v d)))
   <= S (length (filter p (map snd d))))%nat.
Proof.
  induction d as [|[k' v'] d IH]; simpl.
  - destruct (p v); simpl; lia.
  - destruct (String.eqb k k'); simpl.
    + destruct (p v), (p v'); simpl; lia.
    + destruct (p v'); simpl; lia.
Qed.

Lemma filter_length_0 {A : Type} (p : A -> bool) (l : list A) :
  length (filter p l) = 0%nat <-> forall a, In a l -> p a = false.
Proof.
  induction l as [|b l IH]; simpl.
  - split; [intros _ a [] | reflexivity].
  - destruct (p b) eqn:E; simpl.
    + split; [discriminate |]. intros H. rewrite (H b) in E; [discriminate | now left].
    + rewrite IH. split.
      * intros H a [<- | Ha]; auto.
      * intros H a Ha. apply H. now right.
Qed.

Section DatabaseNodes.
Variable O : HashOrder.

(** No key gives the role [database]; only the key [database] gives
    [db_master], and only to the first host of its list. *)
Lemma advanced_add_roles_database (role : string) (index : nat) (n : Node.t) :
  advanced_ok n ->
  Node.is_role "database" (NodeLayout.advanced_add_roles O role index n)
  = Node.is_role "database" n.
Proof.
  intros Hn. unfold NodeLayout.advanced_add_roles, Node.add_db_role,
    Node.add_rabbitmq_role.
  destruct (String.eqb_spec role "database") as [E1 | E1].
  - destruct (Nat.eqb index 0);
      apply advanced_add_role_other; try assumption; discriminate.
  - destruct (String.eqb_spec role "db_master") as [E2 | E2].
    + rewrite advanced_add_role_other;
        [| now apply advanced_add_role_ok | discriminate ..].
      apply advanced_add_role_other; try assumption; discriminate.
    + destruct (String.eqb_spec role "rabbitmq") as [E3 | E3].
      * destruct (Nat.eqb index 0);
          (rewrite advanced_add_role_other;
           [| now apply advanced_add_role_ok | discriminate ..]);
          apply advanced_add_role_other; try assumption; discriminate.
      * apply advanced_add_role_other; try assumption;
          try discriminate; congruence.
Qed.

Lemma advanced_add_roles_db_master (role : string) (index : nat) (n : Node.t) :
  advanced_ok n ->
  role <> "database" \/ index <> 0%nat ->
  Node.is_role "db_master" (NodeLayout.advanced_add_roles O role index n)
  = Node.is_role "db_master" n.
Proof.
  intros Hn Hcase. unfold NodeLayout.advanced_add_roles, Node.add_db_role,
    Node.add_rabbitmq_role.
  destruct (String.eqb_spec role "database") as [E1 | E1].
  - destruct (Nat.eqb_spec index 0) as [E0 | E0]; [tauto |].
    apply advanced_add_role_other; try assumption; discriminate.
  - destruct (String.eqb_spec role "db_master") as [E2 | E2].
    + rewrite advanced_add_role_other;
        [| now apply advanced_add_role_ok | discriminate ..].
      apply advanced_add_role_other; try assumption; discriminate.
    + destruct (String.eqb_spec role "rabbitmq") as [E3 | E3].
      * destruct (Nat.eqb index 0);
          (rewrite advanced_add_role_other;
           [| now apply advanced_add_role_ok | discriminate ..]);
          apply advanced_add_role_other; try assumption; discriminate.
      * apply advanced_add_role_other; try assumption;
          try discriminate; congruence.
Qed.

Lemma advanced_node_role (h : dict Node.t) (ip x : string) :
  match dict_get ip h with
  | Some n0 => Node.is_role x (NodeLayout.advanced_node O h ip) = Node.is_role x n0
  | None => Node.is_role x (NodeLayout.advanced_node O h ip) = false
  end.
Proof.
  unfold NodeLayout.advanced_node. destruct (dict_get ip h); [reflexivity |].
  destruct (NodeLayout.parse_ip ip) as [i cl].
  destruct (Node.is_role x _) eqn:E; [| reflexivity].
  apply is_role_In in E. now apply advanced_init_roles in E.
Qed.

Lemma advanced_ips_loop_same (x role : string) (ips : list string) :
  forall index h,
    Forall advanced_ok (map snd h) ->
    (forall j n, advanced_ok n ->
                 Node.is_role x (NodeLayout.advanced_add_roles O role (index + j) n)
                 = Node.is_role x n) ->
    carrying x (NodeLayout.advanced_ips_loop O role ips index h) = carrying x h.
Proof.
  induction ips as [|ip rest IH]; intros index h Hh Hsame; simpl; [reflexivity |].
  rewrite IH.
  - unfold carrying. apply dict_set_filter_same.
    specialize (Hsame 0%nat (NodeLayout.advanced_node O h ip)
                  (advanced_node_ok O h ip Hh)).
    rewrite Nat.add_0_r in Hsame. rewrite Hsame.
    apply advanced_node_role.
  - apply dict_set_Forall; [| assumption].
    apply advanced_add_roles_ok, advanced_node_ok. assumption.
  - intros j n Hn. rewrite Nat.add_succ_comm. now apply Hsame.
Qed.

Lemma advanced_ips_loop_db_master (role : string) (ips : list string)
    (h : dict Node.t) :
  Forall advanced_ok (map snd h) ->
  (carrying "db_master" (NodeLayout.advanced_ips_loop O role ips 0 h)
   <= carrying "db_master" h + 1)%nat
  /\ (role <> "database" ->
      carrying "db_master" (NodeLayout.advanced_ips_loop O role ips 0 h)
      = carrying "db_master" h).
Proof.
  intros Hh. split.
  - destruct (string_dec role "database") as [-> | Hne].
    + destruct ips as [|ip rest]; simpl; [lia |].
      rewrite advanced_ips_loop_same.
      * unfold carrying.
        pose proof (dict_set_filter_le (Node.is_role "db_master") ip
                      (NodeLayout.advanced_add_roles O "database" 0
                         (NodeLayout.advanced_node O h ip)) h). lia.
      * apply dict_set_Forall; [| assumption].
        apply advanced_add_roles_ok, advanced_node_ok. assumption.
      * intros j n Hn. apply advanced_add_roles_db_master; [assumption |].
        right. discriminate.
    + rewrite advanced_ips_loop_same; [lia | assumption |].
      intros j n Hn. apply advanced_add_roles_db_master; [assumption | now left].
  - intros Hne. apply advanced_ips_loop_same; [assumption |].
    intros j n Hn. apply advanced_add_roles_db_master; [assumption | now left].
Qed.

Lemma advanced_items_loop_db_master (items : dict hosts) :
  NoDup (map fst items) ->
  forall h h',
    Forall advanced_ok (map snd h) ->
    NodeLayout.advanced_items_loop O items h = Ok h' ->
    (carrying "db_master" h' <= carrying "db_master" h + 1)%nat
    /\ (~ In "database" (map fst items) ->
        carrying "db_master" h' = carrying "db_master" h).
Proof.
  induction items as [|[role ips] rest IH]; intros Hnd h h' Hh; simpl.
  - intros H; inversion H; subst. split; [lia | reflexivity].
  - destruct (iter_hosts ips) as [l|]; [| discriminate].
    intros Hrun. inversion Hnd as [|? ? Hnotin Hnd']; subst.
    destruct (IH Hnd' _ _ (advanced_ips_loop_ok O role l 0 h Hh) Hrun)
      as [Hle Heq].
    destruct (advanced_ips_loop_db_master role l h Hh) as [Hstep Hsame].
    simpl in Hnotin.
    destruct (string_dec role "database") as [-> | Hne].
    + split; [rewrite (Heq Hnotin); lia |].
      intros Habs. exfalso. apply Habs. now left.
    + rewrite (Hsame Hne) in *. split; [lia |].
      intros Habs. apply Heq. intros Hin. apply Habs. now right.
Qed.

Lemma advanced_items_loop_database (items : dict hosts) :
  forall h h',
    Forall advanced_ok (map snd h) ->
    NodeLayout.advanced_items_loop O items h = Ok h' ->
    carrying "database" h' = carrying "database" h.
Proof.
  induction items as [|[role ips] rest IH]; intros h h' Hh; simpl.
  - intros H; inversion H; subst. reflexivity.
  - destruct (iter_hosts ips) as [l|]; [| discriminate].
    intros Hrun.
    rewrite (IH _ _ (advanced_ips_loop_ok O role l 0 h Hh) Hrun).
    apply advanced_ips_loop_same; [assumption |].
    intros j n Hn. now apply advanced_add_roles_database.
Qed.

(** The node hash of a description: no node carries [database], and at
    most one carries [db_master] when the keys are those of a dict. *)
Lemma advanced_build_database (self : NodeLayout.t) (y : dict hosts)
    (h : dict Node.t) :
  NodeLayout.input_yaml self = Some y ->
  NodeLayout.advanced_build O self = Ok h ->
  carrying "database" h = 0%nat
  /\ (NoDup (map fst y) -> (carrying "db_master" h <= 1)%nat).
Proof.
  intros Hy. unfold NodeLayout.advanced_build. rewrite Hy. intros Hb. split.
  - rewrite (advanced_items_loop_database _ [] h (Forall_nil _) Hb). reflexivity.
  - intros Hnd.
    assert (Hnd' : NoDup (map fst (dict_order O y))).
    { eapply Permutation_NoDup; [| exact Hnd].
      apply Permutation_map, Permutation_sym, dict_order_Permutation. }
    destruct (advanced_items_loop_db_master _ Hnd' [] h (Forall_nil _) Hb)
      as [Hle _].
    exact Hle.
Qed.
End DatabaseNodes.

Lemma dict_values_filter_length (O : HashOrder) (p : Node.t -> bool)
    (h : dict Node.t) :
  length (filter p (map snd (dict_order O h))) = length (filter p (map snd h)).
Proof.
  apply Permutation_filter_length, Permutation_map, dict_order_Permutation.
Qed.

(** The node set of a valid advanced layout: what the build found about
    [database] and [db_master] still holds after the defaults. *)
Lemma advanced_valid_database_nodes (VALID_AGENTS : list string)
    (O : HashOrder) (self self' : NodeLayout.t) (y : dict hosts)
    (r : NodeLayout.Result) :
  NodeLayout.nodes self = [] ->
  NodeLayout.input_yaml self = Some y ->
  NodeLayout.is_valid_advanced_format VALID_AGENTS O self = Ok (r, self') ->
  NodeLayout.result r = true ->
  let n := Z.of_nat (length (database_nodes (NodeLayout.nodes self'))) in
  (forall node, In node (NodeLayout.nodes self') ->
                Node.is_role "database" node = false)
  /\ database_nodes (NodeLayout.nodes self')
     = filter (Node.is_role "db_master") (NodeLayout.nodes self')
  /\ (NoDup (map fst y) -> (n <= 1)%Z)
  /\ (1 <= n)%Z
  /\ NodeLayout.replication self' = Some (settled_replication self n)
  /\ (settled_replication self n <= n)%Z.
Proof.
  intros Hn Hy. unfold NodeLayout.is_valid_advanced_format. rewrite Hn.
  destruct (NodeLayout.advanced_build O self) as [h|] eqn:Eb; [| discriminate].
  destruct (NodeLayout.advanced_nodes_loop _ _ _) as [r1|] eqn:El.
  - intros H Hr. inversion H; subst.
    apply advanced_nodes_loop_invalid in El. congruence.
  - intros H Hr. inversion H as [Hc]. clear H.
    destruct (advanced_checks_valid _ _ _ _ _ _ Hc Hr)
      as (_ & _ & H2 & H3 & H4 & H5).
    cbv zeta. rewrite H2.
    set (nodes0 := map snd (dict_order O h)) in *.
    assert (Hok : Forall advanced_ok nodes0)
      by (apply dict_values_Forall; eapply advanced_build_ok; eassumption).
    destruct (advanced_build_database O self y h Hy Eb) as [Hdb Hdm].
    assert (Hnone : forall node, In node (advanced_defaults O nodes0) ->
                                 Node.is_role "database" node = false).
    { apply filter_length_0.
      rewrite (same_nodes_filter "database" nodes0).
      - unfold nodes0. rewrite dict_values_filter_length. exact Hdb.
      - apply advanced_defaults_same; [| assumption].
        simpl. intuition discriminate. }
    assert (Hsame : database_nodes (advanced_defaults O nodes0)
                    = filter (Node.is_role "db_master")
                        (advanced_defaults O nodes0)).
    { unfold database_nodes. apply filter_ext_in. intros node Hin.
      unfold is_database_node. now rewrite (Hnone node Hin). }
    repeat split; try assumption.
    intros Hnd. rewrite Hsame.
    rewrite (same_nodes_filter "db_master" nodes0).
    + unfold nodes0. rewrite dict_values_filter_length.
      specialize (Hdm Hnd). unfold carrying in Hdm. lia.
    + apply advanced_defaults_same; [| assumption].
      simpl. intuition discriminate.
Qed.




(** ** Nodes of the simple validator *)

Lemma iter_hosts_list (ips : hosts) (l : list string) :
  iter_hosts ips = Ok l -> host_list ips = l /\ ips <> HostsNone.
Proof.
  destruct ips; simpl; intros H; inversion H; subst;
    split; try reflexivity; discriminate.
Qed.

Section SimpleNodes.
Variable VALID_AGENTS : list string.
Variable O : HashOrder.

Lemma simple_ips_loop_next (self : NodeLayout.t) (role : string)
    (ips : list string) :
  forall nodes nodes',
    NodeLayout.simple_ips_loop VALID_AGENTS O self role ips nodes
    = NodeLayout.Next nodes' ->
    nodes' = nodes ++ map (NodeLayout.simple_node O role) ips.
Proof.
  induction ips as [|ip rest IH]; intros nodes nodes'; simpl.
  - intros H; inversion H; subst. now rewrite app_nil_r.
  - destruct (negb (Node.is_valid _)); [discriminate |].
    destruct (NodeLayout.check_node_id _ _ _); [discriminate |].
    intros H. rewrite (IH _ _ H), <- app_assoc. reflexivity.
Qed.

Lemma simple_items_loop_next (self : NodeLayout.t) (items : dict hosts) :
  forall nodes nodes',
    NodeLayout.simple_items_loop VALID_AGENTS O self items nodes
    = NodeLayout.Next nodes' ->
    nodes' = nodes ++ simple_nodes O items.
Proof.
  induction items as [|[role ips] rest IH]; intros nodes nodes'; simpl.
  - intros H; inversion H; subst. now rewrite app_nil_r.
  - destruct (iter_hosts ips) as [l|] eqn:El; [| discriminate].
    destruct (NodeLayout.simple_ips_loop _ _ _ _ _ _) as [nodes1| |] eqn:E;
      try discriminate.
    intros H. rewrite (IH _ _ H), (simple_ips_loop_next _ _ _ _ _ E).
    destruct (iter_hosts_list _ _ El) as [-> _].
    now rewrite <- app_assoc.
Qed.

Lemma simple_node_id (role ip : string) :
  Node.id (NodeLayout.simple_node O role ip) = fst (NodeLayout.parse_ip ip).
Proof.
  unfold NodeLayout.simple_node. destruct (NodeLayout.parse_ip ip) as [i cl].
  unfold Node.add_rabbitmq_role, Node.add_db_role.
  destruct (Node.is_role "shadow" _); reflexivity.
Qed.

(** The roles of the node built for a host of [role]: the expansion of
    [role], and the master roles on the shadow node, the slave roles on
    the others. *)
Lemma simple_node_In (role ip x : string) :
  In x (Node.roles (NodeLayout.simple_node O role ip)) <->
    In x (SimpleNode.expand_roles O [role])
    \/ (In "shadow" (SimpleNode.expand_roles O [role])
        /\ (x = "db_master" \/ x = "rabbitmq_master"))
    \/ (~ In "shadow" (SimpleNode.expand_roles O [role])
        /\ (x = "db_slave" \/ x = "rabbitmq_slave")).
Proof.
  unfold NodeLayout.simple_node. destruct (NodeLayout.parse_ip ip) as [i cl].
  assert (H0 := simple_init_ok O i cl role).
  change (SimpleNode.expand_roles O [role])
    with (Node.roles (Node.init O Node.Simple i cl [role])).
  unfold Node.add_rabbitmq_role, Node.add_db_role.
  destruct (Node.is_role "shadow" _) eqn:Es.
  - apply is_role_In in Es.
    rewrite simple_add_role_In;
      [| apply simple_add_role_ok; [assumption | discriminate ..]
       | discriminate ..].
    rewrite simple_add_role_In; [| assumption | discriminate ..].
    tauto.
  - assert (Hs : ~ In "shadow" (Node.roles (Node.init O Node.Simple i cl [role]))).
    { intros H. apply is_role_In in H. congruence. }
    rewrite simple_add_role_In;
      [| apply simple_add_role_ok; [assumption | discriminate ..]
       | discriminate ..].
    rewrite simple_add_role_In; [| assumption | discriminate ..].
    tauto.
Qed.

Lemma simple_node_ok (role ip : string) :
  simple_ok (NodeLayout.simple_node O role ip).
Proof.
  unfold NodeLayout.simple_node. destruct (NodeLayout.parse_ip ip) as [i cl].
  assert (H0 := simple_init_ok O i cl role).
  unfold Node.add_rabbitmq_role, Node.add_db_role.
  destruct (Node.is_role "shadow" _);
    repeat (apply simple_add_role_ok; [| discriminate ..]); assumption.
Qed.
End SimpleNodes.

(** The outcome of a successful simple validation of a new layout: the
    description used (given, or generated on a cloud) and the node set. *)
Lemma is_valid_simple_format_nodes (VALID_AGENTS : list string)
    (O : HashOrder) (self self' : NodeLayout.t) (r : NodeLayout.Result) :
  NodeLayout.nodes self = [] ->
  NodeLayout.is_valid_simple_format VALID_AGENTS O self = Ok (r, self') ->
  NodeLayout.result r = true ->
  exists y,
    NodeLayout.input_yaml self' = Some y
    /\ NodeLayout.nodes self'
       = NodeLayout.promote_single O (simple_nodes O (dict_order O y)).
Proof.
  intros Hn. unfold NodeLayout.is_valid_simple_format. rewrite Hn.
  destruct (NodeLayout.simple_input _ _) as [self1|r1|] eqn:Ein.
  - destruct (NodeLayout.input_yaml self1) as [y|] eqn:Ey; [| discriminate].
    destruct (NodeLayout.simple_items_loop _ _ _ _ _) as [nodes|r2|] eqn:El.
    + intros H Hr. inversion H as [Hc]. clear H.
      destruct (simple_checks_valid O _ _ _ _ _ Hc Hr) as (_ & _ & -> & _).
      exists y. split; [exact Ey |].
      apply simple_items_loop_next in El. rewrite El. reflexivity.
    + intros H Hr. inversion H; subst.
      apply simple_items_loop_invalid in El. congruence.
    + discriminate.
  - intros H Hr. inversion H; subst.
    apply simple_input_invalid in Ein. congruence.
  - discriminate.
Qed.

(** C8. When the simple validation of a new layout succeeds with exactly
    one node, that node carries [appengine] and [memcache], and every role
    of the expansion of the role its host was listed under in the
    description. *)
Theorem single_node_is_app_server
    (VALID_AGENTS : list string) (O : HashOrder) (self self' : NodeLayout.t)
    (r : NodeLayout.Result) (n : Node.t) :
  NodeLayout.nodes self = [] ->
  NodeLayout.is_valid_simple_format VALID_AGENTS O self = Ok (r, self') ->
  NodeLayout.result r = true ->
  NodeLayout.nodes self' = [n] ->
  Node.is_role "appengine" n = true
  /\ Node.is_role "memcache" n = true
  /\ exists y role ips ip,
       NodeLayout.input_yaml self' = Some y
       /\ In (role, ips) y /\ In ip (host_list ips)
       /\ Node.id n = fst (NodeLayout.parse_ip ip)
       /\ forall x, In x (SimpleNode.expand_roles O [role]) ->
                    Node.is_role x n = true.
Proof.
  intros Hn Hv Hr Hone.
  destruct (is_valid_simple_format_nodes _ _ _ _ _ Hn Hv Hr) as (y & Hy & Hnodes).
  rewrite Hone in Hnodes.
  destruct (simple_nodes O (dict_order O y)) as [|n0 [|n1 rest]] eqn:Es;
    simpl in Hnodes; try discriminate.
  inversion Hnodes as [Hn0]. clear Hnodes.
  assert (Hin : In n0 (simple_nodes O (dict_order O y)))
    by (rewrite Es; now left).
  unfold simple_nodes in Hin. apply in_flat_map in Hin.
  destruct Hin as ([role ips] & He & Hmap). simpl in Hmap.
  apply in_map_iff in Hmap. destruct Hmap as (ip & Hip & Hhost).
  apply dict_order_In in He.
  assert (Hok : simple_ok n0) by (rewrite <- Hip; apply simple_node_ok).
  assert (Hok1 : simple_ok (Node.add_role O "appengine" n0))
    by (apply simple_add_role_ok; [assumption | discriminate ..]).
  assert (Hroles : forall x,
             In x (Node.roles (Node.add_role O "memcache"
                                 (Node.add_role O "appengine" n0)))
             <-> In x (Node.roles n0) \/ x = "appengine" \/ x = "memcache").
  { intros x. rewrite simple_add_role_In; [| assumption | discriminate ..].
    rewrite simple_add_role_In; [| assumption | discriminate ..]. tauto. }
  split; [apply is_role_In, Hroles; tauto |].
  split; [apply is_role_In, Hroles; tauto |].
  exists y, role, ips, ip. repeat split; try assumption.
  - rewrite <- Hip. simpl. apply simple_node_id.
  - intros x Hx. apply is_role_In, Hroles. left. rewrite <- Hip.
    apply simple_node_In. now left.
Qed.

Lemma single_node_is_app_server_witness :
  exists (self' : NodeLayout.t) (n : Node.t),
    NodeLayout.is_valid_simple_format [] insertion_order
      (NodeLayout.init (Some [("controller", HostsStr "10.0.0.1")]) None None
         None None "cassandra")
    = Ok (NodeLayout.valid, self')
    /\ NodeLayout.nodes self' = [n]
    /\ Node.is_role "appengine" n = true
    /\ Node.is_role "memcache" n = true.
Proof.
  eexists. eexists. split; [vm_compute; reflexivity |].
  split; [reflexivity |].
  destruct (single_node_is_app_server [] insertion_order
              (NodeLayout.init (Some [("controller", HostsStr "10.0.0.1")])
                 None None None None "cassandra")
              _ NodeLayout.valid _ eq_refl
              ltac:(vm_compute; reflexivity) eq_refl eq_refl)
    as (Ha & Hm & _).
  split; [exact Ha | exact Hm].
Defined.

(** ** Shapes of host identifiers *)

Lemma span_digits_prefix (s d r : string) :
  span_digits s = (d, r) -> span_digits d = (d, "").
Proof.
  revert d r. induction s as [|c t IH]; intros d r; simpl.
  - intros H; inversion H; reflexivity.
  - destruct (is_digit c) eqn:Ec.
    + destruct (span_digits t) as [d' r'] eqn:Et.
      intros H; inversion H; subst. simpl.
      rewrite Ec, (IH _ _ eq_refl). reflexivity.
    + intros H; inversion H; reflexivity.
Qed.

(** The text matched by [NODE_ID_REGEX] matches it again, as itself. *)
Lemma NODE_ID_REGEX_match_group0 (s g0 g1 : string) :
  NODE_ID_REGEX_match s = Some (g0, g1) ->
  NODE_ID_REGEX_match g0 = Some (g0, g1).
Proof.
  unfold NODE_ID_REGEX_match.
  destruct (literal "node-" s) as [r|]; [| discriminate]. simpl.
  unfold digits1. destruct (span_digits r) as [d r'] eqn:Er.
  destruct d as [|c d]; [discriminate |]. simpl.
  intros H; inversion H; subst.
  pose proof (span_digits_prefix r (String c d) r' Er) as Hp.
  simpl in Hp. simpl. rewrite Hp. reflexivity.
Qed.

(** An identifier that starts like an IP address is not a node id. *)
Lemma IP_REGEX_not_node_id (s : string) :
  IP_REGEX_match s = true -> NODE_ID_REGEX_match s = None.
Proof.
  destruct s as [|c t]; [discriminate |].
  unfold NODE_ID_REGEX_match.
  change (literal "node-" (String c t))
    with (if Ascii.eqb "n"%char c then literal "ode-" t else None).
  destruct (Ascii.eqb_spec "n"%char c) as [<- | Hc]; [| reflexivity].
  intros H. cbv in H. discriminate H.
Qed.

Lemma check_node_id_well_shaped (VALID_AGENTS : list string) (O : HashOrder)
    (self : NodeLayout.t) (role ip : string) :
  well_shaped VALID_AGENTS self ip = true ->
  NodeLayout.check_node_id VALID_AGENTS self (NodeLayout.simple_node O role ip)
  = None.
Proof.
  unfold well_shaped, NodeLayout.check_node_id.
  rewrite simple_node_id. unfold NodeLayout.parse_ip.
  destruct (NodeLayout.in_valid_agents VALID_AGENTS self).
  - destruct (NODE_ID_REGEX_match ip) as [[g0 g1]|] eqn:E; [| discriminate].
    intros _. simpl. now rewrite (NODE_ID_REGEX_match_group0 ip g0 g1 E).
  - intros H. rewrite (IP_REGEX_not_node_id ip H). simpl. now rewrite H.
Qed.

Lemma is_valid_all_roles (n : Node.t) :
  (forall x, In x (Node.roles n) -> mem x VALID_ROLES = true) ->
  Node.is_valid n = true.
Proof.
  unfold Node.is_valid, Node.errors. intros H.
  induction (Node.roles n) as [|x l IH]; [reflexivity |].
  cbn [flat_map]. rewrite (H x (or_introl eq_refl)). cbn [app].
  apply IH. intros z Hz. apply H. now right.
Qed.

(** The nodes built for [controller] and [servers] have valid roles. *)
Lemma simple_node_valid (O : HashOrder) (role ip : string) :
  In role NodeLayout.SIMPLE_FORMAT_KEYS ->
  Node.is_valid (NodeLayout.simple_node O role ip) = true.
Proof.
  intros Hrole. apply is_valid_all_roles. intros x Hx.
  apply simple_node_In in Hx.
  assert (He : forall z, In z (SimpleNode.expand_roles O [role]) ->
                         mem z VALID_ROLES = true).
  { intros z Hz.
    change (SimpleNode.expand_roles O [role])
      with (Node.roles (Node.init O Node.Simple "" "" [role])) in Hz.
    apply simple_init_In in Hz. simpl in Hrole, Hz.
    intuition (subst; try reflexivity; try congruence). }
  destruct Hx as [Hx | [[_ [-> | ->]] | [_ [-> | ->]]]];
    [now apply He | reflexivity ..].
Qed.

(** ** Duplicate addresses *)

Lemma nodup_length {A : Type} (dec : forall a b : A, {a = b} + {a <> b})
    (l : list A) :
  (length (nodup dec l) <= length l)%nat
  /\ (length (nodup dec l) = length l -> NoDup l).
Proof.
  induction l as [|a l [IH1 IH2]]; simpl.
  - split; [lia | constructor].
  - destruct (in_dec dec a l) as [Hin | Hnin]; simpl.
    + split; [lia |]. intros H. lia.
    + split; [lia |]. intros H. constructor; [assumption |].
      apply IH2. lia.
Qed.

Lemma duplicates_counted (l : list (option string)) :
  ~ NoDup l ->
  Z.ltb 0 (Z.of_nat (length l) - Z.of_nat (len_set l)) = true.
Proof.
  intros Hd. unfold len_set.
  destruct (nodup_length host_eq_dec l) as [Hle Heq].
  apply Z.ltb_lt.
  destruct (Nat.eq_dec (length (nodup host_eq_dec l)) (length l)) as [E | E].
  - exfalso. apply Hd, Heq, E.
  - lia.
Qed.

Lemma all_ips_hosts (O : HashOrder) (y : dict hosts) :
  (forall role, ~ In (role, HostsNone) y) ->
  NodeLayout.all_ips O y = map Some (all_hosts (dict_order O y)).
Proof.
  intros Hnn. unfold NodeLayout.all_ips, all_hosts.
  assert (Hnn' : forall role, ~ In (role, HostsNone) (dict_order O y)).
  { intros role Hin. apply (Hnn role). now apply dict_order_In in Hin. }
  induction (dict_order O y) as [|[role ips] rest IH]; [reflexivity |].
  simpl. rewrite map_app, IH.
  - destruct ips; simpl; try reflexivity.
    exfalso. apply (Hnn' role). now left.
  - intros role' Hin. apply (Hnn' role'). now right.
Qed.

Lemma all_hosts_NoDup (O : HashOrder) (y : dict hosts) :
  NoDup (all_hosts (dict_order O y)) -> NoDup (all_hosts y).
Proof.
  apply Permutation_NoDup. unfold all_hosts.
  apply Permutation_flat_map, dict_order_Permutation.
Qed.

Section SimpleRun.
Variable VALID_AGENTS : list string.
Variable O : HashOrder.

Lemma simple_ips_loop_runs (self : NodeLayout.t) (role : string)
    (ips : list string) :
  In role NodeLayout.SIMPLE_FORMAT_KEYS ->
  (forall ip, In ip ips -> well_shaped VALID_AGENTS self ip = true) ->
  forall nodes,
    NodeLayout.simple_ips_loop VALID_AGENTS O self role ips nodes
    = NodeLayout.Next (nodes ++ map (NodeLayout.simple_node O role) ips).
Proof.
  intros Hrole. induction ips as [|ip rest IH]; intros Hips nodes; simpl.
  - now rewrite app_nil_r.
  - rewrite (simple_node_valid O role ip Hrole). simpl.
    rewrite (check_node_id_well_shaped VALID_AGENTS O self role ip)
      by (apply Hips; now left).
    rewrite IH by (intros ip' Hin; apply Hips; now right).
    now rewrite <- app_assoc.
Qed.

Lemma simple_items_loop_runs (self : NodeLayout.t) (items : dict hosts) :
  (forall role ips, In (role, ips) items ->
                    In role NodeLayout.SIMPLE_FORMAT_KEYS /\ ips <> HostsNone) ->
  (forall ip, In ip (all_hosts items) ->
              well_shaped VALID_AGENTS self ip = true) ->
  forall nodes,
    NodeLayout.simple_items_loop VALID_AGENTS O self items nodes
    = NodeLayout.Next (nodes ++ simple_nodes O items).
Proof.
  induction items as [|[role ips] rest IH]; intros Hkeys Hips nodes; simpl.
  - now rewrite app_nil_r.
  - destruct (Hkeys role ips (or_introl eq_refl)) as [Hrole Hnn].
    assert (El : iter_hosts ips = Ok (host_list ips))
      by (destruct ips; [contradiction | reflexivity ..]).
    rewrite El, simple_ips_loop_runs; try assumption.
    + rewrite IH.
      * now rewrite <- app_assoc.
      * intros role' ips' Hin. apply Hkeys. now right.
      * intros ip Hin. apply Hips. unfold all_hosts. simpl.
        apply in_or_app. now right.
    + intros ip Hin. apply Hips. unfold all_hosts. simpl.
      apply in_or_app. now left.
Qed.

(** The loop returns at the first host whose identifier has not the shape
    the infrastructure asks for, before any later check. *)
Lemma simple_items_loop_first_host (self : NodeLayout.t) (role ip : string)
    (rest : dict hosts) (r : NodeLayout.Result) :
  In role NodeLayout.SIMPLE_FORMAT_KEYS ->
  NodeLayout.check_node_id VALID_AGENTS self (NodeLayout.simple_node O role ip)
  = Some r ->
  NodeLayout.simple_items_loop VALID_AGENTS O self
    ((role, HostsStr ip) :: rest) []
  = NodeLayout.Return r.
Proof.
  intros Hrole Hc. simpl.
  rewrite (simple_node_valid O role ip Hrole). simpl. now rewrite Hc.
Qed.
End SimpleRun.

(** C6, amended. For a simple description with no None entry in which
    every host identifier has the shape the infrastructure asks for (a
    node id on a cloud, an IP address elsewhere), validating a new layout
    returns Invalid with "Cannot specify the same IP address more than
    once." as soon as some host identifier occurs more than once, under
    whichever roles, and leaves the layout as it was. *)
Theorem duplicate_ips_rejected
    (VALID_AGENTS : list string) (O : HashOrder) (self : NodeLayout.t)
    (y : dict hosts) :
  NodeLayout.nodes self = [] ->
  NodeLayout.input_yaml self = Some y ->
  (forall role ips, In (role, ips) y ->
                    In role NodeLayout.SIMPLE_FORMAT_KEYS /\ ips <> HostsNone) ->
  (forall ip, In ip (all_hosts y) -> well_shaped VALID_AGENTS self ip = true) ->
  ~ NoDup (all_hosts y) ->
  NodeLayout.is_valid_simple_format VALID_AGENTS O self
  = Ok (NodeLayout.invalid NodeLayout.DUPLICATE_IPS, self).
Proof.
  intros Hn Hy Hkeys Hshape Hdup.
  unfold NodeLayout.is_valid_simple_format. rewrite Hn.
  assert (Hhas : NodeLayout.has_input_yaml self = true).
  { unfold NodeLayout.has_input_yaml. rewrite Hy.
    destruct y; [| reflexivity]. exfalso. apply Hdup. constructor. }
  unfold NodeLayout.simple_input. rewrite Hhas, Hy.
  rewrite (simple_items_loop_runs VALID_AGENTS O self (dict_order O y)).
  - unfold NodeLayout.simple_checks. cbv zeta.
    rewrite duplicates_counted; [reflexivity |].
    rewrite all_ips_hosts.
    + intros Hnd. apply Hdup, (all_hosts_NoDup O).
      eapply NoDup_map_inv. exact Hnd.
    + intros role Hin. destruct (Hkeys role HostsNone Hin) as [_ Hnn].
      now apply Hnn.
  - intros role ips Hin. apply Hkeys. now apply dict_order_In in Hin.
  - intros ip Hin. apply Hshape.
    eapply Permutation_in; [| exact Hin]. unfold all_hosts.
    apply Permutation_flat_map, dict_order_Permutation.
Qed.

Lemma duplicate_ips_rejected_witness :
  ~ NoDup (all_hosts same_ip_twice)
  /\ NodeLayout.is_valid_simple_format [] insertion_order
       (NodeLayout.init (Some same_ip_twice) None None None None "cassandra")
     = Ok (NodeLayout.invalid NodeLayout.DUPLICATE_IPS,
           NodeLayout.init (Some same_ip_twice) None None None None "cassandra").
Proof.
  assert (Hdup : ~ NoDup (all_hosts same_ip_twice)).
  { intros H. inversion H as [|? ? Hnin _]. apply Hnin. now left. }
  split; [exact Hdup |].
  apply (duplicate_ips_rejected [] insertion_order
           (NodeLayout.init (Some same_ip_twice) None None None None "cassandra")
           same_ip_twice eq_refl eq_refl).
  - intros role ips [E | [E | []]]; inversion E; subst;
      (split; [simpl; tauto | discriminate]).
  - intros ip [<- | [<- | []]]; reflexivity.
  - exact Hdup.
Defined.

(** Whichever key comes first, the first host is refused for its shape. *)
Lemma same_name_twice_any_order (VALID_AGENTS : list string) (O : HashOrder) :
  NodeLayout.is_valid_simple_format VALID_AGENTS O
    (NodeLayout.init (Some same_name_twice) None None None None "cassandra")
  = Ok (NodeLayout.invalid "localhost must be an IP address",
        NodeLayout.init (Some same_name_twice) None None None None "cassandra").
Proof.
  unfold NodeLayout.is_valid_simple_format. simpl.
  assert (Hc : forall role,
             NodeLayout.check_node_id VALID_AGENTS
               (NodeLayout.init (Some same_name_twice) None None None None
                  "cassandra")
               (NodeLayout.simple_node O role "localhost")
             = Some (NodeLayout.invalid "localhost must be an IP address")).
  { intros role. unfold NodeLayout.check_node_id.
    rewrite simple_node_id. reflexivity. }
  destruct (Permutation_length_2_inv
              (Permutation_sym (dict_order_Permutation O _ same_name_twice)))
    as [E | E]; rewrite E.
  - rewrite (simple_items_loop_first_host VALID_AGENTS O _ _ _ _ _
               (or_introl eq_refl) (Hc "controller")).
    reflexivity.
  - rewrite (simple_items_loop_first_host VALID_AGENTS O _ _ _ _ _
               (or_intror (or_introl eq_refl)) (Hc "servers")).
    reflexivity.
Qed.

(** C6 as stated fails: the host [localhost] occurs twice, and the result
    is Invalid for the shape of the identifier, not for the duplicate. *)
Lemma duplicate_ips_not_reported :
  ~ NoDup (all_hosts same_name_twice)
  /\ NodeLayout.is_valid_simple_format [] insertion_order
       (NodeLayout.init (Some same_name_twice) None None None None "cassandra")
     = Ok (NodeLayout.invalid "localhost must be an IP address",
           NodeLayout.init (Some same_name_twice) None None None None
             "cassandra")
  /\ "localhost must be an IP address" <> NodeLayout.DUPLICATE_IPS.
Proof.
  split; [| split].
  - intros H. inversion H as [|? ? Hnin _]. apply Hnin. now left.
  - apply same_name_twice_any_order.
  - discriminate.
Qed.

(** * Further properties of the layout *)

(** ** The two formats *)

Lemma dict_order_nonempty (O : HashOrder) {A : Type} (d : dict A) :
  d <> [] -> dict_order O d <> [].
Proof.
  intros Hd E. apply Hd.
  apply Permutation_nil. rewrite <- E.
  apply dict_order_Permutation.
Qed.

(** The two vocabularies share no key, and a missing description is never
    advanced. *)
Lemma formats_disjoint (VALID_AGENTS : list string) (O : HashOrder)
    (self : NodeLayout.t) :
  NodeLayout.is_simple_format VALID_AGENTS O self
  && NodeLayout.is_advanced_format O self = false.
Proof.
  unfold NodeLayout.is_simple_format, NodeLayout.is_advanced_format.
  destruct (NodeLayout.input_yaml self) as [[|e y]|];
    [apply andb_false_r | | apply andb_false_r].
  assert (Hne : dict_order O (e :: y) <> [])
    by (apply dict_order_nonempty; discriminate).
  destruct (dict_order O (e :: y)) as [|[key ips] rest]; [contradiction |].
  cbn [forallb].
  destruct (mem key NodeLayout.SIMPLE_FORMAT_KEYS) eqn:Es; [| reflexivity].
  apply mem_In in Es. simpl in Es.
  destruct Es as [<- | [<- | []]]; cbn [andb]; apply andb_false_r.
Qed.

(** X1. No layout is of both formats, whatever the order in which the
    description is iterated; so the [elif] branches of [is_supported] are
    not shadowed: on an advanced layout it answers what
    [is_supported_advanced_format] answers, and on a layout of neither
    format it answers False. *)
Theorem formats_exclusive (VALID_AGENTS : list string) (O : HashOrder)
    (self : NodeLayout.t) :
  NodeLayout.is_simple_format VALID_AGENTS O self
  && NodeLayout.is_advanced_format O self = false
  /\ NodeLayout.is_supported VALID_AGENTS O self
     = NodeLayout.is_simple_format VALID_AGENTS O self
       || NodeLayout.is_advanced_format O self
          && NodeLayout.is_supported_advanced_format self.
Proof.
  split; [apply formats_disjoint |].
  unfold NodeLayout.is_supported.
  destruct (NodeLayout.is_simple_format VALID_AGENTS O self); [reflexivity |].
  destruct (NodeLayout.is_advanced_format O self); reflexivity.
Qed.

(** ** Identifier parsing *)

(** X2. Parsing the id that [parse_ip] returned gives the same id and
    tag; the tag is ["node"] exactly for identifiers that start with a
    node id, and ["not-cloud"] otherwise. *)
Theorem parse_ip_stable (ip : string) :
  NodeLayout.parse_ip (fst (NodeLayout.parse_ip ip)) = NodeLayout.parse_ip ip
  /\ (snd (NodeLayout.parse_ip ip) = "node"
      \/ snd (NodeLayout.parse_ip ip) = "not-cloud")
  /\ (snd (NodeLayout.parse_ip ip) = "node"
      <-> NODE_ID_REGEX_match ip <> None).
Proof.
  unfold NodeLayout.parse_ip.
  destruct (NODE_ID_REGEX_match ip) as [[g0 g1]|] eqn:E.
  - assert (Hg1 : g1 = "node").
    { unfold NODE_ID_REGEX_match in E.
      destruct (literal "node-" ip); [| discriminate]. simpl in E.
      destruct (digits1 s) as [[d r]|]; [| discriminate].
      simpl in E. now inversion E. }
    simpl. rewrite (NODE_ID_REGEX_match_group0 ip g0 g1 E). subst g1.
    repeat split; auto; discriminate.
  - simpl. rewrite E. repeat split; auto; try discriminate.
    intros H. now contradiction H.
Qed.

(** ** Validating twice *)

Lemma default_vms_infrastructure (VALID_AGENTS : list string)
    (self : NodeLayout.t) (nodes : list Node.t) :
  NodeLayout.infrastructure (NodeLayout.default_vms VALID_AGENTS self nodes)
  = NodeLayout.infrastructure self.
Proof.
  unfold NodeLayout.default_vms.
  destruct (NodeLayout.in_valid_agents VALID_AGENTS self); [| reflexivity].
  destruct (negb (truthy (NodeLayout.min_vms self)));
    destruct (negb (truthy _)); reflexivity.
Qed.

(** The description and the infrastructure of a layout are not touched by
    a successful advanced validation. *)
Lemma advanced_checks_state (VALID_AGENTS : list string) (O : HashOrder)
    (self self' : NodeLayout.t) (nodes : list Node.t) (r : NodeLayout.Result) :
  NodeLayout.advanced_checks VALID_AGENTS O self nodes = (r, self') ->
  NodeLayout.result r = true ->
  NodeLayout.input_yaml self' = NodeLayout.input_yaml self
  /\ NodeLayout.infrastructure self' = NodeLayout.infrastructure self
  /\ NodeLayout.database_type self' = NodeLayout.database_type self.
Proof.
  unfold NodeLayout.advanced_checks. cbv zeta.
  destruct (filter (Node.is_role "shadow") nodes) as [|m [|m2 ms]];
    [intros H; inversion H; subst; discriminate | |
     intros H; inversion H; subst; discriminate].
  destruct (Z.ltb _ 1); [intros H; inversion H; subst; discriminate |].
  destruct (NodeLayout.is_database_replication_valid _ _) as [rep self2] eqn:Ei.
  destruct (NodeLayout.result rep) eqn:Er; simpl;
    intros H Hr; inversion H; subst; [| congruence].
  destruct (is_database_replication_valid_true _ _ _ _ Ei Er) as (_ & -> & _).
  simpl.
  destruct (default_vms_fields VALID_AGENTS self
              (NodeLayout.default_memcache O
                 (NodeLayout.default_login O
                    (find_index (Node.is_role "shadow") nodes) nodes)))
    as (_ & _ & Hy & Hd).
  cbv zeta in Hy, Hd. rewrite Hy, Hd, default_vms_infrastructure.
  repeat split.
Qed.

(** The state a successful simple validation of a new layout leaves. *)
Lemma is_valid_simple_format_state (VALID_AGENTS : list string)
    (O : HashOrder) (self self' : NodeLayout.t) (r : NodeLayout.Result) :
  NodeLayout.nodes self = [] ->
  NodeLayout.is_valid_simple_format VALID_AGENTS O self = Ok (r, self') ->
  NodeLayout.result r = true ->
  exists self1 y,
    NodeLayout.simple_input VALID_AGENTS self = NodeLayout.Next self1
    /\ NodeLayout.input_yaml self1 = Some y
    /\ NodeLayout.simple_items_loop VALID_AGENTS O self1 (dict_order O y) []
       = NodeLayout.Next (simple_nodes O (dict_order O y))
    /\ NodeLayout.simple_checks O self1 y (simple_nodes O (dict_order O y))
       = (r, self').
Proof.
  intros Hn. unfold NodeLayout.is_valid_simple_format. rewrite Hn.
  destruct (NodeLayout.simple_input _ _) as [self1|r1|] eqn:Ein.
  - destruct (NodeLayout.input_yaml self1) as [y|] eqn:Ey; [| discriminate].
    destruct (NodeLayout.simple_items_loop _ _ _ _ _) as [nodes|r2|] eqn:El.
    + intros H Hr. inversion H as [Hc]. clear H.
      pose proof (simple_items_loop_next _ _ _ _ _ _ El) as En.
      simpl in En. subst nodes.
      exists self1, y. repeat split; assumption.
    + intros H Hr. inversion H; subst.
      apply simple_items_loop_invalid in El. congruence.
    + discriminate.
  - intros H Hr. inversion H; subst.
    apply simple_input_invalid in Ein. congruence.
  - discriminate.
Qed.

Lemma is_simple_format_ext (VALID_AGENTS : list string) (O : HashOrder)
    (a b : NodeLayout.t) :
  NodeLayout.input_yaml a = NodeLayout.input_yaml b ->
  NodeLayout.infrastructure a = NodeLayout.infrastructure b ->
  NodeLayout.is_simple_format VALID_AGENTS O a
  = NodeLayout.is_simple_format VALID_AGENTS O b.
Proof.
  intros Hy Hi. unfold NodeLayout.is_simple_format, NodeLayout.in_valid_agents.
  now rewrite Hy, Hi.
Qed.

Lemma is_advanced_format_ext (O : HashOrder) (a b : NodeLayout.t) :
  NodeLayout.input_yaml a = NodeLayout.input_yaml b ->
  NodeLayout.is_advanced_format O a = NodeLayout.is_advanced_format O b.
Proof.
  intros Hy. unfold NodeLayout.is_advanced_format. now rewrite Hy.
Qed.

(** The description generated for a cloud is a simple one. *)
Lemma simple_input_simple (VALID_AGENTS : list string) (O : HashOrder)
    (self self1 : NodeLayout.t) :
  NodeLayout.is_simple_format VALID_AGENTS O self = true ->
  NodeLayout.simple_input VALID_AGENTS self = NodeLayout.Next self1 ->
  NodeLayout.is_simple_format VALID_AGENTS O self1 = true.
Proof.
  intros Hs. unfold NodeLayout.simple_input.
  destruct (NodeLayout.has_input_yaml self) eqn:Eh.
  - intros H; inversion H; subst. exact Hs.
  - destruct (NodeLayout.in_valid_agents VALID_AGENTS self); [| discriminate].
    destruct (negb (truthy (NodeLayout.min_vms self))); [discriminate |].
    destruct (negb (truthy (NodeLayout.max_vms self))); [discriminate |].
    unfold NodeLayout.generate_cloud_layout.
    destruct (NodeLayout.min_vms self) as [min|]; [| discriminate].
    intros H; inversion H; subst. clear H.
    unfold NodeLayout.is_simple_format. cbn [NodeLayout.input_yaml
      NodeLayout.set_input_yaml].
    apply forallb_forall. intros [key ips] Hin.
    apply dict_order_In in Hin.
    destruct Hin as [E | [E | []]]; inversion E; reflexivity.
Qed.

Lemma one_shadow_nonempty (nodes : list Node.t) :
  length (filter (Node.is_role "shadow") nodes) = 1%nat -> nodes <> [].
Proof. intros H ->. discriminate H. Qed.

(** X3. Once a new layout was validated, validating it again returns True
    and changes nothing: the validators return at once on a layout whose
    nodes are set, and the format of the layout is the one it had. *)
Theorem validation_is_cached (VALID_AGENTS : list string) (O : HashOrder)
    (self self' : NodeLayout.t) :
  NodeLayout.nodes self = [] ->
  NodeLayout.is_valid VALID_AGENTS O self = Ok (true, self') ->
  NodeLayout.is_valid VALID_AGENTS O self' = Ok (true, self')
  /\ NodeLayout.is_simple_format VALID_AGENTS O self'
     = NodeLayout.is_simple_format VALID_AGENTS O self
  /\ NodeLayout.is_advanced_format O self' = NodeLayout.is_advanced_format O self.
Proof.
  intros Hn Hv.
  assert (Hformats := formats_disjoint VALID_AGENTS O self).
  unfold NodeLayout.is_valid in Hv.
  destruct (NodeLayout.is_simple_format VALID_AGENTS O self) eqn:Es.
  - destruct (NodeLayout.is_valid_simple_format _ _ _) as [[r s]|] eqn:E;
      [| discriminate].
    injection Hv as Hr Hs. subst s.
    pose proof (is_valid_simple_format_shadow _ _ _ _ _ Hn E Hr) as Hone.
    apply one_shadow_nonempty in Hone.
    destruct (is_valid_simple_format_state _ _ _ _ _ Hn E Hr)
      as (self1 & y & Hin & Hy & _ & Hc).
    destruct (simple_checks_valid O _ _ _ _ _ Hc Hr) as (_ & _ & Hself' & _).
    destruct (simple_input_next _ _ _ Hin) as (_ & _ & Hinfra & Hsame).
    assert (Hs' : NodeLayout.is_simple_format VALID_AGENTS O self' = true).
    { rewrite (is_simple_format_ext VALID_AGENTS O self' self1).
      - eapply simple_input_simple; eassumption.
      - rewrite Hself'. reflexivity.
      - rewrite Hself'. reflexivity. }
    assert (Ha' : NodeLayout.is_advanced_format O self' = false).
    { pose proof (formats_disjoint VALID_AGENTS O self') as H.
      rewrite Hs' in H. exact H. }
    simpl in Hformats. rewrite Hs', Ha', Hformats.
    repeat split.
    unfold NodeLayout.is_valid. rewrite Hs'.
    unfold NodeLayout.is_valid_simple_format.
    destruct (NodeLayout.nodes self'); [contradiction | reflexivity].
  - destruct (NodeLayout.is_advanced_format O self) eqn:Ea; [| discriminate].
    destruct (NodeLayout.is_valid_advanced_format _ _ _) as [[r s]|] eqn:E;
      [| discriminate].
    injection Hv as Hr Hs. subst s.
    pose proof (is_valid_advanced_format_shadow _ _ _ _ _ Hn E Hr) as Hone.
    apply one_shadow_nonempty in Hone.
    assert (Hst : NodeLayout.input_yaml self' = NodeLayout.input_yaml self
                  /\ NodeLayout.infrastructure self'
                     = NodeLayout.infrastructure self).
    { unfold NodeLayout.is_valid_advanced_format in E. rewrite Hn in E.
      destruct (NodeLayout.advanced_build O self); [| discriminate].
      destruct (NodeLayout.advanced_nodes_loop _ _ _) as [r1|] eqn:El.
      - inversion E; subst. apply advanced_nodes_loop_invalid in El. congruence.
      - inversion E as [Hc].
        destruct (advanced_checks_state _ _ _ _ _ _ Hc Hr) as (H1 & H2 & _).
        now split. }
    destruct Hst as [Hy Hi].
    rewrite (is_simple_format_ext VALID_AGENTS O self' self Hy Hi), Es.
    rewrite (is_advanced_format_ext O self' self Hy), Ea.
    repeat split.
    unfold NodeLayout.is_valid.
    rewrite (is_simple_format_ext VALID_AGENTS O self' self Hy Hi), Es.
    rewrite (is_advanced_format_ext O self' self Hy), Ea.
    unfold NodeLayout.is_valid_advanced_format.
    destruct (NodeLayout.nodes self'); [contradiction | reflexivity].
Qed.

Lemma validation_is_cached_witness :
  exists self' : NodeLayout.t,
    NodeLayout.is_valid [] insertion_order
      (NodeLayout.init (Some three_databases) None None None None "cassandra")
    = Ok (true, self')
    /\ NodeLayout.is_valid [] insertion_order self' = Ok (true, self').
Proof.
  eexists. split; [vm_compute; reflexivity |].
  apply (validation_is_cached [] insertion_order
           (NodeLayout.init (Some three_databases) None None None None
              "cassandra") _ eq_refl).
  vm_compute. reflexivity.
Defined.

(** ** The replication factor of a valid layout *)

Lemma settled_replication_positive (self : NodeLayout.t) (n : Z) :
  (1 <= n)%Z ->
  match NodeLayout.replication self with
  | Some q => (0 <= q)%Z
  | None => True
  end ->
  (1 <= settled_replication self n)%Z.
Proof.
  intros Hn Hq. unfold settled_replication, derived_replication in *.
  destruct (NodeLayout.replication self) as [q|].
  - destruct (Z.eqb_spec q 0); [| lia]. destruct (Z.ltb_spec 3 n); lia.
  - destruct (Z.ltb_spec 3 n); lia.
Qed.

Lemma is_advanced_format_has_yaml (O : HashOrder) (self : NodeLayout.t) :
  NodeLayout.is_advanced_format O self = true ->
  exists y, NodeLayout.input_yaml self = Some y.
Proof.
  unfold NodeLayout.is_advanced_format.
  destruct (NodeLayout.input_yaml self) as [y|]; [| discriminate].
  intros _. now exists y.
Qed.

(** What [is_valid] leaves of a new layout it accepts: the factor settled
    for the database nodes of the node set. *)
Lemma is_valid_replication (VALID_AGENTS : list string) (O : HashOrder)
    (self self' : NodeLayout.t) :
  NodeLayout.nodes self = [] ->
  NodeLayout.is_valid VALID_AGENTS O self = Ok (true, self') ->
  let n := Z.of_nat (length (database_nodes (NodeLayout.nodes self'))) in
  NodeLayout.replication self' = Some (settled_replication self n)
  /\ (1 <= n)%Z /\ (settled_replication self n <= n)%Z.
Proof.
  intros Hn Hv. unfold NodeLayout.is_valid in Hv.
  destruct (NodeLayout.is_simple_format VALID_AGENTS O self) eqn:Es.
  - destruct (NodeLayout.is_valid_simple_format _ _ _) as [[r s]|] eqn:E;
      [| discriminate].
    injection Hv as Hr Hs. subst s.
    destruct (is_valid_simple_format_state _ _ _ _ _ Hn E Hr)
      as (self1 & y & Hin & Hy & _ & Hc).
    destruct (simple_checks_valid O _ _ _ _ _ Hc Hr) as (_ & _ & -> & H1 & H2).
    destruct (simple_input_next _ _ _ Hin) as (_ & Hrep & _).
    cbv zeta. cbn [NodeLayout.nodes NodeLayout.replication NodeLayout.set_nodes
                     NodeLayout.set_replication].
    unfold settled_replication in *. rewrite Hrep in *.
    repeat split; assumption.
  - destruct (NodeLayout.is_advanced_format O self) eqn:Ea; [| discriminate].
    destruct (NodeLayout.is_valid_advanced_format _ _ _) as [[r s]|] eqn:E;
      [| discriminate].
    injection Hv as Hr Hs. subst s.
    destruct (is_advanced_format_has_yaml O self Ea) as [y Hy].
    destruct (advanced_valid_database_nodes _ _ _ _ _ _ Hn Hy E Hr)
      as (_ & _ & _ & H1 & H2 & H3).
    repeat split; assumption.
Qed.

(** X4. For a new layout that [is_valid] accepts, [replication_factor]
    returns a factor that does not exceed the number of database nodes of
    the node set, and is at least 1 when the requested factor was absent
    or not negative. *)
Theorem replication_factor_bounds (VALID_AGENTS : list string)
    (O : HashOrder) (self self' : NodeLayout.t) :
  NodeLayout.nodes self = [] ->
  NodeLayout.is_valid VALID_AGENTS O self = Ok (true, self') ->
  exists r,
    NodeLayout.replication_factor VALID_AGENTS O self = Ok (Some r, self')
    /\ (r <= Z.of_nat (length (database_nodes (NodeLayout.nodes self'))))%Z
    /\ (match NodeLayout.replication self with
        | Some q => (0 <= q)%Z
        | None => True
        end -> (1 <= r)%Z).
Proof.
  intros Hn Hv.
  destruct (is_valid_replication _ _ _ _ Hn Hv) as (Hr & H1 & H2).
  eexists. split; [| split].
  - unfold NodeLayout.replication_factor. rewrite Hv, Hr. reflexivity.
  - exact H2.
  - intros Hq. now apply settled_replication_positive.
Qed.

Lemma replication_factor_bounds_witness :
  exists self' r,
    NodeLayout.replication_factor [] insertion_order
      (NodeLayout.init (Some three_databases) None None None None "cassandra")
    = Ok (Some r, self')
    /\ (r <= Z.of_nat (length (database_nodes (NodeLayout.nodes self'))))%Z.
Proof.
  destruct (replication_factor_bounds [] insertion_order
              (NodeLayout.init (Some three_databases) None None None None
                 "cassandra")
              _ eq_refl ltac:(vm_compute; reflexivity))
    as (r & H1 & H2 & _).
  eexists. exists r. split; [exact H1 | exact H2].
Defined.

(** ** The accessors of a valid layout *)

Lemma find_filter {A : Type} (p : A -> bool) (l : list A) :
  find p l = hd_error (filter p l).
Proof.
  induction l as [|a l IH]; simpl; [reflexivity |].
  destruct (p a); [reflexivity | exact IH].
Qed.

Lemma filter_split_Permutation {A : Type} (p : A -> bool) (l : list A) :
  Permutation (filter p l ++ filter (fun a => negb (p a)) l) l.
Proof.
  induction l as [|a l IH]; simpl; [constructor |].
  destruct (p a); simpl.
  - now constructor.
  - apply Permutation_sym, Permutation_cons_app, Permutation_sym, IH.
Qed.

(** X5. On a new layout that [is_valid] accepts, [head_node] returns the
    node that carries [shadow], [other_nodes] returns nodes that do not,
    and the two together are the node set: the head node and the other
    nodes partition it. *)
Theorem head_node_and_other_nodes (VALID_AGENTS : list string)
    (O : HashOrder) (self self' : NodeLayout.t) :
  NodeLayout.nodes self = [] ->
  NodeLayout.is_valid VALID_AGENTS O self = Ok (true, self') ->
  exists head others,
    NodeLayout.head_node VALID_AGENTS O self = Ok (Some head, self')
    /\ NodeLayout.other_nodes VALID_AGENTS O self = Ok (others, self')
    /\ Node.is_role "shadow" head = true
    /\ (forall node, In node others -> Node.is_role "shadow" node = false)
    /\ Permutation (head :: others) (NodeLayout.nodes self')
    /\ S (length others) = length (NodeLayout.nodes self').
Proof.
  intros Hn Hv.
  assert (Hone : length (filter (Node.is_role "shadow") (NodeLayout.nodes self'))
                 = 1%nat).
  { unfold NodeLayout.is_valid in Hv.
    destruct (NodeLayout.is_simple_format VALID_AGENTS O self).
    - destruct (NodeLayout.is_valid_simple_format _ _ _) as [[r s]|] eqn:E;
        [| discriminate].
      injection Hv as Hr Hs. subst s.
      eapply is_valid_simple_format_shadow; eassumption.
    - destruct (NodeLayout.is_advanced_format O self); [| discriminate].
      destruct (NodeLayout.is_valid_advanced_format _ _ _) as [[r s]|] eqn:E;
        [| discriminate].
      injection Hv as Hr Hs. subst s.
      eapply is_valid_advanced_format_shadow; eassumption. }
  destruct (filter (Node.is_role "shadow") (NodeLayout.nodes self'))
    as [|head [|h2 hs]] eqn:Ef; try discriminate.
  exists head,
    (filter (fun node => negb (Node.is_role "shadow" node))
       (NodeLayout.nodes self')).
  assert (Hperm : Permutation
                    (head :: filter (fun node => negb (Node.is_role "shadow" node))
                               (NodeLayout.nodes self'))
                    (NodeLayout.nodes self')).
  { pose proof (filter_split_Permutation (Node.is_role "shadow")
                  (NodeLayout.nodes self')) as H.
    rewrite Ef in H. exact H. }
  split; [| split; [| split; [| split; [| split]]]].
  - unfold NodeLayout.head_node. rewrite Hv, find_filter, Ef. reflexivity.
  - unfold NodeLayout.other_nodes. rewrite Hv. reflexivity.
  - assert (Hin : In head (filter (Node.is_role "shadow")
                             (NodeLayout.nodes self')))
      by (rewrite Ef; now left).
    apply filter_In in Hin. apply Hin.
  - intros node Hin. apply filter_In in Hin.
    destruct Hin as [_ H]. now apply negb_true_iff in H.
  - exact Hperm.
  - apply Permutation_length in Hperm. exact Hperm.
Qed.

Lemma head_node_and_other_nodes_witness :
  exists self' head others,
    NodeLayout.head_node [] insertion_order
      (NodeLayout.init (Some three_databases) None None None None "cassandra")
    = Ok (Some head, self')
    /\ NodeLayout.other_nodes [] insertion_order
         (NodeLayout.init (Some three_databases) None None None None
            "cassandra")
       = Ok (others, self')
    /\ Permutation (head :: others) (NodeLayout.nodes self').
Proof.
  destruct (head_node_and_other_nodes [] insertion_order
              (NodeLayout.init (Some three_databases) None None None None
                 "cassandra")
              _ eq_refl ltac:(vm_compute; reflexivity))
    as (head & others & H1 & H2 & _ & _ & H3 & _).
  eexists. exists head, others.
  split; [exact H1 | split; [exact H2 | exact H3]].
Defined.

(** ** Roles in a simple layout *)

Section SimpleRoles.
Variable O : HashOrder.

Lemma simple_controller_node (ip x : string) :
  In x (Node.roles (NodeLayout.simple_node O "controller" ip)) <->
    In x ["shadow"; "load_balancer"; "database"; "memcache"; "login";
          "zookeeper"; "rabbitmq"; "db_master"; "rabbitmq_master"].
Proof.
  rewrite simple_node_In.
  change (SimpleNode.expand_roles O ["controller"])
    with (Node.roles (Node.init O Node.Simple "" "" ["controller"])).
  rewrite !simple_init_In. simpl.
  intuition (subst; try discriminate; try congruence; auto 12).
Qed.

Lemma simple_servers_node (ip x : string) :
  In x (Node.roles (NodeLayout.simple_node O "servers" ip)) <->
    In x ["appengine"; "memcache"; "database"; "rabbitmq"; "db_slave";
          "rabbitmq_slave"].
Proof.
  rewrite simple_node_In.
  change (SimpleNode.expand_roles O ["servers"])
    with (Node.roles (Node.init O Node.Simple "" "" ["servers"])).
  rewrite !simple_init_In. simpl.
  intuition (subst; try discriminate; try congruence; auto 12).
Qed.

(** A node of [promote_single l] is a node of [l], with [appengine] and
    [memcache] added when it is alone. *)
Lemma promote_single_In (l : list Node.t) (n : Node.t) :
  (forall n0, In n0 l -> simple_ok n0) ->
  In n (NodeLayout.promote_single O l) ->
  exists n0,
    In n0 l /\ Node.id n = Node.id n0
    /\ ((forall x, In x (Node.roles n) <-> In x (Node.roles n0))
        \/ (l = [n0]
            /\ forall x, In x (Node.roles n) <->
                         In x (Node.roles n0) \/ x = "appengine"
                         \/ x = "memcache")).
Proof.
  intros Hok Hin. destruct l as [|n0 [|n1 rest]]; simpl in Hin.
  - destruct Hin.
  - destruct Hin as [<- | []]. exists n0.
    split; [now left |]. split; [reflexivity |]. right.
    split; [reflexivity |]. intros x.
    assert (H0 : simple_ok n0) by (apply Hok; now left).
    rewrite simple_add_role_In;
      [| apply simple_add_role_ok; [assumption | discriminate ..]
       | discriminate ..].
    rewrite simple_add_role_In; [| assumption | discriminate ..]. tauto.
  - exists n. split; [exact Hin |]. split; [reflexivity |]. left.
    intros x. reflexivity.
Qed.

Lemma simple_nodes_In (items : dict hosts) (n0 : Node.t) :
  In n0 (simple_nodes O items) ->
  exists role ips ip,
    In (role, ips) items /\ In ip (host_list ips)
    /\ n0 = NodeLayout.simple_node O role ip.
Proof.
  unfold simple_nodes. intros Hin. apply in_flat_map in Hin.
  destruct Hin as ([role ips] & He & Hmap). simpl in Hmap.
  apply in_map_iff in Hmap. destruct Hmap as (ip & <- & Hip).
  now exists role, ips, ip.
Qed.
End SimpleRoles.

(** The nodes of a valid layout of the simple format: each was built for a
    host listed under [controller] or under [servers]. *)
Lemma simple_layout_nodes (VALID_AGENTS : list string) (O : HashOrder)
    (self self' : NodeLayout.t) :
  NodeLayout.nodes self = [] ->
  NodeLayout.is_simple_format VALID_AGENTS O self = true ->
  NodeLayout.is_valid VALID_AGENTS O self = Ok (true, self') ->
  exists y,
    NodeLayout.input_yaml self' = Some y
    /\ (forall role ips, In (role, ips) y ->
                         In role NodeLayout.SIMPLE_FORMAT_KEYS)
    /\ NodeLayout.nodes self'
       = NodeLayout.promote_single O (simple_nodes O (dict_order O y)).
Proof.
  intros Hn Hs Hv. unfold NodeLayout.is_valid in Hv. rewrite Hs in Hv.
  destruct (NodeLayout.is_valid_simple_format _ _ _) as [[r s]|] eqn:E;
    [| discriminate].
  injection Hv as Hr Hself. subst s.
  pose proof (is_valid_simple_format_shadow _ _ _ _ _ Hn E Hr) as Hone.
  destruct (is_valid_simple_format_state _ _ _ _ _ Hn E Hr)
    as (self1 & y & Hin & Hy & _ & Hc).
  destruct (simple_checks_valid O _ _ _ _ _ Hc Hr) as (_ & _ & Hself' & _).
  pose proof (simple_input_simple _ O _ _ Hs Hin) as Hs1.
  exists y. rewrite Hself'.
  cbn [NodeLayout.input_yaml NodeLayout.nodes NodeLayout.set_nodes
         NodeLayout.set_replication].
  split; [exact Hy |]. split; [| reflexivity].
  unfold NodeLayout.is_simple_format in Hs1. rewrite Hy in Hs1.
  destruct y as [|e y'].
  { intros role ips []. }
  rewrite forallb_forall in Hs1.
  intros role ips Hin'. apply mem_In.
  apply (Hs1 (role, ips)). now apply dict_order_In.
Qed.

(** What the role lists of such nodes hold, by whether the node is the
    shadow. *)
Lemma simple_layout_node_roles (VALID_AGENTS : list string) (O : HashOrder)
    (self self' : NodeLayout.t) (n : Node.t) :
  NodeLayout.nodes self = [] ->
  NodeLayout.is_simple_format VALID_AGENTS O self = true ->
  NodeLayout.is_valid VALID_AGENTS O self = Ok (true, self') ->
  In n (NodeLayout.nodes self') ->
  (forall x, In x ["shadow"; "load_balancer"; "database"; "memcache"; "login";
                   "zookeeper"; "rabbitmq"; "db_master"; "rabbitmq_master"] ->
             In x (Node.roles n))
  /\ ~ In "db_slave" (Node.roles n) /\ ~ In "rabbitmq_slave" (Node.roles n)
  \/ (forall x, In x ["appengine"; "memcache"; "database"; "rabbitmq";
                      "db_slave"; "rabbitmq_slave"] ->
                In x (Node.roles n))
     /\ ~ In "shadow" (Node.roles n) /\ ~ In "db_master" (Node.roles n)
     /\ ~ In "rabbitmq_master" (Node.roles n).
Proof.
  intros Hn Hs Hv Hin.
  destruct (simple_layout_nodes _ _ _ _ Hn Hs Hv) as (y & _ & Hkeys & Hnodes).
  rewrite Hnodes in Hin.
  apply promote_single_In in Hin.
  2:{ intros n0 H0. apply simple_nodes_In in H0.
      destruct H0 as (role & ips & ip & _ & _ & ->). apply simple_node_ok. }
  destruct Hin as (n0 & H0 & _ & Hroles).
  apply simple_nodes_In in H0.
  destruct H0 as (role & ips & ip & He & _ & ->).
  apply dict_order_In in He. apply Hkeys in He. simpl in He.
  destruct He as [<- | [<- | []]].
  - left.
    assert (Hsub : forall x,
               In x ["shadow"; "load_balancer"; "database"; "memcache";
                     "login"; "zookeeper"; "rabbitmq"; "db_master";
                     "rabbitmq_master"] -> In x (Node.roles n))
      by (intros x Hx; apply (proj2 (simple_controller_node O ip x)) in Hx;
          destruct Hroles as [Hr | [_ Hr]]; apply Hr; tauto).
    assert (Hsup : forall x,
               In x (Node.roles n) ->
               In x ["shadow"; "load_balancer"; "database"; "memcache";
                     "login"; "zookeeper"; "rabbitmq"; "db_master";
                     "rabbitmq_master"]
               \/ x = "appengine" \/ x = "memcache").
    { intros x Hx. destruct Hroles as [Hr | [_ Hr]]; apply Hr in Hx.
      - left. now apply simple_controller_node in Hx.
      - destruct Hx as [Hx | Hx]; [left | now right].
        now apply simple_controller_node in Hx. }
    split; [exact Hsub |].
    split; intros H; apply Hsup in H; simpl in H; intuition discriminate.
  - right.
    assert (Hsub : forall x,
               In x ["appengine"; "memcache"; "database"; "rabbitmq";
                     "db_slave"; "rabbitmq_slave"] -> In x (Node.roles n))
      by (intros x Hx; apply (proj2 (simple_servers_node O ip x)) in Hx;
          destruct Hroles as [Hr | [_ Hr]]; apply Hr; tauto).
    assert (Hsup : forall x,
               In x (Node.roles n) ->
               In x ["appengine"; "memcache"; "database"; "rabbitmq";
                     "db_slave"; "rabbitmq_slave"]).
    { intros x Hx. destruct Hroles as [Hr | [_ Hr]]; apply Hr in Hx.
      - now apply simple_servers_node in Hx.
      - destruct Hx as [Hx | [-> | ->]]; [| simpl; tauto ..].
        now apply simple_servers_node in Hx. }
    split; [exact Hsub |].
    repeat split; intros H; apply Hsup in H; simpl in H; intuition discriminate.
Qed.

Lemma is_role_false (x : string) (n : Node.t) :
  Node.is_role x n = false <-> ~ In x (Node.roles n).
Proof. apply mem_false. Qed.

(** X6. In a valid layout of the simple format the database and rabbitmq
    masters are on the shadow node and the slaves on every other node, as
    the comment in the loop says: every node carries [database],
    [memcache] and [rabbitmq]; a node carries [db_master] and
    [rabbitmq_master] exactly when it carries [shadow], [db_slave] and
    [rabbitmq_slave] exactly when it does not. So every node counts as a
    database node. *)
Theorem simple_layout_roles (VALID_AGENTS : list string) (O : HashOrder)
    (self self' : NodeLayout.t) :
  NodeLayout.nodes self = [] ->
  NodeLayout.is_simple_format VALID_AGENTS O self = true ->
  NodeLayout.is_valid VALID_AGENTS O self = Ok (true, self') ->
  (forall n, In n (NodeLayout.nodes self') ->
     Node.is_role "database" n = true
     /\ Node.is_role "memcache" n = true
     /\ Node.is_role "rabbitmq" n = true
     /\ Node.is_role "db_master" n = Node.is_role "shadow" n
     /\ Node.is_role "rabbitmq_master" n = Node.is_role "shadow" n
     /\ Node.is_role "db_slave" n = negb (Node.is_role "shadow" n)
     /\ Node.is_role "rabbitmq_slave" n = negb (Node.is_role "shadow" n))
  /\ database_nodes (NodeLayout.nodes self') = NodeLayout.nodes self'.
Proof.
  intros Hn Hs Hv.
  assert (Hall : forall n, In n (NodeLayout.nodes self') ->
     Node.is_role "database" n = true
     /\ Node.is_role "memcache" n = true
     /\ Node.is_role "rabbitmq" n = true
     /\ Node.is_role "db_master" n = Node.is_role "shadow" n
     /\ Node.is_role "rabbitmq_master" n = Node.is_role "shadow" n
     /\ Node.is_role "db_slave" n = negb (Node.is_role "shadow" n)
     /\ Node.is_role "rabbitmq_slave" n = negb (Node.is_role "shadow" n)).
  { intros n Hin.
    destruct (simple_layout_node_roles _ _ _ _ _ Hn Hs Hv Hin)
      as [(Hsub & H1 & H2) | (Hsub & H1 & H2 & H3)].
    - rewrite <- is_role_false in H1, H2. rewrite H1, H2.
      rewrite !(proj2 (is_role_In _ n)) by (apply Hsub; simpl; tauto).
      repeat split.
    - rewrite <- is_role_false in H1, H2, H3. rewrite H1, H2, H3.
      rewrite !(proj2 (is_role_In _ n)) by (apply Hsub; simpl; tauto).
      repeat split. }
  split; [exact Hall |].
  unfold database_nodes.
  assert (Hdb : forall n, In n (NodeLayout.nodes self') ->
                          is_database_node n = true).
  { intros n Hin. unfold is_database_node.
    destruct (Hall n Hin) as (-> & _). reflexivity. }
  induction (NodeLayout.nodes self') as [|n l IH]; [reflexivity |].
  simpl. rewrite (Hdb n (or_introl eq_refl)). f_equal.
  apply IH.
  - intros n' Hin. apply Hall. now right.
  - intros n' Hin. apply Hdb. now right.
Qed.

Lemma simple_layout_roles_witness :
  exists self' : NodeLayout.t,
    NodeLayout.is_valid [] insertion_order
      (NodeLayout.init (Some controller_and_server) None None None None
         "cassandra")
    = Ok (true, self')
    /\ database_nodes (NodeLayout.nodes self') = NodeLayout.nodes self'.
Proof.
  eexists. split; [vm_compute; reflexivity |].
  apply (proj2 (simple_layout_roles [] insertion_order
                  (NodeLayout.init (Some controller_and_server) None None None
                     None "cassandra")
                  _ eq_refl eq_refl ltac:(vm_compute; reflexivity))).
Defined.

Lemma find_ext_in {A : Type} (p q : A -> bool) (l : list A) :
  (forall a, In a l -> p a = q a) -> find p l = find q l.
Proof.
  induction l as [|a l IH]; intros H; simpl; [reflexivity |].
  rewrite (H a (or_introl eq_refl)).
  destruct (q a); [reflexivity |]. apply IH. intros b Hb. apply H. now right.
Qed.

Lemma filter_nonempty_find {A : Type} (p : A -> bool) (l : list A) :
  (1 <= length (filter p l))%nat ->
  exists a, find p l = Some a /\ In a l /\ p a = true.
Proof.
  intros H. rewrite find_filter.
  destruct (filter p l) as [|a f] eqn:E; [simpl in H; lia |].
  exists a. split; [reflexivity |].
  apply filter_In. rewrite E. now left.
Qed.

(** X7. On a new layout that [is_valid] accepts, [db_master] always finds
    a node: it carries [db_master] and belongs to the node set. In a
    layout of the simple format it is the node [head_node] returns. *)
Theorem db_master_found (VALID_AGENTS : list string) (O : HashOrder)
    (self self' : NodeLayout.t) :
  NodeLayout.nodes self = [] ->
  NodeLayout.is_valid VALID_AGENTS O self = Ok (true, self') ->
  exists n,
    NodeLayout.db_master VALID_AGENTS O self = Ok (Some n, self')
    /\ In n (NodeLayout.nodes self')
    /\ Node.is_role "db_master" n = true
    /\ (NodeLayout.is_simple_format VALID_AGENTS O self = true ->
        NodeLayout.head_node VALID_AGENTS O self = Ok (Some n, self')).
Proof.
  intros Hn Hv.
  unfold NodeLayout.db_master, NodeLayout.head_node. rewrite Hv.
  destruct (NodeLayout.is_simple_format VALID_AGENTS O self) eqn:Es.
  - assert (Hsame : forall n, In n (NodeLayout.nodes self') ->
                              Node.is_role "db_master" n
                              = Node.is_role "shadow" n).
    { intros n Hin.
      destruct (simple_layout_node_roles _ _ _ _ _ Hn Es Hv Hin)
        as [(Hsub & _) | (_ & H1 & H2 & _)].
      - rewrite !(proj2 (is_role_In _ n)) by (apply Hsub; simpl; tauto).
        reflexivity.
      - rewrite <- is_role_false in H1, H2. now rewrite H1, H2. }
    assert (Hone : length (filter (Node.is_role "shadow")
                             (NodeLayout.nodes self')) = 1%nat).
    { unfold NodeLayout.is_valid in Hv. rewrite Es in Hv.
      destruct (NodeLayout.is_valid_simple_format _ _ _) as [[r s]|] eqn:E;
        [| discriminate].
      injection Hv as Hr Hs. subst s.
      eapply is_valid_simple_format_shadow; eassumption. }
    destruct (filter_nonempty_find (Node.is_role "shadow")
                (NodeLayout.nodes self')) as (n & Hf & Hin & Hsh); [lia |].
    exists n. rewrite (find_ext_in _ _ _ Hsame), Hf.
    repeat split; try assumption.
    now rewrite (Hsame n Hin).
  - unfold NodeLayout.is_valid in Hv. rewrite Es in Hv.
    destruct (NodeLayout.is_advanced_format O self) eqn:Ea; [| discriminate].
    destruct (NodeLayout.is_valid_advanced_format _ _ _) as [[r s]|] eqn:E;
      [| discriminate].
    injection Hv as Hr Hs. subst s.
    destruct (is_advanced_format_has_yaml O self Ea) as [y Hy].
    destruct (advanced_valid_database_nodes _ _ _ _ _ _ Hn Hy E Hr)
      as (_ & H2 & _ & H4 & _).
    rewrite H2 in H4.
    destruct (filter_nonempty_find (Node.is_role "db_master")
                (NodeLayout.nodes self')) as (n & Hf & Hin & Hdm); [lia |].
    exists n. rewrite Hf. repeat split; try assumption. discriminate.
Qed.

Lemma db_master_found_witness :
  exists self' n,
    NodeLayout.db_master [] insertion_order
      (NodeLayout.init (Some three_databases) None None None None "cassandra")
    = Ok (Some n, self')
    /\ Node.is_role "db_master" n = true.
Proof.
  destruct (db_master_found [] insertion_order
              (NodeLayout.init (Some three_databases) None None None None
                 "cassandra")
              _ eq_refl ltac:(vm_compute; reflexivity))
    as (n & H1 & _ & H2 & _).
  eexists. exists n. split; [exact H1 | exact H2].
Defined.

(** ** The nodes of a valid layout were checked *)

Lemma is_valid_roles (n : Node.t) :
  Node.is_valid n = true <->
  forall x, In x (Node.roles n) -> mem x VALID_ROLES = true.
Proof.
  split; [| apply is_valid_all_roles].
  intros Hv x Hx. destruct (mem x VALID_ROLES) eqn:E; [reflexivity |].
  rewrite (invalid_role_not_valid n x Hx E) in Hv. discriminate.
Qed.

Lemma check_node_id_shape (VALID_AGENTS : list string) (self : NodeLayout.t)
    (n : Node.t) :
  NodeLayout.check_node_id VALID_AGENTS self n = None <->
  well_shaped VALID_AGENTS self (Node.id n) = true.
Proof.
  unfold NodeLayout.check_node_id, well_shaped.
  destruct (NodeLayout.in_valid_agents VALID_AGENTS self).
  - destruct (NODE_ID_REGEX_match (Node.id n)); split; congruence.
  - destruct (IP_REGEX_match (Node.id n)); split; congruence.
Qed.

Lemma well_shaped_ext (VALID_AGENTS : list string) (a b : NodeLayout.t)
    (ip : string) :
  NodeLayout.infrastructure a = NodeLayout.infrastructure b ->
  well_shaped VALID_AGENTS a ip = well_shaped VALID_AGENTS b ip.
Proof.
  intros H. unfold well_shaped, NodeLayout.in_valid_agents. now rewrite H.
Qed.

Section Checked.
Variable VALID_AGENTS : list string.
Variable O : HashOrder.

Lemma simple_ips_loop_checked (self : NodeLayout.t) (role : string)
    (ips : list string) :
  forall nodes nodes',
    NodeLayout.simple_ips_loop VALID_AGENTS O self role ips nodes
    = NodeLayout.Next nodes' ->
    forall ip, In ip ips ->
               checked VALID_AGENTS self (NodeLayout.simple_node O role ip).
Proof.
  induction ips as [|ip0 rest IH]; intros nodes nodes'; simpl.
  - intros _ ip [].
  - destruct (Node.is_valid _) eqn:Ev; [| discriminate]. simpl.
    destruct (NodeLayout.check_node_id _ _ _) eqn:Ec; [discriminate |].
    intros H ip [<- | Hin].
    + split; [exact Ev | now apply check_node_id_shape].
    + eapply IH; eassumption.
Qed.

Lemma simple_items_loop_checked (self : NodeLayout.t) (items : dict hosts) :
  forall nodes nodes',
    NodeLayout.simple_items_loop VALID_AGENTS O self items nodes
    = NodeLayout.Next nodes' ->
    forall n, In n (simple_nodes O items) -> checked VALID_AGENTS self n.
Proof.
  induction items as [|[role ips] rest IH]; intros nodes nodes'; simpl.
  - intros _ n [].
  - destruct (iter_hosts ips) as [l|] eqn:El; [| discriminate].
    destruct (NodeLayout.simple_ips_loop _ _ _ _ _ _) as [nodes1| |] eqn:E;
      try discriminate.
    intros H n Hin. apply in_app_or in Hin. destruct Hin as [Hin | Hin].
    + apply in_map_iff in Hin. destruct Hin as (ip & <- & Hip).
      destruct (iter_hosts_list _ _ El) as [Hl _]. rewrite Hl in Hip.
      eapply simple_ips_loop_checked; eassumption.
    + eapply IH; eassumption.
Qed.

Lemma advanced_nodes_loop_checked (self : NodeLayout.t) (nodes : list Node.t) :
  NodeLayout.advanced_nodes_loop VALID_AGENTS self nodes = None ->
  Forall (checked VALID_AGENTS self) nodes.
Proof.
  induction nodes as [|node rest IH]; simpl; [constructor |].
  destruct (Node.is_valid node) eqn:Ev; [| discriminate]. simpl.
  destruct (NodeLayout.check_node_id _ _ _) eqn:Ec; [discriminate |].
  intros H. constructor; [| now apply IH].
  split; [exact Ev | now apply check_node_id_shape].
Qed.

Lemma Forall_on_index (Q : Node.t -> Prop) (i : nat) (f : Node.t -> Node.t)
    (l : list Node.t) :
  (forall n, Q n -> Q (f n)) -> Forall Q l -> Forall Q (on_index i f l).
Proof.
  intros Hf Hl. revert i. induction Hl as [|n l Hn Hl IH]; intros i.
  - destruct i; constructor.
  - destruct i; simpl; constructor; auto.
Qed.

Lemma Forall_map_if (Q : Node.t -> Prop) (c : Node.t -> bool)
    (f : Node.t -> Node.t) (l : list Node.t) :
  (forall n, Q n -> Q (f n)) ->
  Forall Q l -> Forall Q (map (fun n => if c n then f n else n) l).
Proof.
  intros Hf Hl. induction Hl as [|n l Hn Hl IH]; simpl; constructor; auto.
  destruct (c n); auto.
Qed.

(** A property that adding a default role keeps holds of every node after
    the defaults of the advanced validator. *)
Lemma advanced_defaults_Forall (P : Node.t -> Prop) :
  (forall r n, In r default_roles -> r <> "load_balancer" ->
               advanced_ok n -> P n -> P (Node.add_role O r n)) ->
  forall l, Forall advanced_ok l -> Forall P l ->
            Forall P (advanced_defaults O l).
Proof.
  intros Hadd l Hok HP.
  set (Q := fun n => advanced_ok n /\ P n).
  assert (HQ : Forall Q l).
  { apply Forall_forall. intros n Hin. rewrite Forall_forall in Hok, HP.
    split; auto. }
  assert (Hstep : forall r, In r default_roles -> r <> "load_balancer" ->
                            forall n, Q n -> Q (Node.add_role O r n)).
  { intros r Hr Hlb n [H1 H2]. split;
      [now apply advanced_add_role_ok | now apply Hadd]. }
  assert (Hfinal : Forall Q (advanced_defaults O l)).
  { unfold advanced_defaults. cbv zeta.
    unfold NodeLayout.add_rabbitmq_slaves, NodeLayout.default_rabbitmq,
      NodeLayout.default_zookeeper, NodeLayout.default_memcache,
      NodeLayout.default_login.
    apply (Forall_map_if Q
             (fun node => Node.is_role "appengine" node
                          && negb (Node.is_role "rabbitmq" node)));
      [apply Hstep; [simpl; tauto | discriminate] |].
    match goal with |- Forall Q (if ?c then _ else _) => destruct c end;
      [apply Forall_on_index;
       [intros n Hq; repeat apply Hstep; try discriminate; simpl; tauto |] |];
      (match goal with |- Forall Q (if ?c then _ else _) => destruct c end;
       [apply Forall_on_index; [apply Hstep; [simpl; tauto | discriminate] |] |]);
      (match goal with |- Forall Q (if ?c then _ else _) => destruct c end;
       [apply Forall_map_if; [apply Hstep; [simpl; tauto | discriminate] |] |]);
      (match goal with |- Forall Q (match ?c with _ => _ end) => destruct c end;
       [apply Forall_on_index; [apply Hstep; [simpl; tauto | discriminate] |] |]);
      exact HQ. }
  apply Forall_forall. intros n Hin. rewrite Forall_forall in Hfinal.
  apply (Hfinal n Hin).
Qed.

Lemma advanced_add_role_valid (r : string) (n : Node.t) :
  In r default_roles -> advanced_ok n ->
  Node.is_valid n = true -> Node.is_valid (Node.add_role O r n) = true.
Proof.
  intros Hr Hn Hv. rewrite is_valid_roles in *. intros x Hx.
  apply (advanced_add_role_In O r x n Hn) in Hx.
  destruct Hx as [[[Hx | ->] _] | [[_ [-> | ->]] | [[_ ->] | [_ ->]]]];
    try reflexivity; [now apply Hv |].
  simpl in Hr. intuition (subst; reflexivity).
Qed.
End Checked.

(** What [is_valid] checked of the nodes it leaves, in terms of the layout
    it was called on. *)
Lemma valid_nodes_checked (VALID_AGENTS : list string) (O : HashOrder)
    (self self' : NodeLayout.t) :
  NodeLayout.nodes self = [] ->
  NodeLayout.is_valid VALID_AGENTS O self = Ok (true, self') ->
  NodeLayout.infrastructure self' = NodeLayout.infrastructure self
  /\ forall n, In n (NodeLayout.nodes self') -> checked VALID_AGENTS self n.
Proof.
  intros Hn Hv.
  unfold NodeLayout.is_valid in Hv.
  destruct (NodeLayout.is_simple_format VALID_AGENTS O self) eqn:Es.
  - destruct (NodeLayout.is_valid_simple_format _ _ _) as [[r s]|] eqn:E;
      [| discriminate].
    injection Hv as Hr Hs. subst s.
    destruct (is_valid_simple_format_state _ _ _ _ _ Hn E Hr)
      as (self1 & y & Hinp & Hy & Hloop & Hc).
    destruct (simple_checks_valid O _ _ _ _ _ Hc Hr) as (_ & _ & Hself' & _).
    destruct (simple_input_next _ _ _ Hinp) as (_ & _ & Hinfra & _).
    split; [rewrite Hself'; exact Hinfra |].
    intros n Hin. rewrite Hself' in Hin.
    cbn [NodeLayout.nodes NodeLayout.set_nodes] in Hin.
    apply promote_single_In in Hin.
    2:{ intros n0 H0. apply simple_nodes_In in H0.
        destruct H0 as (role & ips & ip & _ & _ & ->). apply simple_node_ok. }
    destruct Hin as (n0 & H0 & Hid & Hroles).
    destruct (simple_items_loop_checked _ _ _ _ _ _ Hloop n0 H0) as [Hv0 Hw0].
    split.
    + rewrite is_valid_roles in *. intros x Hx.
      destruct Hroles as [Hr' | [_ Hr']]; apply Hr' in Hx.
      * now apply Hv0.
      * destruct Hx as [Hx | [-> | ->]]; [now apply Hv0 | reflexivity ..].
    + rewrite Hid, (well_shaped_ext VALID_AGENTS self self1); [exact Hw0 |].
      now symmetry.
  - destruct (NodeLayout.is_advanced_format O self) eqn:Ea; [| discriminate].
    destruct (NodeLayout.is_valid_advanced_format _ _ _) as [[r s]|] eqn:E;
      [| discriminate].
    injection Hv as Hr Hs. subst s.
    unfold NodeLayout.is_valid_advanced_format in E. rewrite Hn in E.
    destruct (NodeLayout.advanced_build O self) as [h|] eqn:Eb;
      [| discriminate].
    destruct (NodeLayout.advanced_nodes_loop _ _ _) as [r1|] eqn:El.
    { inversion E; subst. apply advanced_nodes_loop_invalid in El.
      congruence. }
    inversion E as [Hc]. clear E.
    destruct (advanced_checks_valid _ _ _ _ _ _ Hc Hr) as (_ & _ & H2 & _).
    destruct (advanced_checks_state _ _ _ _ _ _ Hc Hr) as (_ & Hinfra & _).
    split; [exact Hinfra |].
    intros n Hin. rewrite H2 in Hin.
    assert (Hall : Forall (checked VALID_AGENTS self)
                     (advanced_defaults O (map snd (dict_order O h)))).
    { apply advanced_defaults_Forall.
      - intros r0 n0 Hr0 _ Hok [Hv0 Hw0]. split.
        + now apply advanced_add_role_valid.
        + exact Hw0.
      - apply dict_values_Forall. eapply advanced_build_ok; eassumption.
      - now apply advanced_nodes_loop_checked. }
    rewrite Forall_forall in Hall. exact (Hall n Hin).
Qed.

(** X8. Every node of a new layout that [is_valid] accepts has passed the
    checks of the validators, also after the roles added by default: its
    roles are all in [VALID_ROLES], and its id has the shape the
    infrastructure asks for (a node id on a cloud, an IP address
    elsewhere). *)
Theorem validated_nodes_are_checked (VALID_AGENTS : list string)
    (O : HashOrder) (self self' : NodeLayout.t) :
  NodeLayout.nodes self = [] ->
  NodeLayout.is_valid VALID_AGENTS O self = Ok (true, self') ->
  forall n, In n (NodeLayout.nodes self') ->
    (forall role, In role (Node.roles n) -> In role VALID_ROLES)
    /\ well_shaped VALID_AGENTS self' (Node.id n) = true.
Proof.
  intros Hn Hv n Hin.
  destruct (valid_nodes_checked _ _ _ _ Hn Hv) as [Hinfra Hall].
  destruct (Hall n Hin) as [Hvalid Hshape]. split.
  - intros role Hrole. apply mem_In. rewrite is_valid_roles in Hvalid.
    now apply Hvalid.
  - now rewrite (well_shaped_ext VALID_AGENTS self' self).
Qed.

Lemma validated_nodes_are_checked_witness :
  exists self' : NodeLayout.t,
    NodeLayout.is_valid [] insertion_order
      (NodeLayout.init (Some three_databases) None None None None "cassandra")
    = Ok (true, self')
    /\ forall n, In n (NodeLayout.nodes self') ->
                 well_shaped [] self' (Node.id n) = true.
Proof.
  eexists. split; [vm_compute; reflexivity |].
  intros n Hin.
  apply (validated_nodes_are_checked [] insertion_order
           (NodeLayout.init (Some three_databases) None None None None
              "cassandra")
           _ eq_refl ltac:(vm_compute; reflexivity) n Hin).
Defined.

(** ** Services of a valid advanced layout *)

Lemma find_index_lt {A : Type} (p : A -> bool) (l : list A) :
  (exists a, In a l /\ p a = true) -> (find_index p l < length l)%nat.
Proof.
  induction l as [|b l IH]; intros (a & Hin & Hp); simpl.
  - destruct Hin.
  - destruct (p b) eqn:E; [lia |].
    destruct Hin as [-> | Hin]; [congruence |].
    apply -> Nat.succ_lt_mono. apply IH. now exists a.
Qed.

Lemma on_index_length {A : Type} (i : nat) (f : A -> A) (l : list A) :
  length (on_index i f l) = length l.
Proof.
  revert i. induction l as [|a l IH]; intros [|i]; simpl; auto.
Qed.

Lemma count_nodes_has (x : string) (l : list Node.t) :
  (NodeLayout.count_nodes (Node.is_role x) l <> 0)%Z -> has_role x l.
Proof.
  rewrite count_nodes_filter. intros H.
  destruct (filter (Node.is_role x) l) as [|n f] eqn:E; [contradiction |].
  assert (Hin : In n (filter (Node.is_role x) l)) by (rewrite E; now left).
  apply filter_In in Hin. destruct Hin as [Hin Hr].
  exists n. split; [assumption | now apply is_role_In].
Qed.

Section Services.
Variable O : HashOrder.

(** A step that only adds roles to nodes keeps the roles carried. *)
Lemma has_role_on_index (x : string) (i : nat) (f : Node.t -> Node.t)
    (l : list Node.t) :
  (forall n, advanced_ok n -> In x (Node.roles n) -> In x (Node.roles (f n))) ->
  Forall advanced_ok l -> has_role x l -> has_role x (on_index i f l).
Proof.
  intros Hf Hl (n & Hin & Hx). revert i.
  induction Hl as [|a l Ha Hl IH]; intros i; [destruct Hin |].
  destruct Hin as [-> | Hin].
  - destruct i; simpl.
    + exists (f n). split; [now left | now apply Hf].
    + exists n. split; [now left | assumption].
  - destruct i; simpl.
    + exists n. split; [now right | assumption].
    + destruct (IH Hin i) as (n' & Hin' & Hx').
      exists n'. split; [now right | assumption].
Qed.

Lemma has_role_map_if (x : string) (c : Node.t -> bool) (f : Node.t -> Node.t)
    (l : list Node.t) :
  (forall n, advanced_ok n -> In x (Node.roles n) -> In x (Node.roles (f n))) ->
  Forall advanced_ok l -> has_role x l ->
  has_role x (map (fun n => if c n then f n else n) l).
Proof.
  intros Hf Hl (n & Hin & Hx). rewrite Forall_forall in Hl.
  exists (if c n then f n else n). split.
  - apply (in_map (fun n => if c n then f n else n)). exact Hin.
  - destruct (c n); [apply Hf; auto | assumption].
Qed.

(** The node at a position of the list carries what the step gives. *)
Lemma on_index_gives (x : string) (i : nat) (f : Node.t -> Node.t)
    (l : list Node.t) :
  (forall n, advanced_ok n -> In x (Node.roles (f n))) ->
  Forall advanced_ok l -> (i < length l)%nat ->
  has_role x (on_index i f l).
Proof.
  intros Hf Hl. revert i. induction Hl as [|a l Ha Hl IH]; intros i Hi.
  - simpl in Hi. lia.
  - destruct i; simpl.
    + exists (f a). split; [now left | now apply Hf].
    + destruct (IH i) as (n & Hin & Hx); [simpl in Hi; lia |].
      exists n. split; [now right | assumption].
Qed.

Lemma keeps_add_role (r x : string) (n : Node.t) :
  advanced_ok n -> In x (Node.roles n) ->
  In x (Node.roles (Node.add_role O r n)).
Proof. apply advanced_add_role_keeps. Qed.

Lemma default_login_step (x : string) (m : nat) (l : list Node.t) :
  Forall advanced_ok l -> (m < length l)%nat ->
  Forall advanced_ok (NodeLayout.default_login O m l)
  /\ length (NodeLayout.default_login O m l) = length l
  /\ (has_role x l -> has_role x (NodeLayout.default_login O m l))
  /\ has_role "login" (NodeLayout.default_login O m l).
Proof.
  intros Hl Hm. unfold NodeLayout.default_login.
  destruct (filter (Node.is_role "login") l) as [|n f] eqn:E.
  - split; [apply Forall_on_index; [apply advanced_add_role_ok | assumption] |].
    split; [apply on_index_length |].
    split; [apply has_role_on_index; [apply keeps_add_role | assumption] |].
    apply on_index_gives; try assumption.
    intros n Hn. now apply advanced_add_role_adds.
  - repeat split; auto.
    assert (Hin : In n (filter (Node.is_role "login") l))
      by (rewrite E; now left).
    apply filter_In in Hin. destruct Hin as [Hin Hr].
    exists n. split; [assumption | now apply is_role_In].
Qed.

Lemma default_memcache_step (x : string) (l : list Node.t) :
  Forall advanced_ok l ->
  Forall advanced_ok (NodeLayout.default_memcache O l)
  /\ length (NodeLayout.default_memcache O l) = length l
  /\ (has_role x l -> has_role x (NodeLayout.default_memcache O l))
  /\ (has_role "appengine" l ->
      has_role "memcache" (NodeLayout.default_memcache O l)).
Proof.
  intros Hl. unfold NodeLayout.default_memcache.
  destruct (Z.ltb_spec (NodeLayout.count_nodes (Node.is_role "memcache") l) 1)
    as [Hc | Hc].
  - split; [apply Forall_map_if; [apply advanced_add_role_ok | assumption] |].
    split; [apply length_map |].
    split; [apply has_role_map_if; [apply keeps_add_role | assumption] |].
    intros (n & Hin & Hx). rewrite Forall_forall in Hl.
    exists (Node.add_role O "memcache" n). split.
    + apply in_map_iff. exists n. split; [| assumption].
      now rewrite (proj2 (is_role_In "appengine" n) Hx).
    + apply advanced_add_role_adds; [now apply Hl | discriminate].
  - repeat split; auto. intros _. apply count_nodes_has. lia.
Qed.

Lemma default_zookeeper_step (x : string) (m : nat) (l : list Node.t) :
  Forall advanced_ok l -> (m < length l)%nat ->
  Forall advanced_ok (NodeLayout.default_zookeeper O m l)
  /\ length (NodeLayout.default_zookeeper O m l) = length l
  /\ (has_role x l -> has_role x (NodeLayout.default_zookeeper O m l))
  /\ has_role "zookeeper" (NodeLayout.default_zookeeper O m l).
Proof.
  intros Hl Hm. unfold NodeLayout.default_zookeeper.
  destruct (Z.eqb_spec (NodeLayout.count_nodes (Node.is_role "zookeeper") l) 0)
    as [Hc | Hc].
  - split; [apply Forall_on_index; [apply advanced_add_role_ok | assumption] |].
    split; [apply on_index_length |].
    split; [apply has_role_on_index; [apply keeps_add_role | assumption] |].
    apply on_index_gives; try assumption.
    intros n Hn. now apply advanced_add_role_adds.
  - repeat split; auto. now apply count_nodes_has.
Qed.

Lemma default_rabbitmq_step (x : string) (m : nat) (l : list Node.t) :
  Forall advanced_ok l -> (m < length l)%nat ->
  Forall advanced_ok (NodeLayout.default_rabbitmq O m l)
  /\ length (NodeLayout.default_rabbitmq O m l) = length l
  /\ (has_role x l -> has_role x (NodeLayout.default_rabbitmq O m l))
  /\ has_role "rabbitmq" (NodeLayout.default_rabbitmq O m l).
Proof.
  intros Hl Hm. unfold NodeLayout.default_rabbitmq.
  destruct (Z.eqb_spec (NodeLayout.count_nodes (Node.is_role "rabbitmq") l) 0)
    as [Hc | Hc].
  - split.
    { apply Forall_on_index; [| assumption].
      intros n Hn. now repeat apply advanced_add_role_ok. }
    split; [apply on_index_length |].
    split.
    { apply has_role_on_index; [| assumption].
      intros n Hn Hx. apply keeps_add_role;
        [now apply advanced_add_role_ok | now apply keeps_add_role]. }
    apply on_index_gives; try assumption.
    intros n Hn. apply keeps_add_role; [now apply advanced_add_role_ok |].
    now apply advanced_add_role_adds.
  - repeat split; auto. now apply count_nodes_has.
Qed.

Lemma add_rabbitmq_slaves_step (x : string) (l : list Node.t) :
  Forall advanced_ok l ->
  (has_role x l -> has_role x (NodeLayout.add_rabbitmq_slaves O l))
  /\ (forall n, In n (NodeLayout.add_rabbitmq_slaves O l) ->
                Node.is_role "appengine" n = true ->
                Node.is_role "rabbitmq" n = true
                \/ Node.is_role "rabbitmq_slave" n = true).
Proof.
  intros Hl. unfold NodeLayout.add_rabbitmq_slaves. split.
  - apply (has_role_map_if x
             (fun node => Node.is_role "appengine" node
                          && negb (Node.is_role "rabbitmq" node)));
      [apply keeps_add_role | assumption].
  - intros n Hin Ha. apply in_map_iff in Hin.
    destruct Hin as (n0 & <- & Hin0). rewrite Forall_forall in Hl.
    destruct (Node.is_role "appengine" n0 && negb (Node.is_role "rabbitmq" n0))
      eqn:Ec.
    + right. apply is_role_In. apply advanced_add_role_adds;
        [now apply Hl | discriminate].
    + left. rewrite Ha in Ec. simpl in Ec.
      now apply negb_false_iff in Ec.
Qed.
End Services.

Lemma advanced_checks_appengine (VALID_AGENTS : list string) (O : HashOrder)
    (self self' : NodeLayout.t) (nodes : list Node.t) (r : NodeLayout.Result) :
  NodeLayout.advanced_checks VALID_AGENTS O self nodes = (r, self') ->
  NodeLayout.result r = true ->
  (1 <= NodeLayout.count_nodes (Node.is_role "appengine")
          (NodeLayout.default_login O
             (find_index (Node.is_role "shadow") nodes) nodes))%Z.
Proof.
  unfold NodeLayout.advanced_checks. cbv zeta.
  destruct (filter (Node.is_role "shadow") nodes) as [|m [|m2 ms]];
    [intros H; inversion H; subst; discriminate | |
     intros H; inversion H; subst; discriminate].
  destruct (Z.ltb_spec
              (NodeLayout.count_nodes (Node.is_role "appengine")
                 (NodeLayout.default_login O
                    (find_index (Node.is_role "shadow") nodes) nodes)) 1)
    as [Hlt | Hge];
    [intros H; inversion H; subst; discriminate |].
  intros _ _. assumption.
Qed.

(** X9. A valid advanced layout runs every service: some node carries
    each of [shadow], [login], [appengine], [memcache], [zookeeper],
    [rabbitmq] and [db_master], whether the description named the role or
    a default gave it; and every node that carries [appengine] carries
    [rabbitmq] or [rabbitmq_slave]. *)
Theorem advanced_layout_services (VALID_AGENTS : list string) (O : HashOrder)
    (self self' : NodeLayout.t) (r : NodeLayout.Result) :
  NodeLayout.nodes self = [] ->
  NodeLayout.is_valid_advanced_format VALID_AGENTS O self = Ok (r, self') ->
  NodeLayout.result r = true ->
  (forall x, In x ["shadow"; "login"; "appengine"; "memcache"; "zookeeper";
                   "rabbitmq"; "db_master"] ->
             has_role x (NodeLayout.nodes self'))
  /\ (forall n, In n (NodeLayout.nodes self') ->
                Node.is_role "appengine" n = true ->
                Node.is_role "rabbitmq" n = true
                \/ Node.is_role "rabbitmq_slave" n = true).
Proof.
  intros Hn Hv Hr.
  destruct (NodeLayout.input_yaml self) as [y|] eqn:Hy.
  2:{ unfold NodeLayout.is_valid_advanced_format, NodeLayout.advanced_build
        in Hv. rewrite Hn, Hy in Hv. discriminate. }
  destruct (advanced_valid_database_nodes _ _ _ _ _ _ Hn Hy Hv Hr)
    as (_ & Hdm & _ & Hdb & _).
  pose proof (is_valid_advanced_format_shadow _ _ _ _ _ Hn Hv Hr) as Hone.
  unfold NodeLayout.is_valid_advanced_format in Hv. rewrite Hn in Hv.
  destruct (NodeLayout.advanced_build O self) as [h|] eqn:Eb; [| discriminate].
  destruct (NodeLayout.advanced_nodes_loop _ _ _) as [r1|] eqn:El.
  { inversion Hv; subst. apply advanced_nodes_loop_invalid in El. congruence. }
  inversion Hv as [Hc]. clear Hv.
  destruct (advanced_checks_valid _ _ _ _ _ _ Hc Hr) as (Hs0 & _ & H2 & _).
  pose proof (advanced_checks_appengine _ _ _ _ _ _ Hc Hr) as Happ.
  set (l0 := map snd (dict_order O h)) in *.
  assert (Hok0 : Forall advanced_ok l0)
    by (apply dict_values_Forall; eapply advanced_build_ok; eassumption).
  set (m := find_index (Node.is_role "shadow") l0) in *.
  assert (Hm : (m < length l0)%nat).
  { apply find_index_lt.
    destruct (filter_nonempty_find (Node.is_role "shadow") l0)
      as (a & _ & Ha & Hp); [lia |]. now exists a. }
  set (l1 := NodeLayout.default_login O m l0) in *.
  destruct (default_login_step O "login" m l0 Hok0 Hm) as (Hok1 & Hlen1 & _ & Hlogin).
  fold l1 in Hok1, Hlen1, Hlogin.
  assert (Happ1 : has_role "appengine" l1) by (apply count_nodes_has; lia).
  set (l2 := NodeLayout.default_memcache O l1).
  assert (Hstep2 := fun x => default_memcache_step O x l1 Hok1). fold l2 in Hstep2.
  destruct (Hstep2 "login") as (Hok2 & Hlen2 & _ & Hmem).
  set (l3 := NodeLayout.default_zookeeper O m l2).
  assert (Hm2 : (m < length l2)%nat) by lia.
  assert (Hstep3 := fun x => default_zookeeper_step O x m l2 Hok2 Hm2).
  fold l3 in Hstep3.
  destruct (Hstep3 "login") as (Hok3 & Hlen3 & _ & Hzk).
  set (l4 := NodeLayout.default_rabbitmq O m l3).
  assert (Hm3 : (m < length l3)%nat) by lia.
  assert (Hstep4 := fun x => default_rabbitmq_step O x m l3 Hok3 Hm3).
  fold l4 in Hstep4.
  destruct (Hstep4 "login") as (Hok4 & _ & _ & Hrab).
  assert (Hstep5 := fun x => add_rabbitmq_slaves_step O x l4 Hok4).
  assert (Hfinal : NodeLayout.nodes self' = NodeLayout.add_rabbitmq_slaves O l4)
    by (rewrite H2; reflexivity).
  rewrite Hfinal.
  split; [| apply (Hstep5 "login")].
  intros x Hx. simpl in Hx.
  destruct Hx as [<- | [<- | [<- | [<- | [<- | [<- | [<- | []]]]]]]].
  - rewrite <- Hfinal.
    destruct (filter_nonempty_find (Node.is_role "shadow")
                (NodeLayout.nodes self')) as (a & _ & Ha & Hp); [lia |].
    exists a. split; [assumption | now apply is_role_In].
  - apply Hstep5, Hstep4, Hstep3, Hstep2, Hlogin.
  - apply Hstep5, Hstep4, Hstep3, Hstep2, Happ1.
  - apply Hstep5, Hstep4, Hstep3, (Hstep2 "memcache"), Happ1.
  - apply Hstep5, Hstep4, Hzk.
  - apply Hstep5, Hrab.
  - rewrite <- Hfinal. rewrite Hdm in Hdb.
    destruct (filter_nonempty_find (Node.is_role "db_master")
                (NodeLayout.nodes self')) as (a & _ & Ha & Hp); [lia |].
    exists a. split; [assumption | now apply is_role_In].
Qed.

Lemma advanced_layout_services_witness :
  exists self' : NodeLayout.t,
    NodeLayout.is_valid_advanced_format [] insertion_order
      (NodeLayout.init (Some three_databases) None None None None "cassandra")
    = Ok (NodeLayout.valid, self')
    /\ has_role "zookeeper" (NodeLayout.nodes self').
Proof.
  eexists. split; [vm_compute; reflexivity |].
  apply (proj1 (advanced_layout_services [] insertion_order
                  (NodeLayout.init (Some three_databases) None None None None
                     "cassandra")
                  _ NodeLayout.valid eq_refl ltac:(vm_compute; reflexivity)
                  eq_refl)).
  simpl. tauto.
Defined.

(** ** The report of errors *)

Lemma unsupported_flag_None (items : dict hosts) :
  (forall key ips, In (key, ips) items ->
                   In key NodeLayout.SIMPLE_FORMAT_KEYS
                   \/ In key NodeLayout.ADVANCED_FORMAT_KEYS) ->
  NodeLayout.unsupported_flag items = None.
Proof.
  intros H. unfold NodeLayout.unsupported_flag.
  destruct (find _ items) as [[key ips]|] eqn:E; [| reflexivity].
  apply find_some in E. destruct E as [Hin Hb].
  apply andb_true_iff in Hb. destruct Hb as [H1 H2].
  apply negb_true_iff in H1, H2. apply mem_false in H1, H2.
  destruct (H key ips Hin); contradiction.
Qed.

Lemma unsupported_flag_Some (items : dict hosts) (key : string) (ips : hosts) :
  In (key, ips) items ->
  ~ In key NodeLayout.SIMPLE_FORMAT_KEYS ->
  ~ In key NodeLayout.ADVANCED_FORMAT_KEYS ->
  exists k v,
    NodeLayout.unsupported_flag items = Some k
    /\ In (k, v) items
    /\ ~ In k NodeLayout.SIMPLE_FORMAT_KEYS
    /\ ~ In k NodeLayout.ADVANCED_FORMAT_KEYS.
Proof.
  intros Hin H1 H2. unfold NodeLayout.unsupported_flag.
  destruct (find _ items) as [[k v]|] eqn:E.
  - apply find_some in E. destruct E as [Hk Hb].
    apply andb_true_iff in Hb. destruct Hb as [Hb1 Hb2].
    apply negb_true_iff in Hb1, Hb2. apply mem_false in Hb1, Hb2.
    exists k, v. repeat split; assumption.
  - exfalso. apply (find_none _ _ E) in Hin.
    apply mem_false in H1, H2. cbv beta iota in Hin. rewrite H1, H2 in Hin.
    discriminate.
Qed.

Lemma not_simple_key (VALID_AGENTS : list string) (O : HashOrder)
    (self : NodeLayout.t) (y : dict hosts) (key : string) (ips : hosts) :
  NodeLayout.input_yaml self = Some y ->
  In (key, ips) y -> ~ In key NodeLayout.SIMPLE_FORMAT_KEYS ->
  NodeLayout.is_simple_format VALID_AGENTS O self = false.
Proof.
  intros Hy Hin Hk. unfold NodeLayout.is_simple_format. rewrite Hy.
  destruct y as [|e y']; [destruct Hin |].
  apply (forallb_false_In _ _ (key, ips)); [now apply dict_order_In |].
  now apply mem_false.
Qed.

Lemma not_advanced_key (O : HashOrder) (self : NodeLayout.t) (y : dict hosts)
    (key : string) (ips : hosts) :
  NodeLayout.input_yaml self = Some y ->
  In (key, ips) y -> ~ In key NodeLayout.ADVANCED_FORMAT_KEYS ->
  NodeLayout.is_advanced_format O self = false.
Proof.
  intros Hy Hin Hk. unfold NodeLayout.is_advanced_format. rewrite Hy.
  destruct y as [|e y']; [destruct Hin |].
  apply (forallb_false_In _ _ (key, ips)); [now apply dict_order_In |].
  now apply mem_false.
Qed.

(** X10. [errors] on a description of neither format. When some key is in
    neither vocabulary it returns the one-element list "The flag <key> is
    not a supported flag" for such a key. When every key is in one of the
    two vocabularies but they are mixed, it reads
    [self.USED_SIMPLE_AND_ADVANCED_KEYS], which the class does not define,
    and raises AttributeError. *)
Theorem errors_of_neither_format (VALID_AGENTS : list string) (O : HashOrder)
    (self : NodeLayout.t) (y : dict hosts) (k1 k2 : string) (v1 v2 : hosts) :
  NodeLayout.input_yaml self = Some y ->
  In (k1, v1) y -> ~ In k1 NodeLayout.SIMPLE_FORMAT_KEYS ->
  In (k2, v2) y -> ~ In k2 NodeLayout.ADVANCED_FORMAT_KEYS ->
  ((forall key ips, In (key, ips) y ->
                    In key NodeLayout.SIMPLE_FORMAT_KEYS
                    \/ In key NodeLayout.ADVANCED_FORMAT_KEYS) ->
   NodeLayout.errors VALID_AGENTS O self = Raise AttributeError)
  /\ ((exists key ips, In (key, ips) y
                       /\ ~ In key NodeLayout.SIMPLE_FORMAT_KEYS
                       /\ ~ In key NodeLayout.ADVANCED_FORMAT_KEYS) ->
      exists k v,
        In (k, v) y
        /\ ~ In k NodeLayout.SIMPLE_FORMAT_KEYS
        /\ ~ In k NodeLayout.ADVANCED_FORMAT_KEYS
        /\ NodeLayout.errors VALID_AGENTS O self
           = Ok (NodeLayout.ReportList
                   [("The flag " ++ k ++ " is not a supported flag")%string],
                 self)).
Proof.
  intros Hy Hin1 Hk1 Hin2 Hk2.
  pose proof (not_simple_key VALID_AGENTS O self y k1 v1 Hy Hin1 Hk1) as Hs.
  pose proof (not_advanced_key O self y k2 v2 Hy Hin2 Hk2) as Ha.
  assert (Hhas : NodeLayout.has_input_yaml self = true).
  { unfold NodeLayout.has_input_yaml. rewrite Hy.
    destruct y; [destruct Hin1 | reflexivity]. }
  assert (Hrun : NodeLayout.errors VALID_AGENTS O self
                 = match NodeLayout.unsupported_flag (dict_order O y) with
                   | Some key =>
                       Ok (NodeLayout.ReportList
                             [("The flag " ++ key
                               ++ " is not a supported flag")%string], self)
                   | None => Raise AttributeError
                   end).
  { unfold NodeLayout.errors, NodeLayout.is_valid.
    rewrite Hs, Ha. cbv iota beta. rewrite Hs, Ha, Hhas, Hy. reflexivity. }
  split.
  - intros Hall. rewrite Hrun, unsupported_flag_None; [reflexivity |].
    intros key ips Hin. apply (Hall key ips). now apply dict_order_In in Hin.
  - intros (key & ips & Hin & H1 & H2).
    destruct (unsupported_flag_Some (dict_order O y) key ips)
      as (k & v & Hf & Hkin & Hks & Hka);
      [now apply dict_order_In | assumption | assumption |].
    exists k, v. rewrite Hrun, Hf.
    repeat split; try assumption. now apply dict_order_In in Hkin.
Qed.

Lemma errors_of_neither_format_witness :
  NodeLayout.errors [] insertion_order
    (NodeLayout.init (Some mixed_keys) None None None None "cassandra")
  = Raise AttributeError.
Proof.
  apply (proj1 (errors_of_neither_format [] insertion_order
                  (NodeLayout.init (Some mixed_keys) None None None None
                     "cassandra")
                  mixed_keys "appengine" "controller" (HostsStr "10.0.0.2")
                  (HostsStr "10.0.0.1") eq_refl
                  (or_intror (or_introl eq_refl))
                  ltac:(simpl; intuition discriminate)
                  (or_introl eq_refl)
                  ltac:(simpl; intuition discriminate))).
  intros key ips [E | [E | []]]; inversion E; subst; simpl; tauto.
Defined.

(** ** One node per host *)

Lemma simple_items_loop_no_None (VALID_AGENTS : list string) (O : HashOrder)
    (self : NodeLayout.t) (items : dict hosts) :
  forall nodes nodes',
    NodeLayout.simple_items_loop VALID_AGENTS O self items nodes
    = NodeLayout.Next nodes' ->
    forall role, ~ In (role, HostsNone) items.
Proof.
  induction items as [|[role ips] rest IH]; intros nodes nodes'; simpl.
  - intros _ role' [].
  - destruct (iter_hosts ips) as [l|] eqn:El; [| discriminate].
    destruct (NodeLayout.simple_ips_loop _ _ _ _ _ _) as [nodes1| |];
      try discriminate.
    intros H role' [E | Hin].
    + inversion E; subst. discriminate El.
    + eapply IH; eassumption.
Qed.

Lemma simple_checks_no_duplicates (O : HashOrder) (self self' : NodeLayout.t)
    (y : dict hosts) (nodes : list Node.t) (r : NodeLayout.Result) :
  NodeLayout.simple_checks O self y nodes = (r, self') ->
  NodeLayout.result r = true ->
  NoDup (NodeLayout.all_ips O y).
Proof.
  unfold NodeLayout.simple_checks. cbv zeta.
  destruct (Z.ltb_spec 0
              (Z.of_nat (length (NodeLayout.all_ips O y))
               - Z.of_nat (len_set (NodeLayout.all_ips O y)))) as [Hlt | Hge];
    [intros H; inversion H; subst; discriminate |].
  intros _ _. unfold len_set in Hge.
  destruct (nodup_length host_eq_dec (NodeLayout.all_ips O y)) as [Hle Heq].
  apply Heq. lia.
Qed.

Lemma promote_single_ids (O : HashOrder) (l : list Node.t) :
  map Node.id (NodeLayout.promote_single O l) = map Node.id l.
Proof. destruct l as [|n [|n' l]]; reflexivity. Qed.

Lemma simple_nodes_ids (O : HashOrder) (items : dict hosts) :
  map Node.id (simple_nodes O items)
  = map (fun ip => fst (NodeLayout.parse_ip ip)) (all_hosts items).
Proof.
  unfold simple_nodes, all_hosts.
  induction items as [|[role ips] rest IH]; [reflexivity |].
  simpl. rewrite !map_app, IH, map_map. f_equal.
  apply map_ext. intros ip. apply simple_node_id.
Qed.

Lemma all_hosts_Permutation (O : HashOrder) (y : dict hosts) :
  Permutation (all_hosts (dict_order O y)) (all_hosts y).
Proof.
  unfold all_hosts. apply Permutation_flat_map, dict_order_Permutation.
Qed.

(** X11. A valid simple layout has exactly one node per host listed in the
    description (the given one, or the one generated for a cloud): no
    entry is None, the listed hosts are distinct, and the ids of the
    nodes are the ids parsed from the hosts, in the order the description
    is iterated. *)
Theorem simple_layout_one_node_per_host (VALID_AGENTS : list string)
    (O : HashOrder) (self self' : NodeLayout.t) (r : NodeLayout.Result) :
  NodeLayout.nodes self = [] ->
  NodeLayout.is_valid_simple_format VALID_AGENTS O self = Ok (r, self') ->
  NodeLayout.result r = true ->
  exists y,
    NodeLayout.input_yaml self' = Some y
    /\ (forall role, ~ In (role, HostsNone) y)
    /\ NoDup (all_hosts y)
    /\ map Node.id (NodeLayout.nodes self')
       = map (fun ip => fst (NodeLayout.parse_ip ip))
           (all_hosts (dict_order O y))
    /\ length (NodeLayout.nodes self') = length (all_hosts y).
Proof.
  intros Hn Hv Hr.
  destruct (is_valid_simple_format_state _ _ _ _ _ Hn Hv Hr)
    as (self1 & y & Hin & Hy & Hloop & Hc).
  destruct (simple_checks_valid O _ _ _ _ _ Hc Hr) as (_ & _ & Hself' & _).
  pose proof (simple_checks_no_duplicates O _ _ _ _ _ Hc Hr) as Hnd.
  assert (Hnone : forall role, ~ In (role, HostsNone) y).
  { intros role Hin'.
    apply (simple_items_loop_no_None _ _ _ _ _ _ Hloop role).
    now apply dict_order_In. }
  assert (Hids : map Node.id (NodeLayout.nodes self')
                 = map (fun ip => fst (NodeLayout.parse_ip ip))
                     (all_hosts (dict_order O y))).
  { rewrite Hself'. cbn [NodeLayout.nodes NodeLayout.set_nodes].
    now rewrite promote_single_ids, simple_nodes_ids. }
  exists y. rewrite Hself' at 1.
  split; [exact Hy |]. split; [exact Hnone |]. split; [| split].
  - apply (all_hosts_NoDup O). rewrite all_ips_hosts in Hnd by assumption.
    eapply NoDup_map_inv. exact Hnd.
  - exact Hids.
  - apply (f_equal (@length string)) in Hids. rewrite !length_map in Hids.
    rewrite Hids. apply Permutation_length, all_hosts_Permutation.
Qed.

Lemma simple_layout_one_node_per_host_witness :
  exists self' : NodeLayout.t,
    NodeLayout.is_valid_simple_format [] insertion_order
      (NodeLayout.init (Some controller_and_server) None None None None
         "cassandra")
    = Ok (NodeLayout.valid, self')
    /\ map Node.id (NodeLayout.nodes self') = ["10.0.0.1"; "10.0.0.2"].
Proof.
  eexists. split; [vm_compute; reflexivity |].
  destruct (simple_layout_one_node_per_host [] insertion_order
              (NodeLayout.init (Some controller_and_server) None None None
                 None "cassandra")
              _ NodeLayout.valid eq_refl ltac:(vm_compute; reflexivity) eq_refl)
    as (y & Hy & _ & _ & Hids & _).
  inversion Hy; subst y. exact Hids.
Defined.

Lemma dict_set_keys {A : Type} (k : string) (v : A) (d : dict A) :
  map fst (dict_set k v d)
  = if mem k (map fst d) then map fst d else map fst d ++ [k].
Proof.
  induction d as [|[k' v'] d IH]; simpl; [reflexivity |].
  destruct (String.eqb_spec k k') as [-> | Hne]; simpl.
  - reflexivity.
  - rewrite IH. destruct (mem k (map fst d)); reflexivity.
Qed.

Lemma dict_set_keys_NoDup {A : Type} (k : string) (v : A) (d : dict A) :
  NoDup (map fst d) ->
  NoDup (map fst (dict_set k v d))
  /\ forall k', In k' (map fst (dict_set k v d)) <-> In k' (map fst d) \/ k' = k.
Proof.
  intros Hnd. rewrite dict_set_keys.
  destruct (mem k (map fst d)) eqn:E.
  - apply mem_In in E. split; [assumption |].
    intros k'. split; [now left | intros [H | ->]; assumption].
  - apply mem_false in E. split.
    + apply NoDup_app; [assumption | constructor; [intros [] | constructor] |].
      intros a Ha [<- | []]. contradiction.
    + intros k'. rewrite in_app_iff. simpl. intuition.
Qed.

Lemma dict_get_pair {A : Type} (d : dict A) (k : string) (v : A) :
  NoDup (map fst d) -> In (k, v) d -> dict_get k d = Some v.
Proof.
  induction d as [|[k' v'] d IH]; simpl; intros Hnd Hin; [destruct Hin |].
  inversion Hnd as [|? ? Hnotin Hnd']; subst.
  destruct Hin as [E | Hin].
  - inversion E; subst. now rewrite String.eqb_refl.
  - destruct (String.eqb_spec k k') as [-> | Hne]; [| now apply IH].
    exfalso. apply Hnotin. apply (in_map fst) in Hin. exact Hin.
Qed.

Section HashKeys.
Variable O : HashOrder.

Lemma advanced_ips_loop_keys (role : string) (ips : list string) :
  forall index h,
    NoDup (map fst h) ->
    NoDup (map fst (NodeLayout.advanced_ips_loop O role ips index h))
    /\ forall k, In k (map fst (NodeLayout.advanced_ips_loop O role ips index h))
                 <-> In k (map fst h) \/ In k ips.
Proof.
  induction ips as [|ip rest IH]; intros index h Hnd; simpl.
  - split; [assumption | intros k; tauto].
  - destruct (dict_set_keys_NoDup ip
                (NodeLayout.advanced_add_roles O role index
                   (NodeLayout.advanced_node O h ip)) h Hnd) as [Hnd' Hin'].
    destruct (IH (S index) _ Hnd') as [Hnd2 Hin2].
    split; [assumption |].
    intros k. rewrite Hin2, Hin'. intuition.
Qed.

Lemma advanced_items_loop_keys (items : dict hosts) :
  forall h h',
    NoDup (map fst h) ->
    NodeLayout.advanced_items_loop O items h = Ok h' ->
    NoDup (map fst h')
    /\ forall k, In k (map fst h') <-> In k (map fst h) \/ In k (all_hosts items).
Proof.
  induction items as [|[role ips] rest IH]; intros h h' Hnd; simpl.
  - intros H; inversion H; subst. split; [assumption | intros k; tauto].
  - destruct (iter_hosts ips) as [l|] eqn:El; [| discriminate].
    intros Hrun.
    destruct (advanced_ips_loop_keys role l 0 h Hnd) as [Hnd1 Hin1].
    destruct (IH _ _ Hnd1 Hrun) as [Hnd2 Hin2].
    split; [assumption |].
    intros k. rewrite Hin2, Hin1. unfold all_hosts. simpl.
    fold (all_hosts rest). rewrite in_app_iff.
    destruct (iter_hosts_list _ _ El) as [-> _]. tauto.
Qed.

Lemma hash_ids (h : dict Node.t) :
  NoDup (map fst h) -> keyed_by_id h ->
  map Node.id (map snd h)
  = map (fun ip => fst (NodeLayout.parse_ip ip)) (map fst h).
Proof.
  intros Hnd Hk. rewrite !map_map. apply map_ext_in.
  intros [k n] Hin. simpl. apply Hk. now apply dict_get_pair.
Qed.
End HashKeys.

Lemma view_ids (x : string) (l : list Node.t) :
  map fst (map (view x) l) = map Node.id l.
Proof. rewrite map_map. apply map_ext. reflexivity. Qed.

(** X12. A valid advanced layout has exactly one node per distinct host of
    the description, however many roles list the host: the ids of the
    nodes are, up to their order, the ids parsed from the distinct
    hosts. *)
Theorem advanced_layout_one_node_per_host (VALID_AGENTS : list string)
    (O : HashOrder) (self self' : NodeLayout.t) (r : NodeLayout.Result) :
  NodeLayout.nodes self = [] ->
  NodeLayout.is_valid_advanced_format VALID_AGENTS O self = Ok (r, self') ->
  NodeLayout.result r = true ->
  exists y,
    NodeLayout.input_yaml self = Some y
    /\ Permutation (map Node.id (NodeLayout.nodes self'))
         (map (fun ip => fst (NodeLayout.parse_ip ip))
            (nodup string_dec (all_hosts y)))
    /\ length (NodeLayout.nodes self')
       = length (nodup string_dec (all_hosts y)).
Proof.
  intros Hn Hv Hr.
  unfold NodeLayout.is_valid_advanced_format in Hv. rewrite Hn in Hv.
  destruct (NodeLayout.advanced_build O self) as [h|] eqn:Eb; [| discriminate].
  destruct (NodeLayout.advanced_nodes_loop _ _ _) as [r1|] eqn:El.
  { inversion Hv; subst. apply advanced_nodes_loop_invalid in El. congruence. }
  inversion Hv as [Hc]. clear Hv.
  destruct (advanced_checks_valid _ _ _ _ _ _ Hc Hr) as (_ & _ & H2 & _).
  pose proof (advanced_build_keyed O self h Eb) as Hkeyed.
  pose proof (advanced_build_ok O self h Eb) as Hok.
  unfold NodeLayout.advanced_build in Eb.
  destruct (NodeLayout.input_yaml self) as [y|] eqn:Hy; [| discriminate].
  destruct (advanced_items_loop_keys O _ [] h (NoDup_nil _) Eb) as [Hnd Hin].
  assert (Hperm : Permutation (map Node.id (NodeLayout.nodes self'))
                    (map (fun ip => fst (NodeLayout.parse_ip ip))
                       (nodup string_dec (all_hosts y)))).
  { rewrite H2.
    destruct (advanced_defaults_same O "shadow"
                ltac:(simpl; intuition discriminate)
                (map snd (dict_order O h))
                (dict_values_Forall O _ h Hok)) as [_ Hview].
    assert (Hids : map Node.id (advanced_defaults O (map snd (dict_order O h)))
                   = map Node.id (map snd (dict_order O h))).
    { rewrite <- (view_ids "shadow" (advanced_defaults O _)), Hview.
      apply view_ids. }
    rewrite Hids.
    transitivity (map Node.id (map snd h)).
    - apply Permutation_map, Permutation_map, dict_order_Permutation.
    - rewrite (hash_ids h Hnd Hkeyed). apply Permutation_map.
      apply NoDup_Permutation; [assumption | apply NoDup_nodup |].
      intros k. rewrite Hin, nodup_In. simpl. split.
      + intros [[] | Hk].
        eapply Permutation_in; [apply all_hosts_Permutation | exact Hk].
      + intros Hk. right.
        eapply Permutation_in;
          [apply Permutation_sym, all_hosts_Permutation | exact Hk]. }
  exists y. split; [reflexivity |]. split; [exact Hperm |].
  apply Permutation_length in Hperm. now rewrite !length_map in Hperm.
Qed.

Lemma advanced_layout_one_node_per_host_witness :
  exists self' : NodeLayout.t,
    NodeLayout.is_valid_advanced_format [] insertion_order
      (NodeLayout.init (Some two_zookeepers) None None None None "cassandra")
    = Ok (NodeLayout.valid, self')
    /\ length (NodeLayout.nodes self') = 4%nat.
Proof.
  eexists. split; [vm_compute; reflexivity |].
  destruct (advanced_layout_one_node_per_host [] insertion_order
              (NodeLayout.init (Some two_zookeepers) None None None None
                 "cassandra")
              _ NodeLayout.valid eq_refl ltac:(vm_compute; reflexivity) eq_refl)
    as (y & Hy & _ & Hlen).
  inversion Hy; subst y. exact Hlen.
Defined.

(** ** Descriptions that are accepted *)

Section SimpleAccepted.
Variable VALID_AGENTS : list string.
Variable O : HashOrder.

Lemma simple_node_shadow (role ip : string) :
  In role NodeLayout.SIMPLE_FORMAT_KEYS ->
  Node.is_role "shadow" (NodeLayout.simple_node O role ip)
  = String.eqb role "controller".
Proof.
  intros [<- | [<- | []]].
  - apply is_role_In, simple_controller_node. simpl. tauto.
  - apply is_role_false. rewrite simple_servers_node. simpl.
    intuition discriminate.
Qed.

Lemma simple_node_database (role ip : string) :
  In role NodeLayout.SIMPLE_FORMAT_KEYS ->
  is_database_node (NodeLayout.simple_node O role ip) = true.
Proof.
  intros Hrole. unfold is_database_node. apply orb_true_iff. left.
  apply is_role_In. destruct Hrole as [<- | [<- | []]].
  - apply simple_controller_node. simpl. tauto.
  - apply simple_servers_node. simpl. tauto.
Qed.

Lemma simple_nodes_shadows (items : dict hosts) :
  (forall role ips, In (role, ips) items ->
                    In role NodeLayout.SIMPLE_FORMAT_KEYS) ->
  length (filter (Node.is_role "shadow") (simple_nodes O items))
  = length (hosts_under "controller" items).
Proof.
  unfold simple_nodes, hosts_under.
  induction items as [|[role ips] rest IH]; intros Hkeys; [reflexivity |].
  cbn [flat_map fst snd]. rewrite filter_app, !length_app, IH
    by (intros role' ips' Hin; apply (Hkeys role' ips'); now right).
  f_equal.
  pose proof (Hkeys role ips (or_introl eq_refl)) as Hrole.
  induction (host_list ips) as [|ip l IHl].
  - now destruct (String.eqb role "controller").
  - cbn [map filter]. rewrite (simple_node_shadow role ip Hrole).
    destruct (String.eqb role "controller"); [simpl; now rewrite IHl | exact IHl].
Qed.

Lemma simple_nodes_databases (items : dict hosts) :
  (forall role ips, In (role, ips) items ->
                    In role NodeLayout.SIMPLE_FORMAT_KEYS) ->
  Forall (fun n => simple_ok n /\ is_database_node n = true)
    (simple_nodes O items).
Proof.
  intros Hkeys. apply Forall_forall. intros n Hin.
  apply simple_nodes_In in Hin.
  destruct Hin as (role & ips & ip & He & _ & ->).
  split; [apply simple_node_ok | apply simple_node_database].
  now apply (Hkeys role ips).
Qed.

Lemma simple_nodes_length (items : dict hosts) :
  length (simple_nodes O items) = length (all_hosts items).
Proof.
  rewrite <- (length_map Node.id), simple_nodes_ids. apply length_map.
Qed.

Lemma promote_single_length (l : list Node.t) :
  length (NodeLayout.promote_single O l) = length l.
Proof. rewrite <- (length_map Node.id), promote_single_ids. apply length_map. Qed.

(** Promoting the only node leaves what it carried. *)
Lemma promote_single_keeps (x : string) (l : list Node.t) :
  Forall simple_ok l ->
  x <> "appengine" -> x <> "memcache" ->
  map (Node.is_role x) (NodeLayout.promote_single O l)
  = map (Node.is_role x) l.
Proof.
  intros Hok H1 H2. destruct l as [|n [|n' l]]; try reflexivity.
  cbn [NodeLayout.promote_single map]. f_equal.
  inversion Hok as [|? ? Hn _]; subst.
  apply is_role_ext.
  rewrite simple_add_role_In;
    [| apply simple_add_role_ok; [assumption | discriminate ..]
     | discriminate ..].
  rewrite simple_add_role_In; [| assumption | discriminate ..].
  intuition congruence.
Qed.

Lemma filter_length_map {A : Type} (p q : A -> bool) (l l' : list A) :
  map p l = map q l' -> length (filter p l) = length (filter q l').
Proof.
  revert l'. induction l as [|a l IH]; intros [|b l'] H; try discriminate;
    [reflexivity |].
  simpl in H. injection H as Hab Hl. simpl. rewrite Hab.
  destruct (q b); simpl; now rewrite (IH l' Hl).
Qed.

Lemma filter_all {A : Type} (p : A -> bool) (l : list A) :
  Forall (fun a => p a = true) l -> filter p l = l.
Proof.
  induction 1 as [|a l Ha _ IH]; [reflexivity |].
  simpl. now rewrite Ha, IH.
Qed.

Lemma promote_single_databases (l : list Node.t) :
  Forall (fun n => simple_ok n /\ is_database_node n = true) l ->
  database_nodes (NodeLayout.promote_single O l)
  = NodeLayout.promote_single O l.
Proof.
  intros H. apply filter_all.
  destruct l as [|n [|n' l]]; try exact (Forall_impl _ (fun a Ha => proj2 Ha) H).
  inversion H as [|? ? [Hn Hdb] _]; subst.
  constructor; [| constructor]. unfold is_database_node in *.
  apply orb_true_iff in Hdb. apply orb_true_iff.
  assert (Hk : forall x, In x (Node.roles n) ->
             In x (Node.roles (Node.add_role O "memcache"
                                 (Node.add_role O "appengine" n)))).
  { intros x Hx.
    rewrite simple_add_role_In;
      [| apply simple_add_role_ok; [assumption | discriminate ..]
       | discriminate ..].
    rewrite simple_add_role_In; [| assumption | discriminate ..]. tauto. }
  destruct Hdb as [Hd | Hd]; [left | right];
    apply is_role_In, Hk, is_role_In, Hd.
Qed.

Lemma hosts_under_length (key : string) (items : dict hosts) :
  (length (hosts_under key items) <= length (all_hosts items))%nat.
Proof.
  unfold hosts_under, all_hosts.
  induction items as [|[role ips] rest IH]; simpl; [lia |].
  rewrite !length_app. destruct (String.eqb role key); simpl; lia.
Qed.

Lemma hosts_under_order (key : string) (y : dict hosts) :
  length (hosts_under key (dict_order O y)) = length (hosts_under key y).
Proof.
  apply Permutation_length. unfold hosts_under.
  apply Permutation_flat_map, dict_order_Permutation.
Qed.

Lemma NoDup_map_injective {A B : Type} (f : A -> B) (l : list A) :
  (forall a b, In a l -> In b l -> f a = f b -> a = b) ->
  NoDup l -> NoDup (map f l).
Proof.
  intros Hinj Hnd. induction Hnd as [|a l Hnin Hnd IH]; simpl; constructor.
  - intros Hin. apply in_map_iff in Hin. destruct Hin as (b & E & Hb).
    apply Hnin. rewrite (Hinj a b); [exact Hb | now left | now right | now symmetry].
  - apply IH. intros x z Hx Hz. apply Hinj; now right.
Qed.

Lemma no_duplicates_counted (l : list (option string)) :
  NoDup l ->
  Z.ltb 0 (Z.of_nat (length l) - Z.of_nat (len_set l)) = false.
Proof.
  intros Hnd. unfold len_set. rewrite (nodup_fixed_point host_eq_dec Hnd).
  apply Z.ltb_ge. lia.
Qed.

(** The run of the simple validator from the description on. *)
Lemma simple_run_accepted (self : NodeLayout.t) (y : dict hosts) :
  (forall role ips, In (role, ips) y ->
                    In role NodeLayout.SIMPLE_FORMAT_KEYS /\ ips <> HostsNone) ->
  (forall ip, In ip (all_hosts y) -> well_shaped VALID_AGENTS self ip = true) ->
  NoDup (all_hosts y) ->
  length (hosts_under "controller" y) = 1%nat ->
  let n := Z.of_nat (length (all_hosts y)) in
  let r := settled_replication self n in
  (r <= n)%Z ->
  (NodeLayout.database_type self = "mysql" -> (n mod r)%Z = 0%Z) ->
  let nodes := NodeLayout.promote_single O (simple_nodes O (dict_order O y)) in
  NodeLayout.simple_items_loop VALID_AGENTS O self (dict_order O y) []
  = NodeLayout.Next (simple_nodes O (dict_order O y))
  /\ NodeLayout.simple_checks O self y (simple_nodes O (dict_order O y))
     = (NodeLayout.valid,
        NodeLayout.set_nodes nodes
          (NodeLayout.set_replication (Some r) self)).
Proof.
  intros Hkeys Hshape Hnd Hone n r Hr Hmysql nodes.
  assert (Hkeys' : forall role ips, In (role, ips) (dict_order O y) ->
                     In role NodeLayout.SIMPLE_FORMAT_KEYS /\ ips <> HostsNone).
  { intros role ips Hin. apply (Hkeys role ips). now apply dict_order_In in Hin. }
  assert (Hkeys1 : forall role ips, In (role, ips) (dict_order O y) ->
                     In role NodeLayout.SIMPLE_FORMAT_KEYS)
    by (intros role ips Hin; apply (Hkeys' role ips Hin)).
  split.
  { rewrite (simple_items_loop_runs VALID_AGENTS O self (dict_order O y) Hkeys').
    - reflexivity.
    - intros ip Hin. apply Hshape.
      eapply Permutation_in; [apply all_hosts_Permutation | exact Hin]. }
  pose proof (simple_nodes_databases _ Hkeys1) as Hall.
  assert (Hlen : length nodes = length (all_hosts y)).
  { unfold nodes. rewrite promote_single_length, simple_nodes_length.
    apply Permutation_length, all_hosts_Permutation. }
  assert (Hshadow : length (filter (Node.is_role "shadow") nodes) = 1%nat).
  { unfold nodes.
    rewrite (filter_length_map _ _ _ _
               (promote_single_keeps "shadow" _
                  (Forall_impl _ (fun a Ha => proj1 Ha) Hall)
                  ltac:(discriminate) ltac:(discriminate))).
    now rewrite (simple_nodes_shadows _ Hkeys1), hosts_under_order. }
  assert (Hdb : database_nodes nodes = nodes)
    by (apply promote_single_databases, Hall).
  unfold NodeLayout.simple_checks. cbv zeta.
  rewrite no_duplicates_counted.
  2:{ rewrite all_ips_hosts by (intros role Hin; now apply (Hkeys role HostsNone Hin)).
      apply NoDup_map_injective; [intros a b _ _ E; now inversion E |].
      eapply Permutation_NoDup;
        [apply Permutation_sym, all_hosts_Permutation | exact Hnd]. }
  fold nodes. rewrite count_nodes_filter, Hshadow. cbn [Z.of_nat Z.eqb Z.ltb Z.compare Pos.of_succ_nat Pos.compare Pos.compare_cont].
  rewrite is_database_replication_valid_run. cbv zeta.
  rewrite Hdb, Hlen. fold n. fold r.
  assert (Hn1 : (1 <= n)%Z).
  { pose proof (hosts_under_length "controller" y). unfold n. lia. }
  destruct (Z.eqb_spec n 0) as [E | _]; [lia |].
  destruct (Z.ltb_spec n r) as [E | _]; [lia |].
  destruct (String.eqb_spec (NodeLayout.database_type self) "mysql") as [E | _].
  - rewrite (Hmysql E). reflexivity.
  - reflexivity.
Qed.
End SimpleAccepted.

(** [is_valid] on a new layout with a simple description, from the run of
    the loop and of the checks. *)
Lemma is_valid_simple_run (VALID_AGENTS : list string) (O : HashOrder)
    (self s : NodeLayout.t) (y : dict hosts) (nodes : list Node.t)
    (r : NodeLayout.Result) :
  NodeLayout.nodes self = [] ->
  NodeLayout.input_yaml self = Some y ->
  y <> [] ->
  (forall role ips, In (role, ips) y ->
                    In role NodeLayout.SIMPLE_FORMAT_KEYS) ->
  NodeLayout.simple_items_loop VALID_AGENTS O self (dict_order O y) []
  = NodeLayout.Next nodes ->
  NodeLayout.simple_checks O self y nodes = (r, s) ->
  NodeLayout.is_valid VALID_AGENTS O self = Ok (NodeLayout.result r, s).
Proof.
  intros Hn Hy Hne Hkeys Hloop Hchecks.
  assert (Hcons : exists e y', y = e :: y').
  { destruct y as [|e y']; [contradiction | now exists e, y']. }
  destruct Hcons as (e & y' & Ey). subst y.
  assert (Hs : NodeLayout.is_simple_format VALID_AGENTS O self = true).
  { unfold NodeLayout.is_simple_format. rewrite Hy.
    apply forallb_forall. intros [role ips] Hin. apply mem_In.
    apply dict_order_In in Hin. now apply (Hkeys role ips). }
  unfold NodeLayout.is_valid. rewrite Hs.
  unfold NodeLayout.is_valid_simple_format, NodeLayout.simple_input,
    NodeLayout.has_input_yaml.
  rewrite Hn, Hy. cbv beta iota. rewrite Hy, Hloop, Hchecks.
  reflexivity.
Qed.

(** X13. What suffices for a simple description to be accepted: a new
    layout whose description has only the keys [controller] and [servers]
    and no None entry, lists hosts of the shape the infrastructure asks
    for, lists no host twice and lists exactly one host under [controller],
    is valid as soon as the settled replication factor does not exceed the
    number of hosts (and divides it when the database is mysql). The layout
    is left with that factor and with the nodes built for the hosts, the
    only node of a one-host description being promoted to an app server. *)
Theorem simple_layout_accepted (VALID_AGENTS : list string) (O : HashOrder)
    (self : NodeLayout.t) (y : dict hosts) :
  NodeLayout.nodes self = [] ->
  NodeLayout.input_yaml self = Some y ->
  (forall role ips, In (role, ips) y ->
                    In role NodeLayout.SIMPLE_FORMAT_KEYS /\ ips <> HostsNone) ->
  (forall ip, In ip (all_hosts y) -> well_shaped VALID_AGENTS self ip = true) ->
  NoDup (all_hosts y) ->
  length (hosts_under "controller" y) = 1%nat ->
  let n := Z.of_nat (length (all_hosts y)) in
  let r := settled_replication self n in
  (r <= n)%Z ->
  (NodeLayout.database_type self = "mysql" -> (n mod r)%Z = 0%Z) ->
  NodeLayout.is_valid VALID_AGENTS O self
  = Ok (true,
        NodeLayout.set_nodes
          (NodeLayout.promote_single O (simple_nodes O (dict_order O y)))
          (NodeLayout.set_replication (Some r) self)).
Proof.
  intros Hn Hy Hkeys Hshape Hnd Hone n r Hr Hmysql.
  destruct (simple_run_accepted VALID_AGENTS O self y Hkeys Hshape Hnd Hone
              Hr Hmysql) as [Hloop Hchecks].
  refine (is_valid_simple_run VALID_AGENTS O self _ y _ NodeLayout.valid
            Hn Hy _ _ Hloop Hchecks).
  - intros ->. discriminate Hone.
  - intros role ips Hin. now apply (Hkeys role ips).
Qed.

Lemma simple_layout_accepted_witness :
  exists self' : NodeLayout.t,
    NodeLayout.is_valid [] insertion_order
      (NodeLayout.init (Some controller_and_server) None None None None
         "cassandra")
    = Ok (true, self')
    /\ NodeLayout.replication self' = Some 2%Z.
Proof.
  eexists. split.
  - apply (simple_layout_accepted [] insertion_order
             (NodeLayout.init (Some controller_and_server) None None None
                None "cassandra") controller_and_server eq_refl eq_refl).
    + intros role ips [E | [E | []]]; inversion E; subst; simpl;
        split; (tauto || discriminate).
    + intros ip [<- | [<- | []]]; reflexivity.
    + repeat constructor; simpl; intuition discriminate.
    + reflexivity.
    + vm_compute. discriminate.
    + discriminate.
  - reflexivity.
Defined.

(** ** The layout generated for a cloud *)

Lemma span_digits_string_of_uint (d : Decimal.uint) :
  span_digits (NilEmpty.string_of_uint d) = (NilEmpty.string_of_uint d, "").
Proof.
  induction d; cbn [NilEmpty.string_of_uint span_digits];
    [reflexivity | ..];
    (change (is_digit _) with true; cbv iota; now rewrite IHd).
Qed.

Lemma str_of_Z_nonempty (z : Z) : str_of_Z z <> "".
Proof.
  unfold str_of_Z. destruct (Z.to_N z) as [|p]; [discriminate |].
  cbn [N.to_uint]. pose proof (DecimalPos.Unsigned.to_uint_nonnil p) as H.
  destruct (Pos.to_uint p); [contradiction | discriminate ..].
Qed.

Lemma str_of_Z_inj (a b : Z) :
  (0 <= a)%Z -> (0 <= b)%Z -> str_of_Z a = str_of_Z b -> a = b.
Proof.
  intros Ha Hb E. unfold str_of_Z in E.
  assert (E' : Some (N.to_uint (Z.to_N a)) = Some (N.to_uint (Z.to_N b)))
    by (rewrite <- !NilEmpty.usu; now rewrite E).
  injection E' as E'. apply DecimalN.Unsigned.to_uint_inj in E'.
  apply (f_equal Z.of_N) in E'. now rewrite !Z2N.id in E'.
Qed.

Lemma NODE_ID_REGEX_match_name (z : Z) :
  NODE_ID_REGEX_match ("node-" ++ str_of_Z z)
  = Some (("node-" ++ str_of_Z z)%string, "node").
Proof.
  unfold NODE_ID_REGEX_match.
  change (literal "node-" ("node-" ++ str_of_Z z)) with (Some (str_of_Z z)).
  cbn [obind]. unfold digits1, str_of_Z at 1.
  rewrite span_digits_string_of_uint. fold (str_of_Z z).
  pose proof (str_of_Z_nonempty z) as Hne.
  destruct (str_of_Z z); [contradiction | reflexivity].
Qed.

Lemma node_name_inj (i j : nat) : node_name i = node_name j -> i = j.
Proof.
  unfold node_name. intros E. injection E as E.
  apply str_of_Z_inj in E; lia.
Qed.

Lemma parse_ip_node_name (i : nat) :
  NodeLayout.parse_ip (node_name i) = (node_name i, "node").
Proof.
  unfold NodeLayout.parse_ip, node_name.
  now rewrite NODE_ID_REGEX_match_name.
Qed.

(** The hosts of the generated description are the names of ranks
    [0 .. min_vms - 1]. *)
Lemma generate_cloud_layout_hosts (self : NodeLayout.t) (n : Z) :
  NodeLayout.min_vms self = Some n -> (1 <= n)%Z ->
  exists servers,
    NodeLayout.generate_cloud_layout self
    = Ok [("controller", HostsStr "node-0"); ("servers", HostsList servers)]
    /\ "node-0" :: servers = map node_name (seq 0 (Z.to_nat n)).
Proof.
  intros Hmin Hn. unfold NodeLayout.generate_cloud_layout. rewrite Hmin.
  cbv zeta. eexists. split; [reflexivity |].
  replace (Z.to_nat n) with (S (Z.to_nat (n - 1))) by lia.
  cbn [seq map]. f_equal. rewrite <- seq_shift, map_map.
  apply map_ext. intros i. unfold node_name. f_equal. f_equal. lia.
Qed.

Lemma has_input_yaml_false (VALID_AGENTS : list string) (O : HashOrder)
    (self : NodeLayout.t) :
  NodeLayout.has_input_yaml self = false ->
  NodeLayout.is_simple_format VALID_AGENTS O self
  = NodeLayout.in_valid_agents VALID_AGENTS self.
Proof.
  unfold NodeLayout.has_input_yaml, NodeLayout.is_simple_format.
  destruct (NodeLayout.input_yaml self) as [[|e y]|];
    [reflexivity | discriminate | reflexivity].
Qed.

(** The shadow of a node set built from a simple description is a node of
    a host listed under [controller]. *)
Lemma simple_shadow_host (O : HashOrder) (items : dict hosts) (x : Node.t) :
  (forall role ips, In (role, ips) items ->
                    In role NodeLayout.SIMPLE_FORMAT_KEYS) ->
  In x (NodeLayout.promote_single O (simple_nodes O items)) ->
  Node.is_role "shadow" x = true ->
  exists ip, In ip (hosts_under "controller" items)
             /\ Node.id x = fst (NodeLayout.parse_ip ip).
Proof.
  intros Hkeys Hin Hs.
  apply promote_single_In in Hin.
  2:{ intros n0 H0. apply simple_nodes_In in H0.
      destruct H0 as (role & ips & ip & _ & _ & ->). apply simple_node_ok. }
  destruct Hin as (n0 & H0 & Hid & Hroles).
  apply simple_nodes_In in H0.
  destruct H0 as (role & ips & ip & He & Hip & ->).
  assert (Hs0 : Node.is_role "shadow" (NodeLayout.simple_node O role ip) = true).
  { apply is_role_In. apply is_role_In in Hs.
    destruct Hroles as [Hr | [_ Hr]]; apply Hr in Hs; [exact Hs |].
    destruct Hs as [Hs | [Hs | Hs]]; [exact Hs | discriminate ..]. }
  rewrite (simple_node_shadow O role ip (Hkeys role ips He)) in Hs0.
  exists ip. split; [| now rewrite Hid, simple_node_id].
  unfold hosts_under. apply in_flat_map. exists (role, ips).
  split; [exact He |]. cbn [fst snd]. now rewrite Hs0.
Qed.

(** X14. On a cloud, a new layout without description, with [min_vms = n]
    at least 1 and a true [max_vms], is valid as soon as the settled
    replication factor does not exceed [n] (and divides it when the
    database is mysql): the description generated by
    [generate_cloud_layout] passes every check of the simple validator.
    The node ids are [node-0 .. node-(n-1)], and the head node is
    [node-0]. *)
Theorem cloud_layout_accepted (VALID_AGENTS : list string) (O : HashOrder)
    (self : NodeLayout.t) (n : Z) :
  NodeLayout.nodes self = [] ->
  NodeLayout.has_input_yaml self = false ->
  NodeLayout.in_valid_agents VALID_AGENTS self = true ->
  NodeLayout.min_vms self = Some n ->
  (1 <= n)%Z ->
  truthy (NodeLayout.max_vms self) = true ->
  let r := settled_replication self n in
  (r <= n)%Z ->
  (NodeLayout.database_type self = "mysql" -> (n mod r)%Z = 0%Z) ->
  exists self' head,
    NodeLayout.is_valid VALID_AGENTS O self = Ok (true, self')
    /\ Permutation (map Node.id (NodeLayout.nodes self'))
         (map node_name (seq 0 (Z.to_nat n)))
    /\ NodeLayout.head_node VALID_AGENTS O self = Ok (Some head, self')
    /\ Node.id head = "node-0"
    /\ NodeLayout.replication self' = Some r.
Proof.
  intros Hn Hhas Hcloud Hmin Hn1 Hmax r Hr Hmysql.
  destruct (generate_cloud_layout_hosts self n Hmin Hn1)
    as (servers & Hgen & Hhosts).
  set (y := [("controller", HostsStr "node-0"); ("servers", HostsList servers)])
    in *.
  set (self1 := NodeLayout.set_input_yaml (@Some (dict hosts) y) self).
  assert (Hall : all_hosts y = map node_name (seq 0 (Z.to_nat n))).
  { rewrite <- Hhosts. unfold all_hosts, y. simpl. now rewrite app_nil_r. }
  assert (Hkeys : forall role ips, In (role, ips) y ->
                    In role NodeLayout.SIMPLE_FORMAT_KEYS /\ ips <> HostsNone).
  { intros role ips [E | [E | []]]; inversion E; subst; simpl;
      split; (tauto || discriminate). }
  assert (Hlen : Z.of_nat (length (all_hosts y)) = n)
    by (rewrite Hall, length_map, length_seq; lia).
  assert (Hrun := simple_run_accepted VALID_AGENTS O self1 y Hkeys).
  cbv zeta in Hrun. rewrite Hlen in Hrun.
  change (settled_replication self1 n) with r in Hrun.
  destruct Hrun as [Hloop Hchecks].
  { intros ip Hin. rewrite Hall in Hin. apply in_map_iff in Hin.
    destruct Hin as (i & <- & _). unfold well_shaped.
    change (NodeLayout.in_valid_agents VALID_AGENTS self1)
      with (NodeLayout.in_valid_agents VALID_AGENTS self).
    rewrite Hcloud. unfold node_name. now rewrite NODE_ID_REGEX_match_name. }
  { rewrite Hall. apply NoDup_map_injective; [| apply seq_NoDup].
    intros a b _ _. apply node_name_inj. }
  { reflexivity. }
  { exact Hr. }
  { exact Hmysql. }
  set (nodes := NodeLayout.promote_single O (simple_nodes O (dict_order O y)))
    in *.
  set (self' := NodeLayout.set_nodes nodes
                  (NodeLayout.set_replication (Some r) self1)) in *.
  assert (Hv : NodeLayout.is_valid VALID_AGENTS O self = Ok (true, self')).
  { unfold NodeLayout.is_valid.
    rewrite (has_input_yaml_false VALID_AGENTS O self Hhas), Hcloud.
    unfold NodeLayout.is_valid_simple_format, NodeLayout.simple_input.
    rewrite Hn, Hhas, Hcloud, Hmax, Hmin, Hgen.
    replace (truthy (Some n)) with true
      by (simpl; destruct (Z.eqb_spec n 0); [lia | reflexivity]).
    cbv beta iota. cbn [negb].
    change (NodeLayout.input_yaml (NodeLayout.set_input_yaml (Some y) self))
      with (Some y).
    cbv beta iota. fold self1. rewrite Hloop, Hchecks. reflexivity. }
  assert (Hkeys1 : forall role ips, In (role, ips) (dict_order O y) ->
                     In role NodeLayout.SIMPLE_FORMAT_KEYS).
  { intros role ips Hin. apply dict_order_In in Hin.
    now apply (Hkeys role ips). }
  assert (Hshadow : (1 <= length (filter (Node.is_role "shadow") nodes))%nat).
  { unfold nodes.
    rewrite (filter_length_map _ _ _ _
               (promote_single_keeps O "shadow" _
                  (Forall_impl _ (fun a Ha => proj1 Ha)
                     (simple_nodes_databases O _ Hkeys1))
                  ltac:(discriminate) ltac:(discriminate))).
    now rewrite (simple_nodes_shadows O _ Hkeys1), hosts_under_order. }
  destruct (filter_nonempty_find _ _ Hshadow) as (head & Hfind & Hin & Hs).
  exists self', head. split; [exact Hv |]. split; [| split; [| split]].
  - unfold self'. cbn [NodeLayout.nodes NodeLayout.set_nodes]. unfold nodes.
    rewrite promote_single_ids, simple_nodes_ids, <- Hall.
    transitivity (map (fun ip => fst (NodeLayout.parse_ip ip)) (all_hosts y)).
    + apply Permutation_map, all_hosts_Permutation.
    + rewrite Hall, map_map.
      erewrite map_ext; [reflexivity |].
      intros i. now rewrite parse_ip_node_name.
  - unfold NodeLayout.head_node. rewrite Hv.
    unfold self' at 1. cbn [NodeLayout.nodes NodeLayout.set_nodes].
    now rewrite Hfind.
  - destruct (simple_shadow_host O _ head Hkeys1 Hin Hs) as (ip & Hip & ->).
    assert (Hip' : In ip (hosts_under "controller" y)).
    { eapply Permutation_in; [| exact Hip]. unfold hosts_under.
      apply Permutation_flat_map, dict_order_Permutation. }
    destruct Hip' as [<- | []]. reflexivity.
  - reflexivity.
Qed.

Lemma cloud_layout_accepted_witness :
  exists self' : NodeLayout.t,
    NodeLayout.is_valid ["ec2"] insertion_order
      (NodeLayout.init None (Some "ec2") (Some 4%Z) (Some 4%Z) None "cassandra")
    = Ok (true, self')
    /\ Permutation (map Node.id (NodeLayout.nodes self'))
         ["node-0"; "node-1"; "node-2"; "node-3"].
Proof.
  destruct (cloud_layout_accepted ["ec2"] insertion_order
              (NodeLayout.init None (Some "ec2") (Some 4%Z) (Some 4%Z) None
                 "cassandra")
              4%Z eq_refl eq_refl eq_refl eq_refl ltac:(lia) eq_refl
              ltac:(vm_compute; discriminate) ltac:(discriminate))
    as (self' & head & Hv & Hperm & _).
  exists self'. split; [exact Hv | exact Hperm].
Defined.

(** ** Ids on a cloud *)

Lemma map_constant {A B : Type} (f : A -> B) (c : B) (l : list A) :
  (forall a, In a l -> f a = c) -> map f l = repeat c (length l).
Proof.
  induction l as [|a l IH]; intros H; simpl; [reflexivity |].
  rewrite (H a (or_introl eq_refl)), IH; [reflexivity |].
  intros b Hb. apply H. now right.
Qed.

(** X15. On a cloud the ids of a valid layout need not be distinct:
    [NODE_ID_REGEX] is matched at the start of the host only, and the id
    kept is the matched part. Two different hosts that start with the same
    node id pass the duplicate check, and give two nodes with the same
    id. *)
Theorem cloud_node_ids_collide (VALID_AGENTS : list string) (O : HashOrder)
    (self : NodeLayout.t) (a b g c1 c2 : string) :
  NodeLayout.nodes self = [] ->
  NodeLayout.in_valid_agents VALID_AGENTS self = true ->
  NodeLayout.input_yaml self
  = Some [("controller", HostsStr a); ("servers", HostsStr b)] ->
  NodeLayout.replication self = None ->
  NodeLayout.database_type self <> "mysql" ->
  a <> b ->
  NODE_ID_REGEX_match a = Some (g, c1) ->
  NODE_ID_REGEX_match b = Some (g, c2) ->
  exists self',
    NodeLayout.is_valid VALID_AGENTS O self = Ok (true, self')
    /\ map Node.id (NodeLayout.nodes self') = [g; g].
Proof.
  intros Hn Hcloud Hy Hrep Hdb Hab Ha Hb.
  set (y := [("controller", HostsStr a); ("servers", HostsStr b)]) in *.
  assert (Hkeys : forall role ips, In (role, ips) y ->
                    In role NodeLayout.SIMPLE_FORMAT_KEYS /\ ips <> HostsNone).
  { intros role ips [E | [E | []]]; inversion E; subst; simpl;
      split; (tauto || discriminate). }
  destruct (simple_run_accepted VALID_AGENTS O self y Hkeys)
    as [Hloop Hchecks].
  { intros ip [<- | [<- | []]]; unfold well_shaped; rewrite Hcloud.
    - now rewrite Ha.
    - now rewrite Hb. }
  { constructor; [intros [E | []]; now apply Hab | ].
    constructor; [intros [] | constructor]. }
  { reflexivity. }
  { unfold settled_replication. rewrite Hrep. vm_compute. discriminate. }
  { intros E. contradiction. }
  eexists. split.
  - refine (is_valid_simple_run VALID_AGENTS O self _ y _ NodeLayout.valid
              Hn Hy _ _ Hloop Hchecks); [discriminate |].
    intros role ips Hin. now apply (Hkeys role ips).
  - cbn [NodeLayout.nodes NodeLayout.set_nodes].
    rewrite promote_single_ids, simple_nodes_ids.
    rewrite (map_constant _ g).
    + rewrite (Permutation_length (all_hosts_Permutation O y)). reflexivity.
    + intros ip Hin.
      apply (Permutation_in _ (all_hosts_Permutation O y)) in Hin.
      unfold NodeLayout.parse_ip.
      destruct Hin as [<- | [<- | []]]; [now rewrite Ha | now rewrite Hb].
Qed.

Lemma cloud_node_ids_collide_witness :
  exists self' : NodeLayout.t,
    NodeLayout.is_valid ["ec2"] insertion_order
      (NodeLayout.init
         (Some [("controller", HostsStr "node-1");
                ("servers", HostsStr "node-1b")])
         (Some "ec2") None None None "cassandra")
    = Ok (true, self')
    /\ map Node.id (NodeLayout.nodes self') = ["node-1"; "node-1"].
Proof.
  apply (cloud_node_ids_collide ["ec2"] insertion_order
           (NodeLayout.init
              (Some [("controller", HostsStr "node-1");
                     ("servers", HostsStr "node-1b")])
              (Some "ec2") None None None "cassandra")
           "node-1" "node-1b" "node-1" "node" "node"
           eq_refl eq_refl eq_refl eq_refl
           ltac:(discriminate) ltac:(discriminate) eq_refl eq_refl).
Defined.

(** ** Distinct ids *)

(** The ids of a valid layout are the ids parsed from distinct hosts. *)
Lemma valid_nodes_hosts (VALID_AGENTS : list string) (O : HashOrder)
    (self self' : NodeLayout.t) :
  NodeLayout.nodes self = [] ->
  NodeLayout.is_valid VALID_AGENTS O self = Ok (true, self') ->
  exists hosts,
    NoDup hosts
    /\ Permutation (map Node.id (NodeLayout.nodes self'))
         (map (fun ip => fst (NodeLayout.parse_ip ip)) hosts).
Proof.
  intros Hn Hv.
  unfold NodeLayout.is_valid in Hv.
  destruct (NodeLayout.is_simple_format VALID_AGENTS O self) eqn:Es.
  - destruct (NodeLayout.is_valid_simple_format _ _ _) as [[r s]|] eqn:E;
      [| discriminate].
    injection Hv as Hr Hs. subst s.
    destruct (is_valid_simple_format_state _ _ _ _ _ Hn E Hr)
      as (self1 & y & Hin & Hy & Hloop & Hc).
    destruct (simple_checks_valid O _ _ _ _ _ Hc Hr) as (_ & _ & Hself' & _).
    pose proof (simple_checks_no_duplicates O _ _ _ _ _ Hc Hr) as Hnd.
    assert (Hnone : forall role, ~ In (role, HostsNone) y).
    { intros role Hin'.
      apply (simple_items_loop_no_None _ _ _ _ _ _ Hloop role).
      now apply dict_order_In. }
    exists (all_hosts (dict_order O y)). split.
    + rewrite all_ips_hosts in Hnd by assumption.
      eapply NoDup_map_inv. exact Hnd.
    + rewrite Hself'. cbn [NodeLayout.nodes NodeLayout.set_nodes].
      now rewrite promote_single_ids, simple_nodes_ids.
  - destruct (NodeLayout.is_advanced_format O self) eqn:Ea; [| discriminate].
    destruct (NodeLayout.is_valid_advanced_format _ _ _) as [[r s]|] eqn:E;
      [| discriminate].
    injection Hv as Hr Hs. subst s.
    unfold NodeLayout.is_valid_advanced_format in E. rewrite Hn in E.
    destruct (NodeLayout.advanced_build O self) as [h|] eqn:Eb;
      [| discriminate].
    destruct (NodeLayout.advanced_nodes_loop _ _ _) as [r1|] eqn:El.
    { inversion E; subst. apply advanced_nodes_loop_invalid in El.
      congruence. }
    inversion E as [Hc]. clear E.
    destruct (advanced_checks_valid _ _ _ _ _ _ Hc Hr) as (_ & _ & H2 & _).
    pose proof (advanced_build_keyed O self h Eb) as Hkeyed.
    pose proof (advanced_build_ok O self h Eb) as Hok.
    unfold NodeLayout.advanced_build in Eb.
    destruct (NodeLayout.input_yaml self) as [y|] eqn:Hy; [| discriminate].
    destruct (advanced_items_loop_keys O _ [] h (NoDup_nil _) Eb) as [Hnd Hin].
    exists (map fst h). split; [exact Hnd |].
    rewrite H2.
    destruct (advanced_defaults_same O "shadow"
                ltac:(simpl; intuition discriminate)
                (map snd (dict_order O h))
                (dict_values_Forall O _ h Hok)) as [_ Hview].
    assert (Hids : map Node.id (advanced_defaults O (map snd (dict_order O h)))
                   = map Node.id (map snd (dict_order O h))).
    { rewrite <- (view_ids "shadow" (advanced_defaults O _)), Hview.
      apply view_ids. }
    rewrite Hids, <- (hash_ids h Hnd Hkeyed).
    apply Permutation_map, Permutation_map, dict_order_Permutation.
Qed.

(** An id that is an IP address is the host itself. *)
Lemma parse_ip_of_ip (ip : string) :
  IP_REGEX_match (fst (NodeLayout.parse_ip ip)) = true ->
  fst (NodeLayout.parse_ip ip) = ip.
Proof.
  unfold NodeLayout.parse_ip.
  destruct (NODE_ID_REGEX_match ip) as [[g0 g1]|] eqn:E; [| reflexivity].
  cbn [fst]. intros H. apply IP_REGEX_not_node_id in H.
  rewrite (NODE_ID_REGEX_match_group0 ip g0 g1 E) in H. discriminate H.
Qed.

(** Outside a cloud the nodes of a valid layout have distinct ids. *)
Lemma valid_nodes_ids_distinct (VALID_AGENTS : list string) (O : HashOrder)
    (self self' : NodeLayout.t) :
  NodeLayout.nodes self = [] ->
  NodeLayout.in_valid_agents VALID_AGENTS self = false ->
  NodeLayout.is_valid VALID_AGENTS O self = Ok (true, self') ->
  NoDup (map Node.id (NodeLayout.nodes self')).
Proof.
  intros Hn Hcloud Hv.
  destruct (valid_nodes_checked _ _ _ _ Hn Hv) as [_ Hchecked].
  destruct (valid_nodes_hosts _ _ _ _ Hn Hv) as (hosts & Hnd & Hperm).
  assert (Hsame : map (fun ip => fst (NodeLayout.parse_ip ip)) hosts = hosts).
  { transitivity (map (fun ip : string => ip) hosts); [| apply map_id].
    apply (map_ext_in (fun ip => fst (NodeLayout.parse_ip ip)) (fun ip => ip)).
    intros ip Hip. apply parse_ip_of_ip.
    assert (Hid : In (fst (NodeLayout.parse_ip ip))
                    (map Node.id (NodeLayout.nodes self'))).
    { eapply Permutation_in; [apply Permutation_sym, Hperm |].
      apply in_map_iff. now exists ip. }
    apply in_map_iff in Hid. destruct Hid as (n & Hidn & Hin).
    destruct (Hchecked n Hin) as [_ Hw]. unfold well_shaped in Hw.
    rewrite Hcloud, Hidn in Hw. exact Hw. }
  rewrite Hsame in Hperm.
  eapply Permutation_NoDup; [apply Permutation_sym, Hperm | exact Hnd].
Qed.

(** ** The dict of the other nodes *)

Lemma dict_set_In {A : Type} (k k' : string) (v v' : A) (d : dict A) :
  In (k', v') (dict_set k v d) -> (k', v') = (k, v) \/ In (k', v') d.
Proof.
  induction d as [|[k0 v0] d IH]; simpl.
  - intros [E | []]. left. now symmetry.
  - destruct (String.eqb k k0).
    + intros [E | H]; [left; now symmetry | right; now right].
    + intros [E | H]; [right; now left |].
      destruct (IH H) as [E | Hd]; [now left | right; now right].
Qed.

Lemma dict_set_fresh {A : Type} (k : string) (v : A) (d : dict A) :
  ~ In k (map fst d) -> dict_set k v d = d ++ [(k, v)].
Proof.
  induction d as [|[k0 v0] d IH]; simpl; intros Hk; [reflexivity |].
  destruct (String.eqb_spec k k0) as [-> | Hne]; [tauto |].
  rewrite IH by tauto. reflexivity.
Qed.

Lemma filter_ids_NoDup (keep : Node.t -> bool) (nodes : list Node.t) :
  NoDup (map Node.id nodes) -> NoDup (map Node.id (filter keep nodes)).
Proof.
  intros Hnd. induction nodes as [|n nodes IH]; [constructor |].
  cbn [map] in Hnd. apply NoDup_cons_iff in Hnd. destruct Hnd as [Hnin Hnd].
  cbn [filter]. destruct (keep n); [| now apply IH].
  cbn [map]. constructor; [| now apply IH].
  intros Hin. apply Hnin. apply in_map_iff in Hin.
  destruct Hin as (m & Hid & Hm). apply filter_In in Hm.
  apply in_map_iff. exists m. tauto.
Qed.

Lemma roles_by_id_from (l : list Node.t) :
  forall d0, NoDup (map fst d0) ->
    NoDup (map fst (fold_left record_roles l d0))
    /\ (forall k, In k (map fst (fold_left record_roles l d0)) <->
                  In k (map fst d0) \/ In k (map Node.id l))
    /\ (forall k v, In (k, v) (fold_left record_roles l d0) ->
                    In (k, v) d0
                    \/ exists n, In n l /\ Node.id n = k /\ Node.roles n = v).
Proof.
  induction l as [|n l IH]; intros d0 Hnd; cbn [fold_left].
  - split; [exact Hnd |]. split; [simpl; tauto | auto].
  - destruct (dict_set_keys_NoDup (Node.id n) (Node.roles n) d0 Hnd)
      as [Hnd1 Hkeys1].
    destruct (IH (record_roles d0 n) Hnd1) as (H1 & H2 & H3).
    split; [exact H1 |]. split.
    + intros k. rewrite H2. unfold record_roles. rewrite Hkeys1. simpl.
      intuition congruence.
    + intros k v Hin. destruct (H3 k v Hin) as [Hd | (m & Hm & E1 & E2)].
      * apply dict_set_In in Hd. destruct Hd as [E | Hd]; [| now left].
        injection E as -> ->. right. exists n. split; [now left | now split].
      * right. exists m. split; [now right | now split].
Qed.

Lemma roles_by_id_distinct (l : list Node.t) :
  forall d0, NoDup (map fst d0 ++ map Node.id l) ->
    fold_left record_roles l d0
    = d0 ++ map (fun n => (Node.id n, Node.roles n)) l.
Proof.
  induction l as [|n l IH]; intros d0 Hnd; cbn [fold_left map].
  - now rewrite app_nil_r.
  - assert (Hfresh : ~ In (Node.id n) (map fst d0)).
    { intros Hin. apply NoDup_remove_2 in Hnd. apply Hnd.
      apply in_or_app. now left. }
    unfold record_roles at 2. rewrite (dict_set_fresh _ _ _ Hfresh).
    rewrite IH, <- app_assoc; [reflexivity |].
    rewrite map_app, <- app_assoc. exact Hnd.
Qed.

(** X16. On a new layout that [is_valid] accepts,
    [to_dict_without_head_node] returns a dict whose keys are the ids of
    the nodes [other_nodes] returns; each entry holds the role list of a
    node of the layout with that id, and no entry holds [shadow]. Outside
    a cloud the ids of the nodes are distinct, so the dict has one entry
    per other node, and looking up the id of an other node gives the role
    list of that node. *)
Theorem to_dict_without_head_node_entries (VALID_AGENTS : list string)
    (O : HashOrder) (self self' : NodeLayout.t) :
  NodeLayout.nodes self = [] ->
  NodeLayout.is_valid VALID_AGENTS O self = Ok (true, self') ->
  exists d others,
    NodeLayout.to_dict_without_head_node VALID_AGENTS O self = Ok (d, self')
    /\ NodeLayout.other_nodes VALID_AGENTS O self = Ok (others, self')
    /\ NoDup (map fst d)
    /\ (forall k, In k (map fst d) <-> In k (map Node.id others))
    /\ (forall k roles, In (k, roles) d ->
          ~ In "shadow" roles
          /\ exists n, In n (NodeLayout.nodes self')
                       /\ Node.id n = k /\ Node.roles n = roles)
    /\ (NodeLayout.in_valid_agents VALID_AGENTS self = false ->
        NoDup (map Node.id others)
        /\ length d = length others
        /\ forall n, In n others ->
                     dict_get (Node.id n) d = Some (Node.roles n)).
Proof.
  intros Hn Hv.
  set (others := filter (fun node => negb (Node.is_role "shadow" node))
                   (NodeLayout.nodes self')).
  assert (Ho : NodeLayout.other_nodes VALID_AGENTS O self = Ok (others, self'))
    by (unfold NodeLayout.other_nodes; now rewrite Hv).
  exists (fold_left record_roles others []), others.
  destruct (roles_by_id_from others [] (NoDup_nil _)) as (H1 & H2 & H3).
  split; [| split; [exact Ho | split; [exact H1 | split; [| split]]]].
  - unfold NodeLayout.to_dict_without_head_node. now rewrite Ho.
  - intros k. rewrite H2. simpl. tauto.
  - intros k roles Hin.
    destruct (H3 k roles Hin) as [[] | (n & Hin' & Hid & Hroles)].
    apply filter_In in Hin'. destruct Hin' as [Hin' Hs].
    split; [| now exists n].
    rewrite <- Hroles. apply is_role_false.
    now destruct (Node.is_role "shadow" n).
  - intros Hcloud.
    assert (Hnd : NoDup (map Node.id others)).
    { apply filter_ids_NoDup.
      eapply valid_nodes_ids_distinct; eassumption. }
    assert (Hd : fold_left record_roles others []
                 = map (fun n => (Node.id n, Node.roles n)) others)
      by (rewrite (roles_by_id_distinct others []); [reflexivity | exact Hnd]).
    split; [exact Hnd |]. split.
    + rewrite Hd. apply length_map.
    + intros n Hin. apply dict_get_pair; [exact H1 |].
      rewrite Hd. apply in_map_iff. now exists n.
Qed.

Lemma to_dict_without_head_node_entries_witness :
  exists (d : dict (list string)) (self' : NodeLayout.t),
    NodeLayout.to_dict_without_head_node [] insertion_order
      (NodeLayout.init (Some controller_and_server) None None None None
         "cassandra")
    = Ok (d, self')
    /\ length d = 1%nat.
Proof.
  destruct (to_dict_without_head_node_entries [] insertion_order
              (NodeLayout.init (Some controller_and_server) None None None
                 None "cassandra")
              _ eq_refl ltac:(vm_compute; reflexivity))
    as (d & others & Hd & Ho & _ & _ & _ & Hlist).
  exists d. eexists. split; [exact Hd |].
  destruct (Hlist eq_refl) as (_ & Hlen & _). rewrite Hlen.
  vm_compute in Ho. injection Ho as <-. reflexivity.
Defined.

(** ** Dependencies between roles *)

Section Dependencies.
Variable O : HashOrder.

Lemma advanced_add_role_dependencies (r : string) (n : Node.t) :
  r <> "shadow" -> r <> "controller" -> r <> "servers" ->
  advanced_ok n -> dependencies_met n ->
  dependencies_met (Node.add_role O r n).
Proof.
  intros H1 H2 H3 Hok (D1 & D2 & D3 & D4 & D5 & D6).
  unfold dependencies_met.
  rewrite !(advanced_add_role_In O r _ n Hok).
  repeat split;
    intros [[[H | H] Hm] | [[Hr [H | H]] | [[Hl H] | [Hd H]]]];
    try discriminate H; try (symmetry in H; contradiction);
    try contradiction; subst; intuition (try discriminate; auto; congruence).
Qed.


Lemma advanced_add_roles_dependencies (role : string) (index : nat)
    (n : Node.t) :
  In role NodeLayout.ADVANCED_FORMAT_KEYS ->
  advanced_ok n /\ dependencies_met n ->
  advanced_ok (NodeLayout.advanced_add_roles O role index n)
  /\ dependencies_met (NodeLayout.advanced_add_roles O role index n).
Proof.
  intros Hrole [Hok Hd]. split; [now apply advanced_add_roles_ok |].
  unfold NodeLayout.advanced_add_roles, Node.add_db_role,
    Node.add_rabbitmq_role.
  destruct (String.eqb_spec role "database") as [_ | _].
  { destruct (Nat.eqb index 0);
      apply advanced_add_role_dependencies; (discriminate || assumption). }
  destruct (String.eqb_spec role "db_master") as [_ | _].
  { apply advanced_add_role_dependencies; try discriminate;
      [now apply advanced_add_role_ok |].
    apply advanced_add_role_dependencies; (discriminate || assumption). }
  destruct (String.eqb_spec role "rabbitmq") as [_ | _].
  { destruct (Nat.eqb index 0);
      (apply advanced_add_role_dependencies; try discriminate;
       [now apply advanced_add_role_ok |];
       apply advanced_add_role_dependencies; (discriminate || assumption)). }
  apply advanced_add_role_dependencies; try assumption;
    intros ->; simpl in Hrole; intuition discriminate.
Qed.

Lemma advanced_init_dependencies (i cl : string) :
  advanced_ok (Node.init O Node.Advanced i cl [])
  /\ dependencies_met (Node.init O Node.Advanced i cl []).
Proof.
  split; [apply advanced_init_ok |].
  unfold dependencies_met.
  repeat split; intros H; now apply advanced_init_roles in H.
Qed.

(** The nodes of a valid advanced layout meet the dependencies. *)
Lemma advanced_layout_dependencies (VALID_AGENTS : list string)
    (self self' : NodeLayout.t) (r : NodeLayout.Result) :
  NodeLayout.nodes self = [] ->
  NodeLayout.is_advanced_format O self = true ->
  NodeLayout.is_valid_advanced_format VALID_AGENTS O self = Ok (r, self') ->
  NodeLayout.result r = true ->
  Forall dependencies_met (NodeLayout.nodes self').
Proof.
  intros Hn Ha E Hr.
  unfold NodeLayout.is_valid_advanced_format in E. rewrite Hn in E.
  destruct (NodeLayout.advanced_build O self) as [h|] eqn:Eb; [| discriminate].
  destruct (NodeLayout.advanced_nodes_loop _ _ _) as [r1|] eqn:El.
  { inversion E; subst. apply advanced_nodes_loop_invalid in El. congruence. }
  inversion E as [Hc]. clear E.
  destruct (advanced_checks_valid _ _ _ _ _ _ Hc Hr) as (_ & _ & H2 & _).
  rewrite H2.
  pose proof (advanced_build_ok O self h Eb) as Hok.
  assert (Hdeps : Forall (fun n => advanced_ok n /\ dependencies_met n)
                    (map snd h)).
  { unfold NodeLayout.advanced_build in Eb.
    unfold NodeLayout.is_advanced_format in Ha.
    destruct (NodeLayout.input_yaml self) as [[|e y]|]; try discriminate.
    rewrite forallb_forall in Ha.
    revert Eb. apply advanced_items_loop_Forall.
    - apply advanced_init_dependencies.
    - intros role index n Hin. apply advanced_add_roles_dependencies.
      apply in_map_iff in Hin. destruct Hin as ([k v] & <- & Hin).
      apply mem_In. exact (Ha (k, v) Hin).
    - constructor. }
  apply advanced_defaults_Forall.
  - intros r0 n Hr0 _ Hn0 Hd.
    apply advanced_add_role_dependencies; try assumption;
      intros ->; simpl in Hr0; intuition discriminate.
  - apply dict_values_Forall, Hok.
  - apply dict_values_Forall.
    apply (Forall_impl _ (fun a Ha => proj2 Ha) Hdeps).
Qed.

Lemma simple_node_dependencies (role ip : string) :
  In role NodeLayout.SIMPLE_FORMAT_KEYS ->
  dependencies_met (NodeLayout.simple_node O role ip)
  /\ dependencies_met
       (Node.add_role O "memcache"
          (Node.add_role O "appengine" (NodeLayout.simple_node O role ip))).
Proof.
  intros Hrole.
  pose proof (simple_node_ok O role ip) as Hok.
  assert (Hp : forall x,
             In x (Node.roles
                     (Node.add_role O "memcache"
                        (Node.add_role O "appengine"
                           (NodeLayout.simple_node O role ip)))) <->
             In x (Node.roles (NodeLayout.simple_node O role ip))
             \/ x = "appengine" \/ x = "memcache").
  { intros x.
    rewrite simple_add_role_In;
      [| apply simple_add_role_ok; [assumption | discriminate ..]
       | discriminate ..].
    rewrite simple_add_role_In; [| assumption | discriminate ..]. tauto. }
  unfold dependencies_met. rewrite !Hp.
  destruct Hrole as [<- | [<- | []]].
  - rewrite !simple_controller_node. simpl.
    split; repeat split; intuition discriminate.
  - rewrite !simple_servers_node. simpl.
    split; repeat split; intuition discriminate.
Qed.
End Dependencies.

(** X17. The dependencies between roles hold on every node of a new
    layout that [is_valid] accepts, also after the roles added by default:
    a node that carries [login] or [shadow] carries [load_balancer], a
    node that carries [database] carries [memcache], and no composite
    role ([master], [controller], [servers]) is left on a node. *)
Theorem role_dependencies_met (VALID_AGENTS : list string) (O : HashOrder)
    (self self' : NodeLayout.t) :
  NodeLayout.nodes self = [] ->
  NodeLayout.is_valid VALID_AGENTS O self = Ok (true, self') ->
  forall n, In n (NodeLayout.nodes self') ->
    (Node.is_role "login" n = true -> Node.is_role "load_balancer" n = true)
    /\ (Node.is_role "shadow" n = true ->
        Node.is_role "load_balancer" n = true)
    /\ (Node.is_role "database" n = true -> Node.is_role "memcache" n = true)
    /\ Node.is_role "master" n = false
    /\ Node.is_role "controller" n = false
    /\ Node.is_role "servers" n = false.
Proof.
  intros Hn Hv n Hin.
  assert (Hd : dependencies_met n).
  { destruct (NodeLayout.is_simple_format VALID_AGENTS O self) eqn:Es.
    - destruct (simple_layout_nodes _ _ _ _ Hn Es Hv) as (y & _ & Hkeys & Hnodes).
      rewrite Hnodes in Hin.
      assert (Hall : forall n0, In n0 (simple_nodes O (dict_order O y)) ->
                 dependencies_met n0
                 /\ dependencies_met
                      (Node.add_role O "memcache"
                         (Node.add_role O "appengine" n0))).
      { intros n0 H0. apply simple_nodes_In in H0.
        destruct H0 as (role & ips & ip & He & _ & ->).
        apply simple_node_dependencies.
        apply dict_order_In in He. now apply (Hkeys role ips). }
      destruct (simple_nodes O (dict_order O y)) as [|n0 [|n1 l]].
      + destruct Hin.
      + destruct Hin as [<- | []]. apply Hall. now left.
      + now apply Hall.
    - unfold NodeLayout.is_valid in Hv. rewrite Es in Hv.
      destruct (NodeLayout.is_advanced_format O self) eqn:Ea; [| discriminate].
      destruct (NodeLayout.is_valid_advanced_format _ _ _) as [[r s]|] eqn:E;
        [| discriminate].
      injection Hv as Hr Hs. subst s.
      pose proof (advanced_layout_dependencies O VALID_AGENTS _ _ _ Hn Ea E Hr)
        as Hall.
      rewrite Forall_forall in Hall. now apply Hall. }
  destruct Hd as (D1 & D2 & D3 & D4 & D5 & D6).
  rewrite !is_role_false, !is_role_In. tauto.
Qed.

Lemma role_dependencies_met_witness :
  exists self' : NodeLayout.t,
    NodeLayout.is_valid [] insertion_order
      (NodeLayout.init (Some three_databases) None None None None "cassandra")
    = Ok (true, self')
    /\ forall n, In n (NodeLayout.nodes self') ->
                 Node.is_role "master" n = false.
Proof.
  eexists. split; [vm_compute; reflexivity |].
  intros n Hin.
  apply (role_dependencies_met [] insertion_order
           (NodeLayout.init (Some three_databases) None None None None
              "cassandra")
           _ eq_refl ltac:(vm_compute; reflexivity) n Hin).
Defined.
